(** * A shallow embedding of the multi-step agent (level 3) and its tools

    The development follows the Python sources:
      - [level2/calculator_tool.py]  (class [CalculatorTool]),
      - [level3/translator_tool.py]  (class [TranslatorTool]),
      - [level3/full_agent.py]       (classes [TaskStep] and [FullAgent]),
      - [level2/chatbot_with_tool.py] (class [ChatbotWithTool], the
        caller of the calculator at level 2).

    Modelling conventions.
      - A Python [str] is a [string]; the text handled by the agent is
        taken to be ASCII, and the few non-ASCII characters of the
        program's own literals are carried as their UTF-8 bytes.  Case
        mapping and the character classes of [re] are given on the ASCII
        range.
      - A Python [float] is an IEEE-754 binary64 number, [spec_float] at
        precision 53 and maximal exponent 1024.
      - A Python [dict] with string keys is a [gmap string _].
      - A computation that may raise is a value of [res]; [try]/[except
        Exception] is [try_except].
      - In-place mutation of a [TaskStep] is a functional update of the
        record; the list of steps of one query is not aliased anywhere.
      - [print] appends a line to the standard output, the state that
        [process_query] threads. *)

From Stdlib Require Import ZArith String Ascii List Bool SpecFloat.
From Stdlib Require Import DecimalString.
From stdpp Require Import base strings gmap list option.

Open Scope string_scope.

(** ** Python strings *)

Module PyStr.

Local Open Scope nat_scope.

Definition code (c : ascii) : nat := nat_of_ascii c.

Definition dquote : ascii := ascii_of_nat 34.
Definition squote : ascii := ascii_of_nat 39.
Definition newline : ascii := ascii_of_nat 10.

Definition nl : string := String newline "".
Definition dq : string := String dquote "".

(** [str.isspace] on one ASCII character: TAB..CR, FS..US and SPACE. *)
Definition is_space (c : ascii) : bool :=
  let n := code c in
  ((9 <=? n) && (n <=? 13)) || ((28 <=? n) && (n <=? 32)).

(** The class [\d] and the digits of [float()], on one ASCII character. *)
Definition is_digit (c : ascii) : bool :=
  let n := code c in (48 <=? n) && (n <=? 57).

Definition is_upper (c : ascii) : bool :=
  let n := code c in (65 <=? n) && (n <=? 90).

Definition is_lower (c : ascii) : bool :=
  let n := code c in (97 <=? n) && (n <=? 122).

(** The class [\w]: letters, digits and the underscore. *)
Definition is_word (c : ascii) : bool :=
  is_upper c || is_lower c || is_digit c || (code c =? 95).

Definition lower_char (c : ascii) : ascii :=
  if is_upper c then ascii_of_nat (code c + 32) else c.

(** [s.lower()], for [s] written in ASCII: the letters A to Z are
    lowered. *)
Fixpoint lower (s : string) : string :=
  match s with
  | EmptyString => EmptyString
  | String c s' => String (lower_char c) (lower s')
  end.

Fixpoint lstrip (s : string) : string :=
  match s with
  | EmptyString => EmptyString
  | String c s' => if is_space c then lstrip s' else s
  end.

Fixpoint rstrip (s : string) : string :=
  match s with
  | EmptyString => EmptyString
  | String c s' =>
      match rstrip s' with
      | EmptyString => if is_space c then EmptyString else String c EmptyString
      | t => String c t
      end
  end.

(** [s.strip()] *)
Definition strip (s : string) : string := rstrip (lstrip s).

(** [s.split()]: the maximal runs of non-blank characters, in order.
    [cur] is the run being read, kept reversed. *)
Fixpoint split_aux (cur : list ascii) (s : string) : list string :=
  let flush := match cur with
               | [] => []
               | _ => [string_of_list_ascii (rev cur)]
               end in
  match s with
  | EmptyString => flush
  | String c s' =>
      if is_space c then flush ++ split_aux [] s'
      else split_aux (c :: cur) s'
  end.

Definition split (s : string) : list string := split_aux [] s.

(** [sep.join(l)] *)
Fixpoint join (sep : string) (l : list string) : string :=
  match l with
  | [] => ""
  | [x] => x
  | x :: l' => x +:+ sep +:+ join sep l'
  end.

Fixpoint starts_with (p s : string) : bool :=
  match p, s with
  | EmptyString, _ => true
  | String a p', String b s' => Ascii.eqb a b && starts_with p' s'
  | String _ _, EmptyString => false
  end.

(** [p in s] for two strings *)
Fixpoint contains (p s : string) : bool :=
  starts_with p s ||
  match s with
  | EmptyString => false
  | String _ s' => contains p s'
  end.

(** [str(n)] for a non-negative [int] *)
Definition of_nat (n : nat) : string :=
  NilEmpty.string_of_uint (Nat.to_uint n).

(** The characters of [s] all satisfy [P]. *)
Fixpoint all_chars (P : ascii -> bool) (s : string) : bool :=
  match s with
  | EmptyString => true
  | String c s' => P c && all_chars P s'
  end.

End PyStr.

(** ** The fragment of Python's [re] that the program uses

    Backtracking matching with Python's priorities: a greedy repetition
    takes as many characters as it can and gives them back one by one, a
    lazy one takes as few as it can, the left branch of an alternation is
    tried first.  Every repetition in the program's patterns is over a
    single character class, so the repetitions recurse on the text. *)

Module Re.

Local Open Scope nat_scope.

Inductive regex : Type :=
| Eps                                            (* the empty pattern *)
| Lit (l : string)                               (* literal text *)
| Class (p : ascii -> bool)                      (* one character of a class *)
| Rep (lazy : bool) (least : nat) (p : ascii -> bool)
                                                 (* p* p+ and their lazy forms *)
| Cat (r1 r2 : regex)
| Alt (r1 r2 : regex)
| Group (n : nat) (r : regex)                    (* capturing group number n *)
| Eos.                                           (* $ *)

(** The groups captured so far, by number. *)
Abbreviation caps := (gmap nat string).

(** A match object: the captured groups and the text left after the
    match. *)
Record match_obj : Type := MatchObj { groups : caps; rest : string }.

(** [m.group(n)] *)
Definition group (m : match_obj) (n : nat) : string :=
  default "" (groups m !! n).

Fixpoint drop_prefix (l s : string) : option string :=
  match l, s with
  | EmptyString, _ => Some s
  | String a l', String b s' => if Ascii.eqb a b then drop_prefix l' s' else None
  | String _ _, EmptyString => None
  end.

(** The text read between the suffixes [s] and [s'] of the subject. *)
Definition consumed (s s' : string) : string :=
  String.substring 0 (String.length s - String.length s') s.

(** [$] without MULTILINE: at the end, or before a final newline. *)
Definition at_end (s : string) : bool :=
  match s with
  | EmptyString => true
  | String c EmptyString => Ascii.eqb c PyStr.newline
  | _ => false
  end.

Definition or_else {A} (x : option A) (y : option A) : option A :=
  match x with Some a => Some a | None => y end.

Section Matcher.
Context {A : Type}.

Fixpoint rep_greedy (p : ascii -> bool) (least : nat) (s : string)
    (k : string -> option A) : option A :=
  let stop := match least with O => k s | S _ => None end in
  match s with
  | String c s' =>
      if p c then or_else (rep_greedy p (Nat.pred least) s' k) stop else stop
  | EmptyString => stop
  end.

Fixpoint rep_lazy (p : ascii -> bool) (least : nat) (s : string)
    (k : string -> option A) : option A :=
  match least, s with
  | O, String c s' =>
      or_else (k s) (if p c then rep_lazy p O s' k else None)
  | O, EmptyString => k s
  | S n, String c s' => if p c then rep_lazy p n s' k else None
  | S _, EmptyString => None
  end.

(** [match_here r s c k]: match [r] at the head of [s] with the groups
    [c] already captured, and hand the remaining text and the groups
    to [k]; when [k] refuses, backtrack. *)
Fixpoint match_here (r : regex) (s : string) (c : caps)
    (k : string -> caps -> option A) : option A :=
  match r with
  | Eps => k s c
  | Lit l =>
      match drop_prefix l s with
      | Some s' => k s' c
      | None => None
      end
  | Class p =>
      match s with
      | String a s' => if p a then k s' c else None
      | EmptyString => None
      end
  | Rep lazy least p =>
      (if lazy then rep_lazy else rep_greedy) p least s (fun s' => k s' c)
  | Cat r1 r2 =>
      match_here r1 s c (fun s' c' => match_here r2 s' c' k)
  | Alt r1 r2 =>
      or_else (match_here r1 s c k) (match_here r2 s c k)
  | Group n r1 =>
      match_here r1 s c (fun s' c' => k s' (<[n := consumed s s']> c'))
  | Eos => if at_end s then k s c else None
  end.
End Matcher.

(** [re.match]-like: a match that starts at the head of [s]. *)
Definition match_at (r : regex) (s : string) : option match_obj :=
  match_here r s ∅ (fun s' c => Some (MatchObj c s')).

(** [re.search(r, s)]: the match at the leftmost position that has one. *)
Fixpoint search (r : regex) (s : string) : option match_obj :=
  match match_at r s with
  | Some m => Some m
  | None =>
      match s with
      | EmptyString => None
      | String _ s' => search r s'
      end
  end.

(** [re.finditer(r, s)]: the successive non-overlapping matches, left to
    right.  [skip] counts the characters still covered by the last
    match.  After an empty match the scan moves on by one character
    (none of the program's patterns matches the empty text). *)
Fixpoint finditer_from (r : regex) (skip : nat) (s : string)
    {struct s} : list match_obj :=
  match skip with
  | S j =>
      match s with
      | EmptyString => []
      | String _ s' => finditer_from r j s'
      end
  | O =>
      match match_at r s with
      | Some m =>
          m :: match s with
               | EmptyString => []
               | String _ s' =>
                   finditer_from r
                     (String.length s - String.length (rest m) - 1) s'
               end
      | None =>
          match s with
          | EmptyString => []
          | String _ s' => finditer_from r O s'
          end
      end
  end.

Definition finditer (r : regex) (s : string) : list match_obj :=
  finditer_from r O s.

(** Concatenation of a sequence of patterns. *)
Definition cat (l : list regex) : regex := fold_right Cat Eps l.

(** The building blocks of the program's patterns. *)
Definition dot (c : ascii) : bool := negb (Ascii.eqb c PyStr.newline).
Definition quote (c : ascii) : bool :=
  Ascii.eqb c PyStr.squote || Ascii.eqb c PyStr.dquote.
Definition not_quote (c : ascii) : bool := negb (quote c).

Definition ws1 : regex := Rep false 1 PyStr.is_space.        (* \s+ *)
Definition ws0 : regex := Rep false 0 PyStr.is_space.        (* \s* *)
Definition digits (n : nat) : regex :=
  Group n (Rep false 1 PyStr.is_digit).                      (* (\d+) *)
(** A quoted phrase: an opening quote of either kind, the group of the
    characters up to the next quote, a closing quote. *)
Definition quoted (n : nat) : regex :=
  cat [Class quote; Group n (Rep false 1 not_quote); Class quote].
Definition opt (r : regex) : regex := Alt r Eps.             (* (?:r)? *)

End Re.

(** ** Python floats

    Binary64 arithmetic is that of [SpecFloat]; [of_digits] is [float(s)]
    on a string of decimal digits and [repr] is [repr(x)], the text that
    an f-string puts for a float: the shortest decimal that reads back as
    the same float, shown in positional notation when its decimal point
    lies in positions -3 .. 16 and in exponent notation otherwise. *)

Module PyFloat.

Local Open Scope Z_scope.

Abbreviation float := spec_float.

Definition prec : Z := 53.
Definition emax : Z := 1024.

Definition of_Z (z : Z) : float := binary_normalize prec emax z 0 false.

Definition add (x y : float) : float := SFadd prec emax x y.
Definition sub (x y : float) : float := SFsub prec emax x y.
Definition mul (x y : float) : float := SFmul prec emax x y.
Definition div (x y : float) : float := SFdiv prec emax x y.

(** [x == y] *)
Definition eqb (x y : float) : bool := SFeqb x y.

Definition zero : float := S754_zero false.

Definition digit_val (c : ascii) : Z := Z.of_nat (PyStr.code c) - 48.

Fixpoint digits_val (acc : Z) (s : string) : Z :=
  match s with
  | EmptyString => acc
  | String c s' => digits_val (10 * acc + digit_val c) s'
  end.

(** [float(s)] for [s] a string of decimal digits: the nearest float,
    ties to even. *)
Definition of_digits (s : string) : float := of_Z (digits_val 0 s).

(** [str(z)] for [z >= 0] *)
Definition dec (z : Z) : string :=
  NilEmpty.string_of_uint (N.to_uint (Z.to_N z)).

Fixpoint zeros (n : nat) : string :=
  match n with
  | O => ""
  | S n' => String "0" (zeros n')
  end.

(** A positive finite float [m * 2^e] and its rounding interval, as
    fractions over the common denominator [den]: the reals between
    [lo/den] and [hi/den] (bounds included when [m] is even) are those
    that read back as the float. *)
Record interval : Type :=
  Interval { num : Z; lo : Z; hi : Z; den : Z; closed : bool }.

Definition interval_of (m : positive) (e : Z) : interval :=
  let below := if (Z.pos m =? 2 ^ 52) && (-1074 <? e) then 1 else 2 in
  let p := 2 ^ Z.abs (e - 2) in
  let c := Z.even (Z.pos m) in
  if 0 <=? e - 2
  then Interval (4 * Z.pos m * p) ((4 * Z.pos m - below) * p)
                ((4 * Z.pos m + 2) * p) 1 c
  else Interval (4 * Z.pos m) (4 * Z.pos m - below) (4 * Z.pos m + 2) p c.

(** The decimal [d * 10^q] as a fraction [a / b] with [b] a multiple of
    [den i]: the pair [(a, b / den i)]. *)
Definition decimal (i : interval) (d q : Z) : Z * Z :=
  if 0 <=? q then (d * 10 ^ q * den i, 1) else (d * den i, 10 ^ (- q)).

Definition inside (i : interval) (d q : Z) : bool :=
  let '(a, b) := decimal i d q in
  if closed i then (lo i * b <=? a) && (a <=? hi i * b)
  else (lo i * b <? a) && (a <? hi i * b).

(** The distance from the float to [d * 10^q], times a factor that does
    not depend on [d]. *)
Definition distance (i : interval) (d q : Z) : Z :=
  let '(a, b) := decimal i d q in Z.abs (a - num i * b).

(** [floor (x / 10^q)] *)
Definition floor_quot (i : interval) (q : Z) : Z :=
  if 0 <=? q then num i / (den i * 10 ^ q)
  else (num i * 10 ^ (- q)) / den i.

(** [x < 10^n] *)
Definition below_pow10 (i : interval) (n : Z) : bool :=
  if 0 <=? n then num i <? den i * 10 ^ n
  else num i * 10 ^ (- n) <? den i.

(** The [n] with [10^(n-1) <= x < 10^n], from an estimate by the bit
    length, moved by at most [fuel] units either way. *)
Fixpoint adjust (fuel : nat) (i : interval) (n : Z) : Z :=
  match fuel with
  | O => n
  | S f =>
      if negb (below_pow10 i n) then adjust f i (n + 1)
      else if below_pow10 i (n - 1) then adjust f i (n - 1)
      else n
  end.

Definition decimal_exponent (m : positive) (e : Z) (i : interval) : Z :=
  adjust 4 i (((Z.log2 (Z.pos m) + 1 + e) * 30103) / 100000).

(** The shortest decimal inside the interval: [k] digits are tried for
    [k = 1, 2, ...]; with [k] digits the two decimals around the float
    are the candidates, and the nearer one wins when both fit (the one
    with an even last digit on a tie).  Seventeen digits always fit. *)
Fixpoint shortest (fuel : nat) (i : interval) (n k : Z) : Z * Z :=
  let q := n - k in
  let d := floor_quot i q in
  match fuel with
  | O => (d, q)
  | S f =>
      match inside i d q, inside i (d + 1) q with
      | true, true =>
          match distance i d q ?= distance i (d + 1) q with
          | Lt => (d, q)
          | Gt => (d + 1, q)
          | Eq => if Z.even d then (d, q) else (d + 1, q)
          end
      | true, false => (d, q)
      | false, true => (d + 1, q)
      | false, false => shortest f i n (k + 1)
      end
  end.

Fixpoint strip_zeros (fuel : nat) (d q : Z) : Z * Z :=
  match fuel with
  | O => (d, q)
  | S f => if (d mod 10 =? 0) && (0 <? d) then strip_zeros f (d / 10) (q + 1)
           else (d, q)
  end.

(** The digits and the position of the decimal point: the float is
    [0.digits * 10^decpt]. *)
Definition shortest_digits (m : positive) (e : Z) : string * Z :=
  let i := interval_of m e in
  let n := decimal_exponent m e i in
  let '(d, q) := shortest 17 i n 1 in
  let '(d, q) := strip_zeros 20 d q in
  let ds := dec d in
  (ds, q + Z.of_nat (String.length ds)).

Definition tail (s : string) : string :=
  match s with EmptyString => "" | String _ s' => s' end.
Definition head (s : string) : string :=
  match s with EmptyString => "" | String c _ => String c "" end.

Definition positional (ds : string) (decpt : Z) : string :=
  let k := Z.of_nat (String.length ds) in
  if decpt <=? 0 then "0." +:+ zeros (Z.to_nat (- decpt)) +:+ ds
  else if decpt <? k then
    String.substring 0 (Z.to_nat decpt) ds +:+ "." +:+
    String.substring (Z.to_nat decpt) (Z.to_nat (k - decpt)) ds
  else ds +:+ zeros (Z.to_nat (decpt - k)) +:+ ".0".

Definition exponential (ds : string) (decpt : Z) : string :=
  let x := decpt - 1 in
  let xs := dec (Z.abs x) in
  head ds +:+ (if tail ds =? "" then "" else "." +:+ tail ds)%string +:+
  "e" +:+ (if x <? 0 then "-" else "+") +:+
  (if Z.abs x <? 10 then "0" +:+ xs else xs).

Definition repr (x : float) : string :=
  match x with
  | S754_nan => "nan"
  | S754_infinity s => if s then "-inf" else "inf"
  | S754_zero s => if s then "-0.0" else "0.0"
  | S754_finite s m e =>
      let '(ds, decpt) := shortest_digits m e in
      (if s then "-" else "") +:+
      (if (decpt <=? -4) || (16 <? decpt) then exponential ds decpt
       else positional ds decpt)
  end.

End PyFloat.

(** ** Values, exceptions and computations that may raise *)

(** The exceptions that the modelled code can meet; all are subclasses of
    [Exception].  [APIError] stands for whatever exception a language-model
    client raises (transport, authentication, quota ...). *)
Inductive exn : Type :=
| KeyError (key : string)
| UnboundLocalError (name : string)
| TypeError (msg : string)
| ZeroDivisionError (msg : string)
| AttributeError (msg : string)
| APIError (msg : string).

(** [str(e)].  The text for [UnboundLocalError] is that of CPython 3.11
    and later; earlier versions word it differently. *)
Definition str_exn (e : exn) : string :=
  match e with
  | KeyError key => "'" +:+ key +:+ "'"
  | UnboundLocalError name =>
      "cannot access local variable '" +:+ name +:+
      "' where it is not associated with a value"
  | TypeError msg => msg
  | ZeroDivisionError msg => msg
  | AttributeError msg => msg
  | APIError msg => msg
  end.

Inductive res (A : Type) : Type :=
| Ret (a : A)
| Raise (e : exn).
Arguments Ret {A} a.
Arguments Raise {A} e.

#[global] Instance res_ret : MRet res := fun _ a => Ret a.
#[global] Instance res_bind : MBind res := fun _ _ f m =>
  match m with
  | Ret a => f a
  | Raise e => Raise e
  end.

(** [try: body  except Exception as e: handler(e)] *)
Definition try_except {A} (body : res A) (handler : exn -> res A) : res A :=
  match body with
  | Ret a => Ret a
  | Raise e => handler e
  end.

(** Reading a local variable: [UnboundLocalError] while it has not been
    assigned. *)
Definition read_local {A} (name : string) (v : option A) : res A :=
  match v with
  | Some a => Ret a
  | None => Raise (UnboundLocalError name)
  end.

(** The values stored in a step's parameters: strings and floats. *)
Inductive scalar : Type :=
| PStr (s : string)
| PFloat (x : PyFloat.float).

(** The values stored in a result dictionary. *)
Inductive pyval : Type :=
| VBool (b : bool)
| VStr (s : string)
| VFloat (x : PyFloat.float).

Definition val (p : scalar) : pyval :=
  match p with
  | PStr s => VStr s
  | PFloat x => VFloat x
  end.

(** A dictionary with string keys. *)
Abbreviation dict := (gmap string).

(** [d[key]] *)
Definition getitem {A} (d : dict A) (key : string) : res A :=
  match d !! key with
  | Some v => Ret v
  | None => Raise (KeyError key)
  end.

Module Py.

Definition type_name (p : scalar) : string :=
  match p with
  | PStr _ => "str"
  | PFloat _ => "float"
  end.

(** How an f-string shows a value. *)
Definition format (p : scalar) : string :=
  match p with
  | PStr s => s
  | PFloat x => PyFloat.repr x
  end.

Definition format_val (v : pyval) : string :=
  match v with
  | VBool b => if b then "True" else "False"
  | VStr s => s
  | VFloat x => PyFloat.repr x
  end.

(** Truth value of [d.get(key)]: a missing key gives [None]. *)
Definition truthy (v : option pyval) : bool :=
  match v with
  | None => false
  | Some (VBool b) => b
  | Some (VStr s) => negb (s =? "")%string
  | Some (VFloat x) => negb (PyFloat.eqb x PyFloat.zero)
  end.

(** [p == s] for a string literal [s] *)
Definition eq_str (p : scalar) (s : string) : bool :=
  match p with
  | PStr t => (t =? s)%string
  | PFloat _ => false
  end.

(** [p == 0] *)
Definition eq_zero (p : scalar) : bool :=
  match p with
  | PStr _ => false
  | PFloat x => PyFloat.eqb x PyFloat.zero
  end.

Definition unsupported (op : string) (a b : scalar) : exn :=
  TypeError ("unsupported operand type(s) for " +:+ op +:+ ": '" +:+
             type_name a +:+ "' and '" +:+ type_name b +:+ "'").

(** [p.lower()]: only a string has the method. *)
Definition lower (p : scalar) : res string :=
  match p with
  | PStr s => Ret (PyStr.lower s)
  | PFloat _ =>
      Raise (AttributeError "'float' object has no attribute 'lower'")
  end.

(** [a + b] *)
Definition add (a b : scalar) : res scalar :=
  match a, b with
  | PFloat x, PFloat y => Ret (PFloat (PyFloat.add x y))
  | PStr s, PStr t => Ret (PStr (s +:+ t))
  | PStr _, PFloat _ =>
      Raise (TypeError ("can only concatenate str (not " +:+ PyStr.dq +:+
                        "float" +:+ PyStr.dq +:+ ") to str"))
  | PFloat _, PStr _ => Raise (unsupported "+" a b)
  end.

(** [a - b] *)
Definition sub (a b : scalar) : res scalar :=
  match a, b with
  | PFloat x, PFloat y => Ret (PFloat (PyFloat.sub x y))
  | _, _ => Raise (unsupported "-" a b)
  end.

(** [a * b] *)
Definition mul (a b : scalar) : res scalar :=
  match a, b with
  | PFloat x, PFloat y => Ret (PFloat (PyFloat.mul x y))
  | PStr _, _ =>
      Raise (TypeError ("can't multiply sequence by non-int of type '" +:+
                        type_name b +:+ "'"))
  | PFloat _, PStr _ =>
      Raise (TypeError "can't multiply sequence by non-int of type 'float'")
  end.

(** [a / b], reached in the program only with [b != 0]. *)
Definition truediv (a b : scalar) : res scalar :=
  match a, b with
  | PFloat x, PFloat y =>
      if PyFloat.eqb y PyFloat.zero
      then Raise (ZeroDivisionError "float division by zero")
      else Ret (PFloat (PyFloat.div x y))
  | _, _ => Raise (unsupported "/" a b)
  end.

End Py.

(** ** [CalculatorTool] (level2/calculator_tool.py) *)

Module CalculatorTool.

(** What the [if]/[elif] chain of [calculate] leaves behind: either the
    function has returned a reply from inside the chain, or [result]
    and [operation_name] are assigned and control reaches the final
    [return]. *)
Inductive chain : Type :=
| Returned (reply : dict pyval)
| Assigned (result : scalar) (operation_name : string).

(** The body of the [try] block.  On entry the local [operation_name]
    is unassigned; the division-by-zero branch reads it while building
    its reply. *)
Definition calculate_try (operation operand1 operand2 : scalar)
    : res (dict pyval) :=
  c ← (if Py.eq_str operation "+" then
         result ← Py.add operand1 operand2;
         mret (Assigned result "addition")
       else if Py.eq_str operation "-" then
         result ← Py.sub operand1 operand2;
         mret (Assigned result "subtraction")
       else if Py.eq_str operation "*" then
         result ← Py.mul operand1 operand2;
         mret (Assigned result "multiplication")
       else if Py.eq_str operation "/" then
         if Py.eq_zero operand2 then
           operation_name ← read_local "operation_name" (@None string);
           mret (Returned
                   {[ "success" := VBool false;
                      "error" := VStr "Division by zero is not allowed";
                      "operation" := VStr operation_name;
                      "operand1" := val operand1;
                      "operand2" := val operand2 ]})
         else
           result ← Py.truediv operand1 operand2;
           mret (Assigned result "division")
       else
         mret (Returned
                 {[ "success" := VBool false;
                    "error" := VStr ("Unsupported operation: " +:+
                                     Py.format operation);
                    "operation" := val operation;
                    "operand1" := val operand1;
                    "operand2" := val operand2 ]}));
  match c with
  | Returned reply => mret reply
  | Assigned result operation_name =>
      mret {[ "success" := VBool true;
              "result" := val result;
              "operation" := VStr operation_name;
              "operand1" := val operand1;
              "operand2" := val operand2;
              "expression" :=
                VStr (Py.format operand1 +:+ " " +:+ Py.format operation +:+
                      " " +:+ Py.format operand2 +:+ " = " +:+
                      Py.format result) ]}
  end.

(** [calculate(operation, operand1, operand2)] *)
Definition calculate (operation operand1 operand2 : scalar)
    : res (dict pyval) :=
  try_except (calculate_try operation operand1 operand2)
    (fun e =>
       mret {[ "success" := VBool false;
               "error" := VStr (str_exn e);
               "operation" := val operation;
               "operand1" := val operand1;
               "operand2" := val operand2 ]}).

(** *** Requests in words (the rest of the class) *)

(** [self.supported_operations] *)
Definition supported_operations : dict string :=
  list_to_map
    [ ("add", "+"); ("plus", "+"); ("sum", "+"); ("multiply", "*");
      ("times", "*"); ("subtract", "-"); ("minus", "-"); ("divide", "/");
      ("division", "/") ].

(** The class of the four operator signs. *)
Definition is_operator (c : ascii) : bool :=
  match PyStr.code c with
  | 43 | 45 | 42 | 47 => true
  | _ => false
  end.

(** The alternation of the five operator words, in the order of the
    pattern. *)
Definition operator_word : Re.regex :=
  Re.Alt (Re.Lit "plus")
    (Re.Alt (Re.Lit "minus")
       (Re.Alt (Re.Lit "times")
          (Re.Alt (Re.Lit "multiply") (Re.Lit "divide")))).

(** The eight patterns of [detect_math_operation], in the order of the
    source list. *)
Definition patterns : list Re.regex :=
  [ Re.cat [Re.Lit "what"; Re.ws1; Re.Lit "is"; Re.ws1; Re.digits 1; Re.ws0;
            Re.Group 2 (Re.Class is_operator); Re.ws0; Re.digits 3];
    Re.cat [Re.digits 1; Re.ws1; Re.Group 2 operator_word; Re.ws1;
            Re.digits 3];
    Re.cat [Re.Lit "add"; Re.ws1; Re.digits 1; Re.ws1; Re.Lit "and"; Re.ws1;
            Re.digits 2];
    Re.cat [Re.Lit "multiply"; Re.ws1; Re.digits 1; Re.ws1; Re.Lit "and";
            Re.ws1; Re.digits 2];
    Re.cat [Re.digits 1; Re.ws0; Re.Lit "+"; Re.ws0; Re.digits 2];
    Re.cat [Re.digits 1; Re.ws0; Re.Lit "*"; Re.ws0; Re.digits 2];
    Re.cat [Re.digits 1; Re.ws0; Re.Lit "-"; Re.ws0; Re.digits 2];
    Re.cat [Re.digits 1; Re.ws0; Re.Lit "/"; Re.ws0; Re.digits 2] ].

(** [len(match.groups())]: the number of groups of the pattern. *)
Fixpoint group_count (r : Re.regex) : nat :=
  match r with
  | Re.Cat r1 r2 | Re.Alt r1 r2 => group_count r1 + group_count r2
  | Re.Group _ r1 => S (group_count r1)
  | _ => O
  end.

(** What [detect_math_operation] makes of a match of [pattern]: with
    three groups the middle one is the operator, a word being replaced by
    its sign; with two groups the operator is read off the whole text.
    With any other number of groups nothing would be assigned. *)
Definition operation_of (pattern : Re.regex) (m : Re.match_obj)
    (text text_lower : string) : res (dict scalar) :=
  if (group_count pattern =? 3)%nat then
    let op := Re.group m 2 in
    let op := match supported_operations !! op with
              | Some sign => sign
              | None => op
              end in
    mret {[ "operation" := PStr op;
            "operand1" := PFloat (PyFloat.of_digits (Re.group m 1));
            "operand2" := PFloat (PyFloat.of_digits (Re.group m 3));
            "original_text" := PStr text ]}
  else if (group_count pattern =? 2)%nat then
    let op := if PyStr.contains "add" text_lower then "+"
              else if PyStr.contains "multiply" text_lower then "*"
              else "+" in
    mret {[ "operation" := PStr op;
            "operand1" := PFloat (PyFloat.of_digits (Re.group m 1));
            "operand2" := PFloat (PyFloat.of_digits (Re.group m 2));
            "original_text" := PStr text ]}
  else
    op ← read_local "op" (@None string);
    mret {[ "operation" := PStr op ]}.

(** The loop over the patterns: the first one found in the text
    decides. *)
Fixpoint detect_in (ps : list Re.regex) (text text_lower : string)
    : res (option (dict scalar)) :=
  match ps with
  | [] => mret None
  | pattern :: ps' =>
      match Re.search pattern text_lower with
      | Some m =>
          found ← operation_of pattern m text text_lower;
          mret (Some found)
      | None => detect_in ps' text text_lower
      end
  end.

(** [detect_math_operation(text)] *)
Definition detect_math_operation (text : string)
    : res (option (dict scalar)) :=
  detect_in patterns text (PyStr.lower text).

(** [process_query(text)] *)
Definition process_query (text : string) : res (option (dict pyval)) :=
  math_operation ← detect_math_operation text;
  match math_operation with
  | Some found =>
      operation ← getitem found "operation";
      operand1 ← getitem found "operand1";
      operand2 ← getitem found "operand2";
      reply ← calculate operation operand1 operand2;
      mret (Some (<[ "original_query" := VStr text ]> reply))
  | None => mret None
  end.

(** [format_result(result)] *)
Definition format_result (reply : dict pyval) : res string :=
  success ← getitem reply "success";
  if Py.truthy (Some success) then
    expression ← getitem reply "expression";
    mret ("🔢 Calculator Result: " +:+ Py.format_val expression)
  else
    error ← getitem reply "error";
    mret ("❌ Calculator Error: " +:+ Py.format_val error).

End CalculatorTool.

(** ** [TranslatorTool] (level3/translator_tool.py) *)

Module TranslatorTool.

Import Re.

Definition translation_dict : dict string :=
  list_to_map
    [ ("good morning", "Guten Morgen"); ("good afternoon", "Guten Tag");
      ("good evening", "Guten Abend"); ("good night", "Gute Nacht");
      ("hello", "Hallo"); ("hi", "Hallo"); ("goodbye", "Auf Wiedersehen");
      ("thank you", "Danke"); ("please", "Bitte"); ("yes", "Ja");
      ("no", "Nein"); ("sunshine", "Sonnenschein");
      ("have a nice day", "Einen schönen Tag noch");
      ("how are you", "Wie geht es dir"); ("i am fine", "Mir geht es gut");
      ("welcome", "Willkommen"); ("excuse me", "Entschuldigung");
      ("sorry", "Entschuldigung"); ("water", "Wasser"); ("bread", "Brot");
      ("house", "Haus"); ("car", "Auto"); ("book", "Buch");
      ("friend", "Freund"); ("family", "Familie"); ("work", "Arbeit");
      ("school", "Schule"); ("time", "Zeit"); ("day", "Tag");
      ("night", "Nacht"); ("morning", "Morgen");
      ("afternoon", "Nachmittag"); ("evening", "Abend"); ("week", "Woche");
      ("month", "Monat"); ("year", "Jahr"); ("today", "Heute");
      ("tomorrow", "Morgen"); ("yesterday", "Gestern"); ("big", "Groß");
      ("small", "Klein"); ("good", "Gut"); ("bad", "Schlecht");
      ("beautiful", "Schön"); ("ugly", "Hässlich"); ("hot", "Heiß");
      ("cold", "Kalt"); ("new", "Neu"); ("old", "Alt"); ("young", "Jung");
      ("happy", "Glücklich"); ("sad", "Traurig"); ("angry", "Wütend");
      ("tired", "Müde"); ("hungry", "Hungrig"); ("thirsty", "Durstig");
      ("love", "Liebe"); ("hate", "Hass"); ("like", "Gefallen");
      ("want", "Wollen"); ("need", "Brauchen"); ("can", "Können");
      ("must", "Müssen"); ("should", "Sollten"); ("will", "Werden");
      ("would", "Würden"); ("could", "Könnten"); ("may", "Dürfen");
      ("might", "Könnten") ].

(** The six request patterns, in the order of the source list. *)
Definition patterns : list regex :=
  [ cat [Lit "translate"; ws1; quoted 1; ws1; Lit "into"; ws1; Lit "german"];
    cat [Lit "translate"; ws1; quoted 1; ws1; Lit "to"; ws1; Lit "german"];
    cat [quoted 1; ws1; Lit "in"; ws1; Lit "german"];
    cat [Lit "how"; ws1; Lit "do"; ws1; Lit "you"; ws1; Lit "say"; ws1;
         quoted 1; ws1; Lit "in"; ws1; Lit "german"];
    cat [Lit "german"; ws1; Lit "for"; ws1; quoted 1];
    cat [Lit "what"; ws1; Lit "is"; ws1; quoted 1; ws1; Lit "in"; ws1;
         Lit "german"] ].

(** The loop over the patterns: the first pattern that is found
    somewhere in [text_lower] decides. *)
Fixpoint first_match (ps : list regex) (text_lower : string)
    : option match_obj :=
  match ps with
  | [] => None
  | p :: ps' =>
      match search p text_lower with
      | Some m => Some m
      | None => first_match ps' text_lower
      end
  end.

(** [detect_translation_request(text)] *)
Definition detect_translation_request (text : string)
    : option (dict string) :=
  let text_lower := PyStr.lower text in
  match first_match patterns text_lower with
  | Some m =>
      let english_text := PyStr.strip (group m 1) in
      Some {[ "english_text" := english_text;
              "target_language" := "german";
              "original_text" := text ]}
  | None => None
  end.

(** The word-by-word loop: a known word gives its translation, an
    unknown one is kept between brackets. *)
Definition translate_word (word : string) : string :=
  match translation_dict !! word with
  | Some german => german
  | None => "[" +:+ word +:+ "]"
  end.

Definition translate_try (english_text : scalar) : res (dict pyval) :=
  lowered ← Py.lower english_text;
  let english_lower := PyStr.strip lowered in
  match translation_dict !! english_lower with
  | Some german_translation =>
      mret {[ "success" := VBool true;
              "english_text" := val english_text;
              "german_translation" := VStr german_translation;
              "confidence" := VStr "high" ]}
  | None =>
      let words := PyStr.split english_lower in
      let translated_words := map translate_word words in
      match translated_words with
      | _ :: _ =>
          let german_translation := PyStr.join " " translated_words in
          mret {[ "success" := VBool true;
                  "english_text" := val english_text;
                  "german_translation" := VStr german_translation;
                  "confidence" := VStr "partial";
                  "note" := VStr "Some words may not be accurately translated" ]}
      | [] =>
          mret {[ "success" := VBool false;
                  "english_text" := val english_text;
                  "error" := VStr "Translation not available for this text";
                  "suggestion" := VStr "Try a simpler phrase or common words" ]}
      end
  end.

(** [translate(english_text)] *)
Definition translate (english_text : scalar) : res (dict pyval) :=
  try_except (translate_try english_text)
    (fun e =>
       mret {[ "success" := VBool false;
               "english_text" := val english_text;
               "error" := VStr (str_exn e) ]}).

(** [process_query(text)] *)
Definition process_query (text : string) : res (option (dict pyval)) :=
  match detect_translation_request text with
  | Some translation_request =>
      english_text ← getitem translation_request "english_text";
      reply ← translate (PStr english_text);
      mret (Some (<[ "original_query" := VStr text ]> reply))
  | None => mret None
  end.

(** [format_result(result)] *)
Definition format_result (reply : dict pyval) : res string :=
  success ← getitem reply "success";
  if Py.truthy (Some success) then
    confidence_note ←
      match reply !! "confidence" with
      | Some confidence =>
          mret (" (Confidence: " +:+ Py.format_val confidence +:+ ")")
      | None => mret ""
      end;
    note ←
      match reply !! "note" with
      | Some text => mret (PyStr.nl +:+ "Note: " +:+ Py.format_val text)
      | None => mret ""
      end;
    english_text ← getitem reply "english_text";
    german_translation ← getitem reply "german_translation";
    mret ("🌍 Translation Result: '" +:+ Py.format_val english_text +:+
          "' → '" +:+ Py.format_val german_translation +:+ "'" +:+
          confidence_note +:+ note)
  else
    error ← getitem reply "error";
    mret ("❌ Translation Error: " +:+ Py.format_val error).

End TranslatorTool.

(** ** Standard output and exceptions together

    A computation of [process_query] prints lines and may raise; what was
    printed before an exception stays printed. *)

Definition io (A : Type) : Type := (list string * res A)%type.

#[global] Instance io_ret : MRet io := fun _ a => ([], Ret a).
#[global] Instance io_bind : MBind io := fun _ _ f m =>
  match m with
  | (out, Ret a) => let '(out', r) := f a in ((out ++ out')%list, r)
  | (out, Raise e) => (out, Raise e)
  end.

(** [print(line)] *)
Definition print (line : string) : io unit := ([line], Ret tt).

Definition lift {A} (r : res A) : io A := ([], r).

Definition stdout {A} (m : io A) : list string := fst m.
Definition outcome {A} (m : io A) : res A := snd m.

(** ** [TaskStep] and [FullAgent] (level3/full_agent.py) *)

Record TaskStep : Type := mkTaskStep {
  description : string;
  tool_type : option string;
  parameters : dict scalar;
  result : option (dict pyval);
  completed : bool;
  error : option string
}.

(** [TaskStep(description, tool_type, parameters)] *)
Definition new_TaskStep (description : string) (tool_type : option string)
    (parameters : dict scalar) : TaskStep :=
  mkTaskStep description tool_type parameters None false None.

(** The agent: the kind of language-model backend chosen by [setup_llm]
    and the two remote services.  A service takes the prompt and either
    returns the text of the reply or raises. *)
Record FullAgent : Type := mkFullAgent {
  llm_type : string;
  openai : string -> res string;
  gemini : string -> res string
}.

(** One entry of [conversation_history], without its timestamp. *)
Record interaction : Type := mkInteraction {
  user_question : string;
  response : string;
  logged_llm_type : string;
  steps : list TaskStep
}.

Module Agent.

Import Re.

Definition lines (l : list string) : string := PyStr.join PyStr.nl l.

(** *** The three passes and the fallback *)

Definition add_patterns : list regex :=
  [ cat [Lit "add"; ws1; digits 1; ws1; Lit "and"; ws1; digits 2];
    cat [digits 1; ws0; Lit "+"; ws0; digits 2];
    cat [digits 1; ws1; Lit "plus"; ws1; digits 2] ].

Definition multiply_patterns : list regex :=
  [ cat [Lit "multiply"; ws1; digits 1; ws1; Lit "and"; ws1; digits 2];
    cat [digits 1; ws0; Lit "*"; ws0; digits 2];
    cat [digits 1; ws1; Lit "times"; ws1; digits 2] ].

(** One entry of [operations]. *)
Definition math_op (operation shown : string) (m : match_obj) : dict scalar :=
  {[ "operation" := PStr operation;
     "operand1" := PFloat (PyFloat.of_digits (group m 1));
     "operand2" := PFloat (PyFloat.of_digits (group m 2));
     "expression" := PStr (group m 1 +:+ " " +:+ shown +:+ " " +:+ group m 2) ]}.

(** [extract_math_operations(text)]: every addition pattern in turn,
    then every multiplication pattern, each over the whole text. *)
Definition extract_math_operations (text : string) : list (dict scalar) :=
  (flat_map (fun pattern =>
               map (math_op "+" "+") (finditer pattern (PyStr.lower text)))
            add_patterns ++
   flat_map (fun pattern =>
               map (math_op "*" "×") (finditer pattern (PyStr.lower text)))
            multiply_patterns)%list.

(** The end of a question: [and], [then] or the end of the text. *)
Definition delimiter : regex :=
  Alt (cat [ws1; Lit "and"; ws1]) (Alt (cat [ws1; Lit "then"; ws1]) Eos).

Definition fragment : regex := Group 1 (Rep true 1 dot).

Definition knowledge_patterns : list regex :=
  [ cat [Lit "tell"; ws1; Lit "me"; ws1; fragment; delimiter];
    cat [Lit "what"; ws1; Lit "is"; ws1; opt (cat [Lit "the"; ws1]);
         fragment; delimiter];
    cat [Lit "which"; ws1; fragment; delimiter];
    cat [Lit "capital"; ws1; Lit "of"; ws1;
         Group 1 (Rep false 1 PyStr.is_word)];
    cat [Lit "distance"; ws1; Lit "between"; ws1; fragment; delimiter] ].

(** The questions that one pattern contributes: the stripped captures
    longer than three characters (in ASCII a character is a byte, and
    [String.length] is [len]). *)
Definition questions_of (pattern : regex) (text_lower : string)
    : list string :=
  List.filter (fun question => (3 <? String.length question)%nat)
         (map (fun m => PyStr.strip (group m 1))
              (finditer pattern text_lower)).

(** [extract_knowledge_questions(text)] *)
Definition extract_knowledge_questions (text : string) : list string :=
  flat_map (fun pattern => questions_of pattern (PyStr.lower text))
           knowledge_patterns.

Definition translation_step (english_text : string) : TaskStep :=
  new_TaskStep ("Translate '" +:+ english_text +:+ "' to German")
               (Some "translator")
               {[ "english_text" := PStr english_text ]}.

(** The step of one entry of [extract_math_operations]; the entry
    always has its [expression]. *)
Definition math_step (op : dict scalar) : TaskStep :=
  new_TaskStep
    ("Calculate " +:+ from_option Py.format "" (op !! "expression"))
    (Some "calculator") op.

Definition question_step (question : string) : TaskStep :=
  new_TaskStep ("Answer: " +:+ question) (Some "llm")
               {[ "question" := PStr question ]}.

Definition fallback_step (user_query : string) : TaskStep :=
  new_TaskStep ("Process query: " +:+ user_query) (Some "llm")
               {[ "question" := PStr user_query ]}.

(** The sub-tasks of the three passes, in the order in which
    [analyze_query] appends them. *)
Definition detected_steps (user_query : string) : list TaskStep :=
  (match TranslatorTool.detect_translation_request user_query with
   | Some translation_request =>
       [translation_step (default "" (translation_request !! "english_text"))]
   | None => []
   end ++
   map math_step (extract_math_operations user_query) ++
   map question_step (extract_knowledge_questions user_query))%list.

(** [analyze_query(user_query)] *)
Definition analyze_query (user_query : string) : list TaskStep :=
  match detected_steps user_query with
  | [] => [fallback_step user_query]
  | found => found
  end.

(** *** Execution of one step *)

(** [create_prompt(question)] *)
Definition create_prompt (question : scalar) : string :=
  lines
    [ "You are a helpful AI assistant that ALWAYS thinks step-by-step and provides structured, clear responses.";
      "";
      "IMPORTANT RULES:";
      "1. ALWAYS break down your response into clear, numbered steps";
      "2. Use bullet points and formatting to make your response easy to read";
      "3. Be thorough but concise in your explanations";
      "";
      "User Question: " +:+ Py.format question;
      "";
      "Please provide your step-by-step response:" ].

(** [call_openai(prompt)]: an exception of the service becomes the text
    of the reply. *)
Definition call_openai (self : FullAgent) (prompt : string) : res string :=
  try_except (openai self prompt)
    (fun e => mret ("Error calling OpenAI API: " +:+ str_exn e)).

(** [call_gemini(prompt)] *)
Definition call_gemini (self : FullAgent) (prompt : string) : res string :=
  try_except (gemini self prompt)
    (fun e => mret ("Error calling Gemini API: " +:+ str_exn e)).

Definition italy_text : string :=
  lines
    [ "Step-by-step answer about Italy's capital:";
      "";
      "1. **Question Analysis**: You're asking about the capital of Italy";
      "2. **Geographic Knowledge**: Italy is a country in Southern Europe";
      "3. **Capital City**: The capital of Italy is Rome";
      "4. **Historical Significance**: Rome has been Italy's capital since 1871";
      "5. **Cultural Importance**: Rome is known as the " +:+ PyStr.dq +:+
        "Eternal City" +:+ PyStr.dq +:+
        " and is famous for its ancient history, art, and architecture" ].

Definition earth_mars_text : string :=
  lines
    [ "Step-by-step answer about Earth-Mars distance:";
      "";
      "1. **Question Analysis**: You're asking about the distance between Earth and Mars";
      "2. **Orbital Dynamics**: Both planets orbit the sun at different speeds and distances";
      "3. **Variable Distance**: The distance varies due to their elliptical orbits";
      "4. **Range**: The distance ranges from about 54.6 million km (closest) to 401 million km (farthest)";
      "5. **Average Distance**: On average, Earth and Mars are about 225 million km apart";
      "6. **Current Context**: The exact distance depends on the current positions in their orbits" ].

Definition generic_text (question : string) : string :=
  lines
    [ "Step-by-step response to: " +:+ question;
      "";
      "1. **Question Analysis**: I understand your question about " +:+ question;
      "2. **Knowledge Application**: I would need to access current information";
      "3. **Structured Response**: I would provide a clear, step-by-step answer";
      "4. **Formatting**: I would use bullet points and clear structure";
      "5. **Note**: In fallback mode, I have limited knowledge. For best results, configure an API key." ].

(** [fallback_response(question)] *)
Definition fallback_response (question : scalar) : res string :=
  question_lower ← Py.lower question;
  if PyStr.contains "capital" question_lower &&
     PyStr.contains "italy" question_lower
  then mret italy_text
  else if PyStr.contains "distance" question_lower &&
          PyStr.contains "earth" question_lower &&
          PyStr.contains "mars" question_lower
  then mret earth_mars_text
  else mret (generic_text (Py.format question)).

Definition is_tool (step : TaskStep) (name : string) : bool :=
  match tool_type step with
  | Some t => (t =? name)%string
  | None => false
  end.

(** [step.result = result; step.completed = True] *)
Definition complete (step : TaskStep) (r : dict pyval) : TaskStep :=
  mkTaskStep (description step) (tool_type step) (parameters step)
             (Some r) true (error step).

(** [step.error = msg; step.completed = False] *)
Definition fail (step : TaskStep) (msg : string) : TaskStep :=
  mkTaskStep (description step) (tool_type step) (parameters step)
             (result step) false (Some msg).

(** The body of the [try] block of [execute_step]: the step as the
    block leaves it, and the value returned. *)
Definition execute_step_try (self : FullAgent) (step : TaskStep)
    : res (TaskStep * dict pyval) :=
  if is_tool step "calculator" then
    operation ← getitem (parameters step) "operation";
    operand1 ← getitem (parameters step) "operand1";
    operand2 ← getitem (parameters step) "operand2";
    r ← CalculatorTool.calculate operation operand1 operand2;
    mret (complete step r, r)
  else if is_tool step "translator" then
    english_text ← getitem (parameters step) "english_text";
    r ← TranslatorTool.translate english_text;
    mret (complete step r, r)
  else if is_tool step "llm" then
    question ← getitem (parameters step) "question";
    let prompt := create_prompt question in
    answer ← (if (llm_type self =? "openai")%string then call_openai self prompt
              else if (llm_type self =? "gemini")%string then call_gemini self prompt
              else fallback_response question);
    let r := {[ "response" := VStr answer ]} in
    mret (complete step r, r)
  else
    mret (fail step "Unknown tool type",
          {[ "error" := VStr "Unknown tool type" ]}).

(** [execute_step(step)] *)
Definition execute_step (self : FullAgent) (step : TaskStep)
    : res (TaskStep * dict pyval) :=
  try_except (execute_step_try self step)
    (fun e => mret (fail step (str_exn e),
                    {[ "error" := VStr (str_exn e) ]})).

(** *** Synthesis *)

(** [step.result.get(key)] *)
Definition get_method (r : option (dict pyval)) (key : string)
    : res (option pyval) :=
  match r with
  | Some d => Ret (d !! key)
  | None => Raise (AttributeError "'NoneType' object has no attribute 'get'")
  end.

(** [step.result[key]] *)
Definition item (r : option (dict pyval)) (key : string) : res pyval :=
  match r with
  | Some d => getitem d key
  | None => Raise (TypeError "'NoneType' object is not subscriptable")
  end.

(** [step.tool_type == name and step.result.get('success')], as a truth
    value; the right operand is evaluated only for the named tool. *)
Definition tool_succeeded (step : TaskStep) (name : string) : res bool :=
  if is_tool step name then
    s ← get_method (result step) "success";
    mret (Py.truthy s)
  else mret false.

(** [step.error or 'Unknown error'] *)
Definition error_or (step : TaskStep) (alt : string) : string :=
  match error step with
  | Some msg => if (msg =? "")%string then alt else msg
  | None => alt
  end.

(** How an f-string shows [step.error]. *)
Definition format_error (step : TaskStep) : string :=
  default "None" (error step).

(** The branch [len(steps) == 1].  A response that is not a string is
    shown the way the main loop prints it. *)
Definition synthesize_single (step : TaskStep) : res string :=
  calculated ← tool_succeeded step "calculator";
  if calculated : bool then
    expression ← item (result step) "expression";
    answer ← item (result step) "result";
    mret (lines
            [ "Step-by-step response:";
              "";
              "1. **Question Analysis**: You asked for a mathematical calculation";
              "2. **Tool Usage**: I used the calculator tool";
              "3. **Calculation**: " +:+ Py.format_val expression;
              "4. **Result**: The answer is " +:+ Py.format_val answer ])
  else
    translated ← tool_succeeded step "translator";
    if translated : bool then
      english_text ← item (result step) "english_text";
      german_translation ← item (result step) "german_translation";
      mret (lines
              [ "Step-by-step response:";
                "";
                "1. **Question Analysis**: You asked for a translation";
                "2. **Tool Usage**: I used the translator tool";
                "3. **Translation**: '" +:+ Py.format_val english_text +:+
                  "' → '" +:+ Py.format_val german_translation +:+ "'";
                "4. **Result**: The German translation is '" +:+
                  Py.format_val german_translation +:+ "'" ])
    else if is_tool step "llm" then
      answer ← get_method (result step) "response";
      mret (from_option Py.format_val "No response available" answer)
    else
      mret ("Error in processing: " +:+ error_or step "Unknown error").

(** What one turn of the loop of the multi-step branch appends to
    [response_parts]. *)
Definition heading (i : nat) (step : TaskStep) : string :=
  PyStr.nl +:+ PyStr.of_nat i +:+ ". **" +:+ description step +:+ "**".

Definition step_parts (i : nat) (step : TaskStep) : res (list string) :=
  let heading := heading i step in
  if completed step then
    calculated ← tool_succeeded step "calculator";
    if calculated : bool then
      expression ← item (result step) "expression";
      mret [heading; "   Result: " +:+ Py.format_val expression]
    else
      translated ← tool_succeeded step "translator";
      if translated : bool then
        german_translation ← item (result step) "german_translation";
        mret [heading;
              "   Result: '" +:+ Py.format_val german_translation +:+ "'"]
      else if is_tool step "llm" then
        answer ← get_method (result step) "response";
        mret [heading;
              "   Result: " +:+ from_option Py.format_val "No response" answer]
      else mret [heading]
  else mret [heading; "   Error: " +:+ format_error step].

(** [for i, step in enumerate(steps, i): ...] *)
Fixpoint all_parts (i : nat) (steps : list TaskStep) : res (list string) :=
  match steps with
  | [] => mret []
  | step :: steps' =>
      here ← step_parts i step;
      there ← all_parts (S i) steps';
      mret (here ++ there)%list
  end.

(** [len([s for s in steps if s.completed])] *)
Definition completed_count (steps : list TaskStep) : nat :=
  length (List.filter completed steps).

Definition summary (steps : list TaskStep) : string :=
  PyStr.nl +:+ "**Summary**: Successfully completed " +:+
  PyStr.of_nat (completed_count steps) +:+ " out of " +:+
  PyStr.of_nat (length steps) +:+ " tasks.".

(** [synthesize_results(steps, original_query)] *)
Definition synthesize_results (steps : list TaskStep)
    (original_query : string) : res string :=
  match steps with
  | [step] => synthesize_single step
  | _ =>
      parts ← all_parts 1 steps;
      mret (lines ("Step-by-step multi-task response:" :: parts ++
                   [summary steps])%list)
  end.

(** *** The orchestrator *)

Fixpoint announce (i : nat) (steps : list TaskStep) : io unit :=
  match steps with
  | [] => mret tt
  | step :: steps' =>
      _ ← print ("   " +:+ PyStr.of_nat i +:+ ". " +:+ description step);
      announce (S i) steps'
  end.

(** The loop "Step 2: Execute each step" of [process_query]; the list
    it returns is [steps] after the loop. *)
Fixpoint execute_all (self : FullAgent) (i : nat) (steps : list TaskStep)
    : io (list TaskStep) :=
  match steps with
  | [] => mret []
  | step :: steps' =>
      _ ← print ("   " +:+ PyStr.of_nat i +:+ ". Executing: " +:+
                 description step);
      r ← lift (execute_step self step);
      let step' := fst r in
      _ ← print (if completed step' then "      ✅ Completed"
                 else "      ❌ Failed: " +:+ format_error step');
      rest ← execute_all self (S i) steps';
      mret (step' :: rest)
  end.

(** The run of [process_query] up to the end of step 2: the executed
    trace, the local [steps] as step 3 receives it. *)
Definition execute_query (self : FullAgent) (user_query : string)
    : io (list TaskStep) :=
  _ ← print (PyStr.nl +:+ "🔍 Analyzing query: " +:+ user_query);
  let steps := analyze_query user_query in
  _ ← print ("📋 Identified " +:+ PyStr.of_nat (length steps) +:+ " task(s):");
  _ ← announce 1 steps;
  _ ← print (PyStr.nl +:+ "⚙️  Executing tasks...");
  execute_all self 1 steps.

(** [process_query(user_query)]: only the text is returned. *)
Definition process_query (self : FullAgent) (user_query : string)
    : io string :=
  steps ← execute_query self user_query;
  _ ← print (PyStr.nl +:+ "📝 Synthesizing results...");
  lift (synthesize_results steps user_query).

(** A service that was never set up: in fallback mode the agent has no
    attribute [client] (or [model]). *)
Definition missing (attribute : string) : string -> res string :=
  fun _ => Raise (AttributeError ("'FullAgent' object has no attribute '" +:+
                                  attribute +:+ "'")).

Definition fallback_agent : FullAgent :=
  mkFullAgent "fallback" (missing "client") (missing "model").

(** [setup_llm()], from the configured provider and API key, whether
    the two client libraries could be imported, and the services the
    libraries give access to. *)
Definition setup_llm (provider : string) (api_key : option string)
    (OPENAI_AVAILABLE GEMINI_AVAILABLE : bool)
    (client model : string -> res string) : FullAgent :=
  let has_key := match api_key with
                 | Some key => negb (key =? "")%string
                 | None => false
                 end in
  if (provider =? "openai")%string && OPENAI_AVAILABLE then
    if has_key then mkFullAgent "openai" client (missing "model")
    else fallback_agent
  else if (provider =? "gemini")%string && GEMINI_AVAILABLE then
    if has_key then mkFullAgent "gemini" (missing "client") model
    else fallback_agent
  else fallback_agent.

(** [log_interaction(user_question, response, steps)]: the entry that is
    appended to [conversation_history] (and written to the log files). *)
Definition log_interaction (self : FullAgent) (user_question response : string)
    (steps : list TaskStep) : interaction :=
  mkInteraction user_question response (llm_type self) steps.

(** What one turn of the loop of [run] does with a line of input. *)
Inductive turn : Type :=
| Quit
| Skipped
| Handled (out : list string) (logged : interaction)
| Crashed (out : list string) (e : exn).

(** One turn of the loop of [run], from the line read by [input()]. *)
Definition run_turn (self : FullAgent) (line : string) : turn :=
  let user_input := PyStr.strip line in
  let l := PyStr.lower user_input in
  if ((l =? "quit") || (l =? "exit") || (l =? "q"))%string then Quit
  else if (user_input =? "")%string then Skipped
  else
    match process_query self user_input with
    | (out, Ret response) =>
        let out := (out ++ [PyStr.nl +:+ "🤖 Agent: " +:+ response])%list in
        let steps := analyze_query user_input in
        Handled out (log_interaction self user_input response steps)
    | (out, Raise e) =>
        Crashed (out ++ [PyStr.nl +:+ "❌ Error: " +:+ str_exn e])%list e
    end.

End Agent.

(** ** [ChatbotWithTool] (level2/chatbot_with_tool.py)

    The chatbot of level 2 answers a query with the calculator or with
    the language model, and turns down a query that needs both. *)

Module ChatbotWithTool.

(** The chatbot: the kind of backend chosen by [setup_llm] and the two
    remote services, as for the agent of level 3. *)
Record chatbot : Type := mkChatbot {
  llm_type : string;
  client : string -> res string;
  model : string -> res string
}.

Definition lines (l : list string) : string := PyStr.join PyStr.nl l.

Definition non_math_indicators : list string :=
  [ "capital"; "country"; "city"; "what is"; "tell me"; "explain"; "why";
    "how"; "when"; "where"; "who" ].

(** [detect_mixed_query(text)] *)
Definition detect_mixed_query (text : string) : res bool :=
  math_operation ← CalculatorTool.detect_math_operation text;
  let has_non_math :=
    existsb (fun indicator => PyStr.contains indicator (PyStr.lower text))
            non_math_indicators in
  mret (match math_operation with
        | Some _ => has_non_math
        | None => false
        end).

(** The truth value of an optional dictionary: [None] and the empty
    dictionary are false. *)
Definition nonempty {A} (d : option (dict A)) : bool :=
  match d with
  | Some d => negb (Nat.eqb (size d) 0)
  | None => false
  end.

Section Prompt.

(** The text that an f-string shows for a dictionary.  It is left open:
    nothing below depends on it. *)
Variable show_dict : dict pyval -> string.

(** [create_prompt(user_question, tool_result)] *)
Definition create_prompt (user_question : string)
    (tool_result : option (dict pyval)) : string :=
  if nonempty tool_result then
    lines
      [ "You are a helpful AI assistant that ALWAYS thinks step-by-step and provides structured, clear responses.";
        "";
        "IMPORTANT RULES:";
        "1. ALWAYS break down your response into clear, numbered steps";
        "2. Use bullet points and formatting to make your response easy to read";
        "3. When a tool has been used, incorporate the tool result naturally into your response";
        "4. Be thorough but concise in your explanations";
        "";
        "User Question: " +:+ user_question;
        "";
        "Tool Result: " +:+ from_option show_dict "None" tool_result;
        "";
        "Please provide your step-by-step response incorporating the tool result:" ]
  else
    lines
      [ "You are a helpful AI assistant that ALWAYS thinks step-by-step and provides structured, clear responses.";
        "";
        "IMPORTANT RULES:";
        "1. ALWAYS break down your response into clear, numbered steps";
        "2. Use bullet points and formatting to make your response easy to read";
        "3. Be thorough but concise in your explanations";
        "";
        "User Question: " +:+ user_question;
        "";
        "Please provide your step-by-step response:" ].

(** [call_openai(prompt)] *)
Definition call_openai (self : chatbot) (prompt : string) : res string :=
  try_except (client self prompt)
    (fun e => mret ("Error calling OpenAI API: " +:+ str_exn e)).

(** [call_gemini(prompt)] *)
Definition call_gemini (self : chatbot) (prompt : string) : res string :=
  try_except (model self prompt)
    (fun e => mret ("Error calling Gemini API: " +:+ str_exn e)).

(** The first text of [fallback_response]: the answer built from the
    calculator's reply. *)
Definition tool_text (user_question : string)
    (expression operation operand1 operand2 result : pyval) : string :=
  lines
    [ "Step-by-step response with tool result:";
      "";
      "1. **Question Analysis**: You asked: " +:+ PyStr.dq +:+ user_question +:+
        PyStr.dq;
      "2. **Tool Usage**: I used the calculator tool to perform the calculation";
      "3. **Calculation Result**: " +:+ Py.format_val expression;
      "4. **Explanation**: The calculator tool performed " +:+
        Py.format_val operation +:+ " on " +:+ Py.format_val operand1 +:+
        " and " +:+ Py.format_val operand2;
      "5. **Final Answer**: The result is " +:+ Py.format_val result ].

Definition france_text : string :=
  lines
    [ "Step-by-step answer about France's capital:";
      "";
      "1. **Question Analysis**: You're asking about the capital of France";
      "2. **Geographic Knowledge**: France is a country in Europe";
      "3. **Capital City**: The capital of France is Paris";
      "4. **Historical Significance**: Paris has been France's capital since 987 CE";
      "5. **Cultural Importance**: Paris is known as the " +:+ PyStr.dq +:+
        "City of Light" +:+ PyStr.dq +:+
        " and is famous for its culture, art, and architecture" ].

Definition japan_text : string :=
  lines
    [ "Step-by-step answer about Japan's capital:";
      "";
      "1. **Question Analysis**: You're asking about the capital of Japan";
      "2. **Geographic Knowledge**: Japan is an island nation in Asia";
      "3. **Capital City**: The capital of Japan is Tokyo";
      "4. **Historical Context**: Tokyo became the capital in 1868, replacing Kyoto";
      "5. **Modern Significance**: Tokyo is one of the world's largest and most populous cities" ].

Definition generic_text : string :=
  lines
    [ "Step-by-step response:";
      "";
      "1. **Question Analysis**: I understand your question";
      "2. **Knowledge Application**: I would need to access current information";
      "3. **Structured Response**: I would provide a clear, step-by-step answer";
      "4. **Formatting**: I would use bullet points and clear structure";
      "5. **Note**: In fallback mode, I have limited knowledge. For best results, configure an API key." ].

(** The answer to a query that needs both the calculator and the
    language model. *)
Definition mixed_text : string :=
  lines
    [ "Step-by-step response to mixed query:";
      "";
      "1. **Query Analysis**: Your question contains both mathematical operations and general knowledge questions";
      "2. **Level 2 Limitation**: I can only handle one type of operation at a time";
      "3. **Recommendation**: Please ask your questions separately:";
      "   • First, ask the mathematical question";
      "   • Then, ask the general knowledge question";
      "4. **Example**: Instead of " +:+ PyStr.dq +:+
        "Multiply 9 and 8, and also tell me the capital of Japan" +:+ PyStr.dq;
      "   • Ask: " +:+ PyStr.dq +:+ "What is 9 times 8?" +:+ PyStr.dq;
      "   • Then ask: " +:+ PyStr.dq +:+ "What is the capital of Japan?" +:+
        PyStr.dq;
      "5. **Future Enhancement**: Multi-step processing will be available in Level 3";
      "";
      "This ensures accurate and complete responses to each part of your question." ].

(** The second part of [fallback_response]: the canned answers to the
    questions that are not calculations. *)
Definition knowledge_text (user_question : string) : string :=
  let question_lower := PyStr.lower user_question in
  if PyStr.contains "capital" question_lower &&
     PyStr.contains "france" question_lower
  then france_text
  else if PyStr.contains "capital" question_lower &&
          PyStr.contains "japan" question_lower
  then japan_text
  else generic_text.

(** [fallback_response(user_question, tool_result)] *)
Definition fallback_response (user_question : string)
    (tool_result : option (dict pyval)) : res string :=
  succeeded ← (if nonempty tool_result then
                 success ← Agent.get_method tool_result "success";
                 mret (Py.truthy success)
               else mret false);
  if succeeded : bool then
    expression ← Agent.item tool_result "expression";
    operation ← Agent.item tool_result "operation";
    operand1 ← Agent.item tool_result "operand1";
    operand2 ← Agent.item tool_result "operand2";
    result ← Agent.item tool_result "result";
    mret (tool_text user_question expression operation operand1 operand2
                    result)
  else mret (knowledge_text user_question).

(** [process_query(user_question)] *)
Definition process_query (self : chatbot) (user_question : string)
    : res string :=
  mixed ← detect_mixed_query user_question;
  if mixed : bool then mret mixed_text
  else
    math_result ← CalculatorTool.process_query user_question;
    let tool_result := if nonempty math_result then math_result else None in
    let prompt := create_prompt user_question tool_result in
    if (llm_type self =? "openai")%string then call_openai self prompt
    else if (llm_type self =? "gemini")%string then call_gemini self prompt
    else fallback_response user_question tool_result.

End Prompt.

End ChatbotWithTool.

(** * Vocabulary of the properties *)

Import Agent.

(** The step as [execute_step] leaves it. *)
Definition executed (self : FullAgent) (step : TaskStep) : TaskStep :=
  match execute_step self step with
  | Ret (step', _) => step'
  | Raise _ => step
  end.

(** The line that the execution loop prints after a step. *)
Definition status_line (step' : TaskStep) : string :=
  if completed step' then "      ✅ Completed"
  else "      ❌ Failed: " +:+ format_error step'.

(** The lines that the execution loop prints for [steps], numbered from
    [i]. *)
Fixpoint execution_log (self : FullAgent) (i : nat) (steps : list TaskStep)
    : list string :=
  match steps with
  | [] => []
  | step :: steps' =>
      ("   " +:+ PyStr.of_nat i +:+ ". Executing: " +:+ description step) ::
      status_line (executed self step) ::
      execution_log self (S i) steps'
  end.

(** The last line of a multi-step answer. *)
Definition summary_line (done total : nat) : string :=
  PyStr.nl +:+ "**Summary**: Successfully completed " +:+ PyStr.of_nat done +:+
  " out of " +:+ PyStr.of_nat total +:+ " tasks.".

(** A field of the reply stored in a step. *)
Definition reply_field (key : string) (step : TaskStep) : option pyval :=
  match result step with
  | Some reply => reply !! key
  | None => None
  end.

(** The phrase of the first sub-task, when it is a translation. *)
Definition first_phrase (steps : list TaskStep) : option scalar :=
  match steps with
  | step :: _ => parameters step !! "english_text"
  | [] => None
  end.

(** The list of steps that a run ended with. *)
Definition trace_of (m : io (list TaskStep)) : list TaskStep :=
  match outcome m with
  | Ret trace => trace
  | Raise _ => []
  end.

(** A step that no one has executed. *)
Definition untouched (step : TaskStep) : Prop :=
  completed step = false /\ result step = None /\ error step = None.

(** The steps that a turn of the main loop hands to [log_interaction]. *)
Definition logged_steps (t : turn) : option (list TaskStep) :=
  match t with
  | Handled _ logged => Some (steps logged)
  | _ => None
  end.

(** Every character of [s] has the property [Q]. *)
Definition clean (Q : ascii -> bool) (s : string) : Prop :=
  PyStr.all_chars Q s = true.

Definition clean_caps (Q : ascii -> bool) (c : gmap nat string) : Prop :=
  forall n v, c !! n = Some v -> clean Q v.

Definition clean_match (Q : ascii -> bool) (m : Re.match_obj) : Prop :=
  clean_caps Q (Re.groups m) /\ clean Q (Re.rest m).

Definition not_upper (c : ascii) : bool := negb (PyStr.is_upper c).

(** The reply of [calculate] to a division by zero. *)
Definition division_by_zero_reply (operand1 operand2 : scalar) : dict pyval :=
  {[ "success" := VBool false;
     "error" := VStr "cannot access local variable 'operation_name' where it is not associated with a value";
     "operation" := VStr "/";
     "operand1" := val operand1;
     "operand2" := val operand2 ]}.

(** *** Sample steps, replies and agents *)




(** A calculator step whose second operand is missing. *)
Definition broken_step : TaskStep :=
  new_TaskStep "Calculate 5 × " (Some "calculator")
    {[ "operation" := PStr "*";
       "operand1" := PFloat (PyFloat.of_Z 5);
       "expression" := PStr "5 × " ]}.


Definition bracketed_reply : dict pyval :=
  {[ "success" := VBool true;
     "english_text" := VStr "xyz";
     "german_translation" := VStr "[xyz]";
     "confidence" := VStr "partial";
     "note" := VStr "Some words may not be accurately translated" ]}.

Definition blank_reply : dict pyval :=
  {[ "success" := VBool false;
     "english_text" := VStr "   ";
     "error" := VStr "Translation not available for this text";
     "suggestion" := VStr "Try a simpler phrase or common words" ]}.

Definition query_translate_multiply : string :=
  "Translate 'Good Morning' into German and then multiply 5 and 6.".

Definition query_distance : string :=
  "What is the distance between Earth and Mars?".

Definition good_morning_step : TaskStep :=
  mkTaskStep "Translate 'good morning' to German" (Some "translator")
             {[ "english_text" := PStr "good morning" ]} None false None.

Definition five_times_six_step : TaskStep :=
  mkTaskStep "Calculate 5 × 6" (Some "calculator")
             {[ "operation" := PStr "*";
                "operand1" := PFloat (PyFloat.of_Z 5);
                "operand2" := PFloat (PyFloat.of_Z 6);
                "expression" := PStr "5 × 6" ]} None false None.

Definition good_morning_reply : dict pyval :=
  {[ "success" := VBool true;
     "english_text" := VStr "good morning";
     "german_translation" := VStr "Guten Morgen";
     "confidence" := VStr "high" ]}.

Definition five_times_six_reply : dict pyval :=
  {[ "success" := VBool true;
     "result" := VFloat (PyFloat.of_Z 30);
     "operation" := VStr "multiplication";
     "operand1" := VFloat (PyFloat.of_Z 5);
     "operand2" := VFloat (PyFloat.of_Z 6);
     "expression" := VStr "5.0 * 6.0 = 30.0" ]}.

Definition add_step : TaskStep :=
  mkTaskStep "Calculate 2 + 3" (Some "calculator")
             {[ "operation" := PStr "+";
                "operand1" := PFloat (PyFloat.of_Z 2);
                "operand2" := PFloat (PyFloat.of_Z 3);
                "expression" := PStr "2 + 3" ]} None false None.

Definition add_reply : dict pyval :=
  {[ "success" := VBool true;
     "result" := VFloat (PyFloat.of_Z 5);
     "operation" := VStr "addition";
     "operand1" := VFloat (PyFloat.of_Z 2);
     "operand2" := VFloat (PyFloat.of_Z 3);
     "expression" := VStr "2.0 + 3.0 = 5.0" ]}.

(** A service that refuses every call. *)
Definition unauthorized : string -> res string :=
  fun _ => Raise (APIError "401 Unauthorized").

Definition openai_agent : FullAgent :=
  setup_llm "openai" (Some "sk-invalid") true true unauthorized unauthorized.

Definition gemini_agent : FullAgent :=
  setup_llm "gemini" (Some "invalid") true true unauthorized unauthorized.

Definition france_step : TaskStep := question_step "the capital of france".

(** *** What a pattern matches, and the shapes of requests and sub-tasks *)

(** The characters of ASCII.  The development takes the text to be
    ASCII: there a character is a byte, and [str.lower], [str.isspace],
    the classes of [re] and [len] are those of the model. *)
Definition is_ascii (c : ascii) : bool := (PyStr.code c <? 128)%nat.

(** A text written in ASCII. *)
Definition ascii_text (s : string) : Prop := clean is_ascii s.

(** What a pattern says, apart from the order in which the matcher
    tries things: [matches r s c s' c'] holds when [r] can read the text
    between [s] and its suffix [s'], taking the captured groups from [c]
    to [c']. *)
Inductive matches : Re.regex -> string -> gmap nat string -> string ->
                    gmap nat string -> Prop :=
| matches_eps s c : matches Re.Eps s c s c
| matches_lit l s c s' :
    Re.drop_prefix l s = Some s' -> matches (Re.Lit l) s c s' c
| matches_class (p : ascii -> bool) a s c :
    p a = true -> matches (Re.Class p) (String a s) c s c
| matches_rep lazy least (p : ascii -> bool) w s' c :
    PyStr.all_chars p w = true -> least <= String.length w ->
    matches (Re.Rep lazy least p) (w +:+ s') c s' c
| matches_cat r1 r2 s c s1 c1 s2 c2 :
    matches r1 s c s1 c1 -> matches r2 s1 c1 s2 c2 ->
    matches (Re.Cat r1 r2) s c s2 c2
| matches_alt_l r1 r2 s c s' c' :
    matches r1 s c s' c' -> matches (Re.Alt r1 r2) s c s' c'
| matches_alt_r r1 r2 s c s' c' :
    matches r2 s c s' c' -> matches (Re.Alt r1 r2) s c s' c'
| matches_group n r s c s' c' :
    matches r s c s' c' ->
    matches (Re.Group n r) s c s' (<[n := Re.consumed s s']> c')
| matches_eos s c : Re.at_end s = true -> matches Re.Eos s c s c.

(** [p] is a part of [s]. *)
Definition occurs (p s : string) : Prop := exists a b, s = a +:+ p +:+ b.

(** The first two patterns of [detect_math_operation], those with three
    groups. *)
Definition what_is_pattern : Re.regex :=
  Re.cat [Re.Lit "what"; Re.ws1; Re.Lit "is"; Re.ws1; Re.digits 1; Re.ws0;
          Re.Group 2 (Re.Class CalculatorTool.is_operator); Re.ws0;
          Re.digits 3].

Definition word_pattern : Re.regex :=
  Re.cat [Re.digits 1; Re.ws1; Re.Group 2 CalculatorTool.operator_word;
          Re.ws1; Re.digits 3].

(** The operator that a request can name, and the words that the
    lower-cased text must hold for it. *)
Definition operator_needs (op text_lower : string) : Prop :=
  op = "+" \/
  (op = "-" /\ (PyStr.contains "what" text_lower = true \/
                PyStr.contains "minus" text_lower = true)) \/
  (op = "*" /\ (PyStr.contains "what" text_lower = true \/
                PyStr.contains "times" text_lower = true \/
                PyStr.contains "multiply" text_lower = true)) \/
  (op = "/" /\ (PyStr.contains "what" text_lower = true \/
                PyStr.contains "divide" text_lower = true)).

(** A request as [detect_math_operation] returns it for [text]. *)
Definition detected (text : string) (found : dict scalar) : Prop :=
  exists op a b,
    found = {[ "operation" := PStr op;
               "operand1" := PFloat a;
               "operand2" := PFloat b;
               "original_text" := PStr text ]} /\
    operator_needs op (PyStr.lower text).

(** A reply that reports a success, with the text to show for it. *)
Definition success_reply (reply : dict pyval) : Prop :=
  reply !! "success" = Some (VBool true) /\
  exists expression, reply !! "expression" = Some expression.

(** A reply that reports a failure, with its message. *)
Definition failure_reply (reply : dict pyval) : Prop :=
  reply !! "success" = Some (VBool false) /\
  exists msg, reply !! "error" = Some (VStr msg).

(** The shapes of the sub-tasks that [analyze_query] builds. *)
Inductive extracted : TaskStep -> Prop :=
| extracted_translation phrase : extracted (translation_step phrase)
| extracted_math op a b expression :
    op = "+" \/ op = "*" ->
    extracted (math_step {[ "operation" := PStr op;
                            "operand1" := PFloat a;
                            "operand2" := PFloat b;
                            "expression" := PStr expression ]})
| extracted_question question : extracted (question_step question)
| extracted_fallback user_query : extracted (fallback_step user_query).

(** The answer of the language model, or of its stand-in, to a
    question: the last branch of [execute_step]. *)
Definition answer_of (self : FullAgent) (question : scalar) : res string :=
  if (llm_type self =? "openai")%string
  then call_openai self (create_prompt question)
  else if (llm_type self =? "gemini")%string
  then call_gemini self (create_prompt question)
  else fallback_response question.

(** What the synthesis needs of an executed step: the step is completed
    without an error, and both branches of [synthesize_results] can
    render it. *)
Definition rendered (step : TaskStep) : Prop :=
  completed step = true /\ error step = None /\
  (exists reply, result step = Some reply) /\
  (forall i, exists parts, step_parts i step = Ret parts) /\
  (exists text, synthesize_single step = Ret text).

(** The lines that [process_query] prints while it lists the sub-tasks,
    numbered from [i]. *)
Fixpoint announced (i : nat) (steps : list TaskStep) : list string :=
  match steps with
  | [] => []
  | step :: steps' =>
      ("   " +:+ PyStr.of_nat i +:+ ". " +:+ description step) ::
      announced (S i) steps'
  end.

(** The lines of an execution loop in which every step completes. *)
Fixpoint completed_log (i : nat) (steps : list TaskStep) : list string :=
  match steps with
  | [] => []
  | step :: steps' =>
      ("   " +:+ PyStr.of_nat i +:+ ". Executing: " +:+ description step) ::
      "      ✅ Completed" ::
      completed_log (S i) steps'
  end.

(** The ways of asking for the sum of [n] and [m] that the agent
    reads, and those for their product. *)
Definition addition_phrasings (n m : string) : list string :=
  [ "add " +:+ n +:+ " and " +:+ m;
    n +:+ " + " +:+ m;
    n +:+ "+" +:+ m;
    n +:+ " plus " +:+ m ].

Definition multiplication_phrasings (n m : string) : list string :=
  [ "multiply " +:+ n +:+ " and " +:+ m;
    n +:+ " * " +:+ m;
    n +:+ "*" +:+ m;
    n +:+ " times " +:+ m ].

(** A numeral: a non-empty string of digits. *)
Definition numeral (d : string) : Prop :=
  clean PyStr.is_digit d /\ d <> "".

(** The ways of writing an operation on [n] and [m] that the calculator
    reads with a sign or with a word between the numerals. *)
Definition calculator_phrasings (n m : string) : list string :=
  (map (fun sign => n +:+ sign +:+ m) ["+"; "-"; "*"; "/"] ++
   map (fun word => n +:+ " " +:+ word +:+ " " +:+ m)
       ["plus"; "minus"; "times"; "multiply"; "divide"])%list.

(** * Properties *)

Ltac dict_lookup :=
  repeat first
    [ rewrite lookup_insert_eq
    | rewrite lookup_insert_ne by discriminate
    | rewrite lookup_singleton_eq
    | rewrite lookup_singleton_ne by discriminate
    | rewrite lookup_empty ].

Ltac dict_lookup_in H :=
  repeat first
    [ rewrite lookup_insert_eq in H
    | rewrite lookup_insert_ne in H by discriminate
    | rewrite lookup_singleton_eq in H
    | rewrite lookup_singleton_ne in H by discriminate
    | rewrite lookup_empty in H ].

(** Float expressions are kept abstract while a reply is inspected. *)
Ltac hide_floats :=
  repeat match goal with
         | |- context [PyFloat.add ?x ?y] => generalize (PyFloat.add x y); intro
         | |- context [PyFloat.sub ?x ?y] => generalize (PyFloat.sub x y); intro
         | |- context [PyFloat.mul ?x ?y] => generalize (PyFloat.mul x y); intro
         | |- context [PyFloat.div ?x ?y] => generalize (PyFloat.div x y); intro
         | |- context [PyFloat.repr ?x] => generalize (PyFloat.repr x); intro
         end.

(** The patterns of the program are inverted piece by piece. *)
Ltac invert_matches :=
  repeat match goal with
         | H : matches (Re.Cat _ _) _ _ _ _ |- _ => inversion H; subst; clear H
         | H : matches (Re.Lit _) _ _ _ _ |- _ => inversion H; subst; clear H
         | H : matches (Re.Rep _ _ _) _ _ _ _ |- _ => inversion H; subst; clear H
         | H : matches (Re.Class _) _ _ _ _ |- _ => inversion H; subst; clear H
         | H : matches (Re.Group _ _) _ _ _ _ |- _ => inversion H; subst; clear H
         | H : matches (Re.Alt _ _) _ _ _ _ |- _ => inversion H; subst; clear H
         | H : matches Re.Eps _ _ _ _ |- _ => inversion H; subst; clear H
         | H : matches Re.Eos _ _ _ _ |- _ => inversion H; subst; clear H
         end.

(** The arithmetic of one branch of [calculate]. *)
Ltac chain_case :=
  match goal with
  | |- context [Py.add ?a ?b] => destruct (Py.add a b)
  | |- context [Py.sub ?a ?b] => destruct (Py.sub a b)
  | |- context [Py.mul ?a ?b] => destruct (Py.mul a b)
  | |- context [Py.truediv ?a ?b] => destruct (Py.truediv a b)
  end.

Ltac reply_shape :=
  eexists; split; [reflexivity |];
  first [ left; split; [dict_lookup; reflexivity
                       | eexists; dict_lookup; reflexivity]
        | right; split; [dict_lookup; reflexivity
                        | eexists; dict_lookup; reflexivity] ].

(** ** Extraction never comes back empty *)

Lemma detected_steps_nil (user_query : string) :
  TranslatorTool.detect_translation_request user_query = None ->
  extract_math_operations user_query = [] ->
  extract_knowledge_questions user_query = [] ->
  detected_steps user_query = [].
Proof.
  intros Ht Hm Hk. unfold detected_steps. rewrite Ht, Hm, Hk. reflexivity.
Qed.

(** C1.  For every query [analyze_query] returns a non-empty list of
    sub-tasks.  When the translation pass, the arithmetic pass and the
    knowledge-question pass all find nothing, the list is exactly one
    fallback sub-task: it goes to the language model and its parameter is
    the whole query as received. *)
Theorem analyze_query_nonempty (user_query : string) :
  analyze_query user_query <> [] /\
  (TranslatorTool.detect_translation_request user_query = None ->
   extract_math_operations user_query = [] ->
   extract_knowledge_questions user_query = [] ->
   analyze_query user_query =
     [ mkTaskStep ("Process query: " +:+ user_query) (Some "llm")
                  {[ "question" := PStr user_query ]} None false None ]).
Proof.
  split.
  - unfold analyze_query.
    destruct (detected_steps user_query) eqn:E; discriminate.
  - intros Ht Hm Hk. unfold analyze_query.
    rewrite (detected_steps_nil _ Ht Hm Hk). reflexivity.
Qed.

(** The query "hello" matches no pass and yields the fallback sub-task. *)
Lemma analyze_query_nonempty_witness :
  analyze_query "hello" =
    [ mkTaskStep "Process query: hello" (Some "llm")
                 {[ "question" := PStr "hello" ]} None false None ].
Proof.
  apply (analyze_query_nonempty "hello"); vm_compute; reflexivity.
Defined.

(** ** The calculator *)

Lemma try_except_returns {A} (body : res A) (handler : exn -> A) :
  exists a, try_except body (fun e => mret (handler e)) = Ret a.
Proof. destruct body; simpl; eauto. Qed.

(** [calculate] returns a reply whatever it is given. *)
Lemma calculate_returns (operation operand1 operand2 : scalar) :
  exists reply, CalculatorTool.calculate operation operand1 operand2 = Ret reply.
Proof. apply try_except_returns. Qed.

(** A float compares equal to [0] exactly when it is a zero of either
    sign. *)
Lemma float_eq_zero (x : PyFloat.float) :
  PyFloat.eqb x PyFloat.zero = true <-> exists s, x = S754_zero s.
Proof.
  split.
  - destruct x as [s | s | | s m e]; try (destruct s); try discriminate; eauto.
  - intros [s ->]. reflexivity.
Qed.

Lemma calculate_never_division_reply (operation : string) (a b : PyFloat.float) :
  exists reply,
    CalculatorTool.calculate (PStr operation) (PFloat a) (PFloat b) = Ret reply /\
    reply !! "error" <> Some (VStr "Division by zero is not allowed").
Proof.
  unfold CalculatorTool.calculate, CalculatorTool.calculate_try,
    Py.eq_str, Py.eq_zero.
  destruct (operation =? "+")%string.
  { simpl. eexists; split; [reflexivity |]. hide_floats. vm_compute. discriminate. }
  destruct (operation =? "-")%string.
  { simpl. eexists; split; [reflexivity |]. hide_floats. vm_compute. discriminate. }
  destruct (operation =? "*")%string.
  { simpl. eexists; split; [reflexivity |]. hide_floats. vm_compute. discriminate. }
  destruct (operation =? "/")%string.
  { destruct (PyFloat.eqb b PyFloat.zero) eqn:E.
    - simpl. eexists; split; [reflexivity |]. vm_compute. discriminate.
    - simpl. rewrite E. simpl. eexists; split; [reflexivity |].
      hide_floats. vm_compute. discriminate. }
  simpl. eexists; split; [reflexivity |].
  dict_lookup. simpl. discriminate.
Qed.

(** C10.  [calculate] is total on an operator string and two floats: it
    returns a reply and never raises.  The reply "Division by zero is not
    allowed" is never produced: for the operator [/] and a second operand
    equal to zero (of either sign) the body of the [try] block raises
    [UnboundLocalError] on the read of [operation_name], and the handler
    reports [success = False] with the text of that exception. *)
Theorem calculate_total (operation : string) (a b : PyFloat.float) (s : bool) :
  (exists reply,
     CalculatorTool.calculate (PStr operation) (PFloat a) (PFloat b) = Ret reply /\
     reply !! "error" <> Some (VStr "Division by zero is not allowed")) /\
  CalculatorTool.calculate_try (PStr "/") (PFloat a) (PFloat (S754_zero s)) =
    Raise (UnboundLocalError "operation_name") /\
  CalculatorTool.calculate (PStr "/") (PFloat a) (PFloat (S754_zero s)) =
    Ret (division_by_zero_reply (PFloat a) (PFloat (S754_zero s))).
Proof.
  split; [apply calculate_never_division_reply |].
  split; destruct s; reflexivity.
Qed.

(** ** One step at a time *)

Lemma execute_step_returns (self : FullAgent) (step : TaskStep) :
  exists step' reply, execute_step self step = Ret (step', reply).
Proof.
  unfold execute_step.
  destruct (try_except_returns (execute_step_try self step)
              (fun e => (fail step (str_exn e),
                         ({[ "error" := VStr (str_exn e) ]} : dict pyval))))
    as [[step' reply] H].
  exists step', reply. exact H.
Qed.

(** An executed step has reached an outcome: its result is set and it is
    completed, or its error is set and it is not. *)
Lemma executed_outcome (self : FullAgent) (step : TaskStep) :
  (exists reply, executed self step = complete step reply) \/
  (exists msg, executed self step = fail step msg).
Proof.
  unfold executed, execute_step, execute_step_try, try_except.
  destruct (is_tool step "calculator").
  { destruct (getitem (parameters step) "operation"); simpl; eauto.
    destruct (getitem (parameters step) "operand1"); simpl; eauto.
    destruct (getitem (parameters step) "operand2"); simpl; eauto.
    destruct (CalculatorTool.calculate a a0 a1); simpl; eauto. }
  destruct (is_tool step "translator").
  { destruct (getitem (parameters step) "english_text"); simpl; eauto.
    destruct (TranslatorTool.translate a); simpl; eauto. }
  destruct (is_tool step "llm").
  { destruct (getitem (parameters step) "question"); simpl; eauto.
    destruct (if (llm_type self =? "openai")%string then _ else _); simpl; eauto. }
  simpl; eauto.
Qed.

Lemma executed_failed (self : FullAgent) (c : TaskStep) :
  completed (executed self c) = false ->
  exists msg, executed self c = fail c msg.
Proof.
  intros H. destruct (executed_outcome self c) as [[r E] | [msg E]]; eauto.
  rewrite E in H. discriminate.
Qed.

Lemma is_tool_eq (step : TaskStep) (name : string) :
  is_tool step name = true -> tool_type step = Some name.
Proof.
  unfold is_tool. destruct (tool_type step) as [t |]; [| discriminate].
  intros H. apply String.eqb_eq in H. congruence.
Qed.

Lemma is_tool_other (step : TaskStep) (name other : string) :
  is_tool step name = true -> (name =? other)%string = false ->
  is_tool step other = false.
Proof.
  intros H Hne. apply is_tool_eq in H. unfold is_tool. rewrite H. exact Hne.
Qed.

(** A calculator step that has its three parameters ends completed,
    whatever the calculator replies. *)
Lemma calculator_step_completed (self : FullAgent) (step : TaskStep)
    (operation operand1 operand2 : scalar) :
  is_tool step "calculator" = true ->
  parameters step !! "operation" = Some operation ->
  parameters step !! "operand1" = Some operand1 ->
  parameters step !! "operand2" = Some operand2 ->
  exists reply,
    CalculatorTool.calculate operation operand1 operand2 = Ret reply /\
    executed self step = complete step reply.
Proof.
  intros Htool Ho H1 H2.
  destruct (calculate_returns operation operand1 operand2) as [reply Hr].
  exists reply. split; [exact Hr |].
  unfold executed, execute_step, execute_step_try, getitem.
  rewrite Htool, Ho, H1, H2. simpl. rewrite Hr. reflexivity.
Qed.

(** A calculator step fails exactly when one of its three parameters is
    missing. *)
Lemma calculator_step_fails_iff (self : FullAgent) (step : TaskStep) :
  is_tool step "calculator" = true ->
  completed (executed self step) = false <->
  parameters step !! "operation" = None \/
  parameters step !! "operand1" = None \/
  parameters step !! "operand2" = None.
Proof.
  intros Htool. split.
  - intros Hf.
    destruct (parameters step !! "operation") as [o |] eqn:Ho; [| auto].
    destruct (parameters step !! "operand1") as [a |] eqn:Ha; [| auto].
    destruct (parameters step !! "operand2") as [b |] eqn:Hb; [| auto].
    destruct (calculator_step_completed self step o a b Htool Ho Ha Hb)
      as [reply [_ E]].
    rewrite E in Hf. discriminate.
  - unfold executed, execute_step, execute_step_try, getitem.
    rewrite Htool.
    destruct (parameters step !! "operation") as [o |]; [| reflexivity].
    destruct (parameters step !! "operand1") as [a |]; [| reflexivity].
    destruct (parameters step !! "operand2") as [b |]; [| reflexivity].
    intros [H | [H | H]]; discriminate.
Qed.



(** ** What a pattern can capture

    A captured group is a piece of the text that was searched.  Stated
    for a property [Q] of characters: when every character of the text
    has it, every character of every capture has it. *)

Section Capture.

Import Re.

Variable Q : ascii -> bool.

Lemma clean_cons a s : clean Q (String a s) <-> Q a = true /\ clean Q s.
Proof. unfold clean; simpl. apply andb_true_iff. Qed.

Lemma clean_empty : clean Q "".
Proof. reflexivity. Qed.

Lemma clean_substring s :
  forall n m, clean Q s -> clean Q (String.substring n m s).
Proof.
  induction s as [| a s IH]; intros n m H.
  - destruct n, m; exact H.
  - apply clean_cons in H as [Ha Hs].
    destruct n as [| n]; [destruct m as [| m] |]; simpl.
    + apply clean_empty.
    + apply clean_cons; split; [exact Ha | apply IH, Hs].
    + apply IH, Hs.
Qed.

Lemma clean_consumed s s' : clean Q s -> clean Q (consumed s s').
Proof. apply clean_substring. Qed.

Lemma clean_drop_prefix l : forall s s',
  drop_prefix l s = Some s' -> clean Q s -> clean Q s'.
Proof.
  induction l as [| a l IH]; intros s s' H Hs; simpl in H.
  - destruct s; injection H as <-; exact Hs.
  - destruct s as [| b s]; [discriminate |].
    destruct (Ascii.eqb a b); [| discriminate].
    apply clean_cons in Hs as [_ Hs]. eapply IH; eauto.
Qed.

Lemma clean_caps_empty : clean_caps Q ∅.
Proof. intros n v H. rewrite lookup_empty in H. discriminate. Qed.

Lemma clean_caps_insert n v (c : caps) :
  clean Q v -> clean_caps Q c -> clean_caps Q (<[n := v]> c).
Proof.
  intros Hv Hc k w H.
  destruct (decide (n = k)) as [-> | Hne].
  - rewrite lookup_insert_eq in H. injection H as <-. exact Hv.
  - rewrite lookup_insert_ne in H by exact Hne. eapply Hc; eauto.
Qed.

Section Results.

Context {A : Type} (P : A -> Prop).

Lemma or_else_inv (x y : option A) a :
  or_else x y = Some a -> x = Some a \/ y = Some a.
Proof. destruct x; simpl; auto. Qed.

Lemma rep_greedy_clean p k :
  (forall s' a, clean Q s' -> k s' = Some a -> P a) ->
  forall s least a, clean Q s -> rep_greedy p least s k = Some a -> P a.
Proof.
  intros Hk. induction s as [| c s IH]; intros least a Hs H; simpl in H.
  - destruct least; [eauto | discriminate].
  - assert (Hstop : match least with O => k (String c s) | S _ => None end
                    = Some a -> P a).
    { destruct least; [eauto | discriminate]. }
    destruct (p c); [| auto].
    apply or_else_inv in H as [H | H]; [| auto].
    apply clean_cons in Hs as [_ Hs]. eapply IH; eauto.
Qed.

Lemma rep_lazy_clean p k :
  (forall s' a, clean Q s' -> k s' = Some a -> P a) ->
  forall s least a, clean Q s -> rep_lazy p least s k = Some a -> P a.
Proof.
  intros Hk. induction s as [| c s IH]; intros least a Hs H;
    destruct least as [| n]; simpl in H; try discriminate; eauto.
  - apply or_else_inv in H as [H | H]; [eauto |].
    destruct (p c); [| discriminate].
    apply clean_cons in Hs as [_ Hs]. eapply IH; eauto.
  - destruct (p c); [| discriminate].
    apply clean_cons in Hs as [_ Hs]. eapply IH; eauto.
Qed.

(** The matcher hands to its continuation only clean text and clean
    captures, when it starts from such. *)
Lemma match_here_clean r :
  forall s c k a,
    clean Q s -> clean_caps Q c ->
    (forall s' c' a',
       clean Q s' -> clean_caps Q c' -> k s' c' = Some a' -> P a') ->
    match_here r s c k = Some a -> P a.
Proof.
  induction r as [| l | p | lazy least p | r1 IH1 r2 IH2 | r1 IH1 r2 IH2
                  | n r IH |]; intros s c k a Hs Hc Hk H; simpl in H.
  - eauto.
  - destruct (drop_prefix l s) as [s' |] eqn:E; [| discriminate].
    eapply Hk; [eapply clean_drop_prefix; eauto | exact Hc | exact H].
  - destruct s as [| b s]; [discriminate |].
    destruct (p b); [| discriminate].
    apply clean_cons in Hs as [_ Hs]. eauto.
  - destruct lazy.
    + eapply rep_lazy_clean; [| exact Hs | exact H]. intros; eauto.
    + eapply rep_greedy_clean; [| exact Hs | exact H]. intros; eauto.
  - eapply IH1; [exact Hs | exact Hc | | exact H].
    intros s' c' a' Hs' Hc' H'. eapply IH2; eauto.
  - apply or_else_inv in H as [H | H]; [eapply IH1 | eapply IH2]; eauto.
  - eapply IH; [exact Hs | exact Hc | | exact H].
    intros s' c' a' Hs' Hc' H'. eapply Hk; [exact Hs' | | exact H'].
    apply clean_caps_insert; [apply clean_consumed, Hs | exact Hc'].
  - destruct (at_end s); [eauto | discriminate].
Qed.

End Results.

Lemma match_at_clean r s m :
  clean Q s -> match_at r s = Some m -> clean_match Q m.
Proof.
  intros Hs H. unfold match_at in H.
  eapply (match_here_clean (clean_match Q));
    [exact Hs | apply clean_caps_empty | | exact H].
  intros s' c' a' Hs' Hc' [= <-]. split; assumption.
Qed.

Lemma search_clean r s :
  forall m, clean Q s -> search r s = Some m -> clean_match Q m.
Proof.
  induction s as [| c s IH]; intros m Hs H; simpl in H.
  - destruct (match_at r "") eqn:E; [| discriminate].
    injection H as <-. eapply match_at_clean; eauto.
  - destruct (match_at r (String c s)) eqn:E.
    + injection H as <-. eapply match_at_clean; eauto.
    + apply clean_cons in Hs as [_ Hs]. eauto.
Qed.

Lemma finditer_from_clean r s : forall skip,
  clean Q s -> Forall (clean_match Q) (finditer_from r skip s).
Proof.
  induction s as [| c s IH]; intros skip Hs.
  - destruct skip; simpl; [| constructor].
    destruct (match_at r "") eqn:E; constructor; [| constructor].
    eapply match_at_clean; eauto.
  - pose proof Hs as Hs0. apply clean_cons in Hs as [_ Hs].
    destruct skip; simpl; [| apply IH, Hs].
    destruct (match_at r (String c s)) eqn:E; [| apply IH, Hs].
    constructor; [eapply match_at_clean; eauto | apply IH, Hs].
Qed.

Lemma finditer_clean r s :
  clean Q s -> Forall (clean_match Q) (finditer r s).
Proof. apply finditer_from_clean. Qed.

Lemma group_clean m n : clean_match Q m -> clean Q (group m n).
Proof.
  intros [Hc _]. unfold group.
  destruct (groups m !! n) eqn:E; simpl; [eapply Hc; eauto | apply clean_empty].
Qed.

Lemma lstrip_clean s : clean Q s -> clean Q (PyStr.lstrip s).
Proof.
  induction s as [| c s IH]; intros Hs; simpl; [exact Hs |].
  destruct (PyStr.is_space c); [| exact Hs].
  apply clean_cons in Hs as [_ Hs]. auto.
Qed.

Lemma rstrip_clean s : clean Q s -> clean Q (PyStr.rstrip s).
Proof.
  induction s as [| c s IH]; intros Hs; simpl; [exact Hs |].
  apply clean_cons in Hs as [Hc Hs]. specialize (IH Hs).
  destruct (PyStr.rstrip s) as [| d t].
  - destruct (PyStr.is_space c); [apply clean_empty |].
    apply clean_cons; split; [exact Hc | apply clean_empty].
  - apply clean_cons; split; assumption.
Qed.

Lemma strip_clean s : clean Q s -> clean Q (PyStr.strip s).
Proof. intros H. apply rstrip_clean, lstrip_clean, H. Qed.

Lemma first_match_clean ps s m :
  clean Q s -> TranslatorTool.first_match ps s = Some m -> clean_match Q m.
Proof.
  intros Hs. induction ps as [| p ps IH]; simpl; [discriminate |].
  destruct (search p s) eqn:E; [| exact IH].
  intros [= <-]. eapply search_clean; eauto.
Qed.

Lemma questions_of_clean pattern s :
  clean Q s -> Forall (clean Q) (questions_of pattern s).
Proof.
  intros Hs. unfold questions_of.
  apply Forall_forall. intros q Hq.
  apply filter_In in Hq as [Hq _]. apply in_map_iff in Hq as [m [<- Hm]].
  apply strip_clean, group_clean.
  pose proof (finditer_clean pattern s Hs) as H.
  rewrite Forall_forall in H. apply H, Hm.
Qed.

End Capture.

(** ** Lower-casing *)

Lemma lower_char_not_upper c : not_upper (PyStr.lower_char c) = true.
Proof. destruct c as [[] [] [] [] [] [] [] []]; reflexivity. Qed.

Lemma lower_clean s : clean not_upper (PyStr.lower s).
Proof.
  induction s as [| c s IH]; [reflexivity |].
  simpl. apply clean_cons. split; [apply lower_char_not_upper | exact IH].
Qed.

Lemma lower_fixed s : clean not_upper s -> PyStr.lower s = s.
Proof.
  induction s as [| c s IH]; intros H; [reflexivity |].
  apply clean_cons in H as [Hc Hs]. simpl. rewrite (IH Hs). f_equal.
  unfold PyStr.lower_char, not_upper in *.
  destruct (PyStr.is_upper c); [discriminate | reflexivity].
Qed.

(** C6 as stated fails.  The phrase typed as 'Good Morning' is captured as
    "good morning" and the fragment typed as "about Paris" as "about
    paris"; neither capture occurs in the query as typed. *)
Lemma casing_not_preserved :
  (TranslatorTool.detect_translation_request
     "Translate 'Good Morning' into German" ≫= fun request =>
     request !! "english_text") = Some "good morning" /\
  PyStr.contains "good morning" "Translate 'Good Morning' into German" = false /\
  extract_knowledge_questions "Tell me about Paris" = ["about paris"] /\
  PyStr.contains "about paris" "Tell me about Paris" = false.
Proof. repeat split; vm_compute; reflexivity. Qed.

(** ** The translator *)

(** A translation that succeeded carries its German text. *)
Lemma translate_success_has_text (english_text : scalar) (reply : dict pyval) :
  TranslatorTool.translate english_text = Ret reply ->
  reply !! "success" = Some (VBool true) ->
  exists german, reply !! "german_translation" = Some (VStr german).
Proof.
  unfold TranslatorTool.translate, TranslatorTool.translate_try, try_except.
  destruct (Py.lower english_text) as [lowered | e];
    unfold mbind, res_bind, mret, res_ret.
  - destruct (TranslatorTool.translation_dict !! PyStr.strip lowered)
      as [german |].
    + intros [= <-] _. eexists. dict_lookup. reflexivity.
    + destruct (map TranslatorTool.translate_word _) as [| w ws].
      * intros [= <-] H. dict_lookup_in H. discriminate.
      * intros [= <-] _. eexists. dict_lookup. reflexivity.
  - intros [= <-] H. dict_lookup_in H. discriminate.
Qed.

(** The word-by-word pass refuses a phrase only when the phrase has no
    word at all. *)
Lemma translate_fails_only_on_blank (phrase : string) (reply : dict pyval) :
  TranslatorTool.translate (PStr phrase) = Ret reply ->
  reply !! "success" = Some (VBool false) ->
  PyStr.split (PyStr.strip (PyStr.lower phrase)) = [].
Proof.
  unfold TranslatorTool.translate, TranslatorTool.translate_try, try_except.
  unfold Py.lower, mbind, res_bind, mret, res_ret.
  destruct (TranslatorTool.translation_dict !! _) as [german |].
  - intros [= <-] H. dict_lookup_in H. discriminate.
  - destruct (PyStr.split _) as [| w ws]; [reflexivity |].
    simpl map. intros [= <-] H. dict_lookup_in H. discriminate.
Qed.

(** C5.  On a phrase none of whose words is in the dictionary,
    [translate] answers with success and confidence [partial], every word
    kept between brackets; it answers with a failure only on a phrase
    that has no word.  A direct hit has confidence [high], a phrase with
    known and unknown words confidence [partial]. *)
Theorem translate_total_miss_is_partial :
  TranslatorTool.translation_dict !! "xyz" = None /\
  TranslatorTool.translate (PStr "xyz") = Ret bracketed_reply /\
  TranslatorTool.translate (PStr "   ") = Ret blank_reply /\
  TranslatorTool.translate (PStr "Good Morning") =
    Ret {[ "success" := VBool true;
           "english_text" := VStr "Good Morning";
           "german_translation" := VStr "Guten Morgen";
           "confidence" := VStr "high" ]} /\
  TranslatorTool.translate (PStr "good xyz") =
    Ret {[ "success" := VBool true;
           "english_text" := VStr "good xyz";
           "german_translation" := VStr "Gut [xyz]";
           "confidence" := VStr "partial";
           "note" := VStr "Some words may not be accurately translated" ]}.
Proof. repeat split; vm_compute; reflexivity. Qed.

(** A query can reach the failure branch of [translate]: a quoted blank.
    The step is executed as completed and counted in the summary. *)
Lemma blank_translation_counted :
  analyze_query "translate ' ' into german and 1+2" =
    [ translation_step "";
      math_step {[ "operation" := PStr "+";
                   "operand1" := PFloat (PyFloat.of_Z 1);
                   "operand2" := PFloat (PyFloat.of_Z 2);
                   "expression" := PStr "1 + 2" ]} ] /\
  map (reply_field "success")
      (trace_of (execute_query fallback_agent
                   "translate ' ' into german and 1+2")) =
    [Some (VBool false); Some (VBool true)] /\
  outcome (process_query fallback_agent "translate ' ' into german and 1+2") =
    Ret (lines [ "Step-by-step multi-task response:";
                 "";
                 "1. **Translate '' to German**";
                 "";
                 "2. **Calculate 1 + 2**";
                 "   Result: 1.0 + 2.0 = 3.0";
                 "";
                 "**Summary**: Successfully completed 2 out of 2 tasks." ]).
Proof. repeat split; vm_compute; reflexivity. Qed.

(** ** The two sample queries *)

(** C7, as the code has it.  The query "Translate 'Good Morning' into
    German and then multiply 5 and 6." yields two sub-tasks in order, a
    translation of the lower-cased phrase "good morning" and a
    multiplication of 5.0 and 6.0 labelled "5 × 6"; the translator
    answers "Guten Morgen", the calculator answers with the expression
    "5.0 * 6.0 = 30.0"; the answer has the multi-step format and ends
    with "2 out of 2". *)
Theorem translate_then_multiply (self : FullAgent) :
  analyze_query query_translate_multiply =
    [good_morning_step; five_times_six_step] /\
  outcome (execute_query self query_translate_multiply) =
    Ret [ complete good_morning_step good_morning_reply;
          complete five_times_six_step five_times_six_reply ] /\
  outcome (process_query self query_translate_multiply) =
    Ret (lines [ "Step-by-step multi-task response:";
                 "";
                 "1. **Translate 'good morning' to German**";
                 "   Result: 'Guten Morgen'";
                 "";
                 "2. **Calculate 5 × 6**";
                 "   Result: 5.0 * 6.0 = 30.0";
                 "";
                 "**Summary**: Successfully completed 2 out of 2 tasks." ]).
Proof. repeat split; vm_compute; reflexivity. Qed.

(** C7 as stated fails: the phrase of the translation sub-task is not
    "Good Morning", and the expression of the calculator's reply is not
    "5 × 6 = 30.0". *)
Lemma phrase_and_rendering_differ :
  first_phrase (analyze_query query_translate_multiply) <>
    Some (PStr "Good Morning") /\
  map (reply_field "expression")
      (trace_of (execute_query fallback_agent query_translate_multiply)) <>
    [None; Some (VStr "5 × 6 = 30.0")].
Proof. split; vm_compute; discriminate. Qed.

(** C8.  The query "What is the distance between Earth and Mars?" yields
    two knowledge sub-tasks, "distance between earth" from the "what is"
    pattern and "earth" from the "distance between" pattern: both
    patterns stop at the word "and".  In fallback mode each is answered
    with the generic text; the text about the distance between Earth and
    Mars, which [fallback_response] gives for the whole query, is not
    produced. *)
Theorem distance_query_split :
  analyze_query query_distance =
    [ mkTaskStep "Answer: distance between earth" (Some "llm")
                 {[ "question" := PStr "distance between earth" ]}
                 None false None;
      mkTaskStep "Answer: earth" (Some "llm")
                 {[ "question" := PStr "earth" ]} None false None ] /\
  outcome (execute_query fallback_agent query_distance) =
    Ret [ complete (question_step "distance between earth")
            {[ "response" := VStr (generic_text "distance between earth") ]};
          complete (question_step "earth")
            {[ "response" := VStr (generic_text "earth") ]} ] /\
  fallback_response (PStr query_distance) = Ret earth_mars_text /\
  outcome (process_query fallback_agent query_distance) =
    Ret (lines [ "Step-by-step multi-task response:";
                 "";
                 "1. **Answer: distance between earth**";
                 "   Result: " +:+ generic_text "distance between earth";
                 "";
                 "2. **Answer: earth**";
                 "   Result: " +:+ generic_text "earth";
                 "";
                 "**Summary**: Successfully completed 2 out of 2 tasks." ]).
Proof. repeat split; vm_compute; reflexivity. Qed.

(** ** A failed backend call *)

(** C4, as the code has it.  For a knowledge sub-task that has its
    question, when the call of the OpenAI (or Gemini) service raises,
    [call_openai] (or [call_gemini]) turns the exception into the text
    "Error calling OpenAI API: <message>" (or "Error calling Gemini API:
    <message>"); [execute_step] stores that text as the response and
    leaves the step completed, its error field as it was. *)
Theorem backend_error_becomes_reply (self : FullAgent) (step : TaskStep)
    (question : scalar) (e : exn) :
  is_tool step "llm" = true ->
  parameters step !! "question" = Some question ->
  (llm_type self = "openai" ->
   openai self (create_prompt question) = Raise e ->
   let reply : dict pyval :=
     {[ "response" := VStr ("Error calling OpenAI API: " +:+ str_exn e) ]} in
   execute_step self step = Ret (complete step reply, reply)) /\
  (llm_type self = "gemini" ->
   gemini self (create_prompt question) = Raise e ->
   let reply : dict pyval :=
     {[ "response" := VStr ("Error calling Gemini API: " +:+ str_exn e) ]} in
   execute_step self step = Ret (complete step reply, reply)).
Proof.
  intros Htool Hq.
  pose proof (is_tool_other _ _ "calculator" Htool eq_refl) as Hc.
  pose proof (is_tool_other _ _ "translator" Htool eq_refl) as Ht.
  split; intros Htype Hcall reply; unfold execute_step, execute_step_try;
    rewrite Hc, Ht, Htool; unfold getitem; rewrite Hq; simpl;
    rewrite Htype; simpl; unfold call_openai, call_gemini; rewrite Hcall;
    reflexivity.
Qed.

(** Two agents whose service answers "401 Unauthorized". *)
Lemma backend_error_becomes_reply_witness :
  (let reply : dict pyval :=
     {[ "response" := VStr "Error calling OpenAI API: 401 Unauthorized" ]} in
   execute_step openai_agent france_step =
     Ret (complete france_step reply, reply)) /\
  (let reply : dict pyval :=
     {[ "response" := VStr "Error calling Gemini API: 401 Unauthorized" ]} in
   execute_step gemini_agent france_step =
     Ret (complete france_step reply, reply)).
Proof.
  split.
  - apply (proj1 (backend_error_becomes_reply openai_agent france_step
                    (PStr "the capital of france") (APIError "401 Unauthorized")
                    eq_refl eq_refl)); reflexivity.
  - apply (proj2 (backend_error_becomes_reply gemini_agent france_step
                    (PStr "the capital of france") (APIError "401 Unauthorized")
                    eq_refl eq_refl)); reflexivity.
Defined.

(** C4 as stated fails: the service raises "401 Unauthorized", and the
    step ends completed, without an error, the message inside its
    response. *)
Lemma backend_error_not_a_failure :
  openai openai_agent (create_prompt (PStr "the capital of france")) =
    Raise (APIError "401 Unauthorized") /\
  completed (executed openai_agent france_step) = true /\
  error (executed openai_agent france_step) = None /\
  reply_field "response" (executed openai_agent france_step) =
    Some (VStr "Error calling OpenAI API: 401 Unauthorized").
Proof. repeat split; vm_compute; reflexivity. Qed.

(** ** Continue on error *)

Lemma execute_all_spec (self : FullAgent) (steps : list TaskStep) :
  forall i,
    execute_all self i steps =
      (execution_log self i steps, Ret (map (executed self) steps)).
Proof.
  induction steps as [| step steps IH]; intros i; [reflexivity |].
  destruct (execute_step_returns self step) as [step' [reply H]].
  simpl. unfold executed, status_line. rewrite H. cbn. rewrite IH.
  unfold mbind, io_bind, mret, io_ret. rewrite app_nil_r. reflexivity.
Qed.

Lemma announce_returns (steps : list TaskStep) :
  forall i, outcome (announce i steps) = Ret tt.
Proof.
  induction steps as [| step steps IH]; intros i; [reflexivity |].
  simpl. specialize (IH (S i)).
  destruct (announce (S i) steps) as [out r]. simpl in IH. subst r.
  reflexivity.
Qed.

(** The trace that [process_query] synthesizes from: the sub-tasks of
    [analyze_query], each as [execute_step] leaves it, in order. *)
Lemma execute_query_trace (self : FullAgent) (user_query : string) :
  outcome (execute_query self user_query) =
    Ret (map (executed self) (analyze_query user_query)).
Proof.
  unfold execute_query.
  pose proof (announce_returns (analyze_query user_query) 1) as Ha.
  destruct (announce 1 (analyze_query user_query)) as [out r].
  simpl in Ha. subst r.
  unfold mbind, io_bind, print. rewrite execute_all_spec. reflexivity.
Qed.

(** A translator step that ended completed holds the translator's reply. *)
Lemma executed_translator (self : FullAgent) (t : TaskStep) :
  is_tool t "translator" = true ->
  completed (executed self t) = true ->
  exists english_text reply,
    TranslatorTool.translate english_text = Ret reply /\
    executed self t = complete t reply.
Proof.
  intros Ht. unfold executed, execute_step, execute_step_try, try_except.
  rewrite (is_tool_other _ _ "calculator" Ht eq_refl), Ht.
  destruct (getitem (parameters t) "english_text") as [p | e]; simpl;
    [| discriminate].
  destruct (TranslatorTool.translate p) as [r | e] eqn:E; simpl;
    [| discriminate].
  intros _. exists p, r. split; [exact E | reflexivity].
Qed.

Lemma step_parts_translated (i : nat) (t : TaskStep) (reply : dict pyval)
    (german : string) :
  is_tool t "translator" = true ->
  reply !! "success" = Some (VBool true) ->
  reply !! "german_translation" = Some (VStr german) ->
  step_parts i (complete t reply) =
    Ret [heading i t; "   Result: '" +:+ german +:+ "'"].
Proof.
  intros Ht Hs Hg. unfold step_parts, tool_succeeded, is_tool in *. simpl.
  apply is_tool_eq in Ht as E. rewrite E. simpl.
  rewrite Hs. simpl. unfold getitem. rewrite Hg. reflexivity.
Qed.

Lemma step_parts_failed (i : nat) (c : TaskStep) (msg : string) :
  step_parts i (fail c msg) = Ret [heading i c; "   Error: " +:+ msg].
Proof. reflexivity. Qed.

Lemma synthesize_pair (a b : TaskStep) (query : string) (pa pb : list string) :
  step_parts 1 a = Ret pa -> step_parts 2 b = Ret pb ->
  synthesize_results [a; b] query =
    Ret (lines ("Step-by-step multi-task response:" ::
                pa ++ pb ++ [summary [a; b]])%list).
Proof.
  intros Ha Hb. unfold synthesize_results. cbn [all_parts].
  rewrite Ha, Hb. unfold mbind, res_bind, mret, res_ret.
  rewrite app_nil_r, <- app_assoc. reflexivity.
Qed.

(** When a step does fail (its execution raises and [execute_step]
    records the error), the other step is executed all the same and keeps
    its result, whichever comes first; the failed step is rendered with
    its error and the summary does not count it. *)
Lemma raising_step_is_isolated (self : FullAgent) (t c : TaskStep)
    (query : string) :
  is_tool t "translator" = true ->
  is_tool c "calculator" = true ->
  completed (executed self t) = true ->
  reply_field "success" (executed self t) = Some (VBool true) ->
  completed (executed self c) = false ->
  exists german msg,
    reply_field "german_translation" (executed self t) =
      Some (VStr german) /\
    error (executed self c) = Some msg /\
    outcome (execute_all self 1 [t; c]) =
      Ret [executed self t; executed self c] /\
    outcome (execute_all self 1 [c; t]) =
      Ret [executed self c; executed self t] /\
    synthesize_results [executed self t; executed self c] query =
      Ret (lines [ "Step-by-step multi-task response:";
                   heading 1 t; "   Result: '" +:+ german +:+ "'";
                   heading 2 c; "   Error: " +:+ msg;
                   summary_line 1 2 ]) /\
    synthesize_results [executed self c; executed self t] query =
      Ret (lines [ "Step-by-step multi-task response:";
                   heading 1 c; "   Error: " +:+ msg;
                   heading 2 t; "   Result: '" +:+ german +:+ "'";
                   summary_line 1 2 ]).
Proof.
  intros Ht Hc Htc Hts Hcf.
  destruct (executed_translator self t Ht Htc) as [p [r [Hr Et]]].
  destruct (executed_failed self c Hcf) as [msg Ec].
  rewrite Et in Hts. unfold reply_field in Hts. simpl in Hts.
  destruct (translate_success_has_text p r Hr Hts) as [german Hg].
  exists german, msg.
  rewrite !execute_all_spec. cbn [map outcome snd]. rewrite Et, Ec.
  split; [exact Hg |].
  split; [reflexivity |].
  split; [reflexivity |].
  split; [reflexivity |].
  split.
  - rewrite (synthesize_pair _ _ query _ _
               (step_parts_translated 1 t r german Ht Hts Hg)
               (step_parts_failed 2 c msg)).
    reflexivity.
  - rewrite (synthesize_pair _ _ query _ _
               (step_parts_failed 1 c msg)
               (step_parts_translated 2 t r german Ht Hts Hg)).
    reflexivity.
Qed.

(** ** What reaches the log *)

Lemma analyze_query_untouched (user_query : string) :
  Forall untouched (analyze_query user_query).
Proof.
  assert (H : Forall untouched (detected_steps user_query)).
  { unfold detected_steps. repeat apply Forall_app_2.
    - destruct (TranslatorTool.detect_translation_request user_query);
        repeat constructor.
    - apply Forall_forall. intros s Hs.
      apply in_map_iff in Hs as [op [<- _]]. repeat split.
    - apply Forall_forall. intros s Hs.
      apply in_map_iff in Hs as [q [<- _]]. repeat split. }
  unfold analyze_query.
  destruct (detected_steps user_query); [repeat constructor | exact H].
Qed.

(** Whatever the query, the steps handed to [log_interaction] are those
    of a second call of [analyze_query]: none of them has been executed. *)
Lemma run_turn_logs_untouched_steps (self : FullAgent) (line : string)
    (logged : list TaskStep) :
  logged_steps (run_turn self line) = Some logged ->
  logged = analyze_query (PyStr.strip line) /\ Forall untouched logged.
Proof.
  unfold run_turn.
  destruct (_ || _)%bool; [discriminate |].
  destruct (PyStr.strip line =? "")%string; [discriminate |].
  destruct (process_query self (PyStr.strip line)) as [out [response | e]];
    [| discriminate].
  simpl. intros [= <-]. split; [reflexivity | apply analyze_query_untouched].
Qed.

(** C9.  On the input "Add 2 and 3" the trace that [process_query]
    executes and synthesizes from holds the completed addition with its
    result, and [process_query] returns the text only; the steps that the
    main loop hands to [log_interaction] come from a second call of
    [analyze_query]: the same addition, not completed and without a
    result. *)
Theorem logged_steps_are_not_the_executed_trace :
  trace_of (execute_query fallback_agent "Add 2 and 3") =
    [complete add_step add_reply] /\
  outcome (process_query fallback_agent "Add 2 and 3") =
    Ret (lines [ "Step-by-step response:";
                 "";
                 "1. **Question Analysis**: You asked for a mathematical calculation";
                 "2. **Tool Usage**: I used the calculator tool";
                 "3. **Calculation**: 2.0 + 3.0 = 5.0";
                 "4. **Result**: The answer is 5.0" ]) /\
  logged_steps (run_turn fallback_agent "Add 2 and 3") = Some [add_step] /\
  completed add_step = false /\
  result add_step = None.
Proof. repeat split; vm_compute; reflexivity. Qed.

(** ** What a match says about the text *)

Section Sound.
Import Re.
Context {A : Type}.

Lemma rep_greedy_sound p (k : string -> option A) :
  forall s least a,
    rep_greedy p least s k = Some a ->
    exists w s', s = w +:+ s' /\ PyStr.all_chars p w = true /\
                 least <= String.length w /\ k s' = Some a.
Proof.
  induction s as [| c s IH]; intros least a H; simpl in H.
  - destruct least; [| discriminate]. exists "", "". repeat split; auto.
  - assert (Hstop : match least with O => k (String c s) | S _ => None end
                    = Some a ->
                    exists w s', String c s = w +:+ s' /\
                      PyStr.all_chars p w = true /\
                      least <= String.length w /\ k s' = Some a).
    { destruct least; [| discriminate]. intros Hk.
      exists "", (String c s). repeat split; auto. }
    destruct (p c) eqn:Hp; [| auto].
    apply (@or_else_inv A) in H as [H | H]; [| auto].
    apply IH in H as [w [s' [-> [Hw [Hl Hk]]]]].
    exists (String c w), s'. repeat split; auto.
    + simpl. rewrite Hp. exact Hw.
    + simpl. lia.
Qed.

Lemma rep_lazy_sound p (k : string -> option A) :
  forall s least a,
    rep_lazy p least s k = Some a ->
    exists w s', s = w +:+ s' /\ PyStr.all_chars p w = true /\
                 least <= String.length w /\ k s' = Some a.
Proof.
  induction s as [| c s IH]; intros least a H; destruct least as [| n];
    simpl in H; try discriminate.
  - exists "", "". repeat split; auto.
  - apply (@or_else_inv A) in H as [H | H].
    + exists "", (String c s). repeat split; auto.
    + destruct (p c) eqn:Hp; [| discriminate].
      apply IH in H as [w [s' [-> [Hw [Hl Hk]]]]].
      exists (String c w), s'. repeat split; auto.
      * simpl. rewrite Hp. exact Hw.
      * simpl. lia.
  - destruct (p c) eqn:Hp; [| discriminate].
    apply IH in H as [w [s' [-> [Hw [Hl Hk]]]]].
    exists (String c w), s'. repeat split; auto.
    + simpl. rewrite Hp. exact Hw.
    + simpl. lia.
Qed.

Lemma match_here_sound r :
  forall s c (k : string -> caps -> option A) a,
    match_here r s c k = Some a ->
    exists s' c', matches r s c s' c' /\ k s' c' = Some a.
Proof.
  induction r as [| l | p | lazy least p | r1 IH1 r2 IH2 | r1 IH1 r2 IH2
                  | n r IH |]; intros s c k a H; simpl in H.
  - exists s, c. split; [constructor | exact H].
  - destruct (drop_prefix l s) as [s' |] eqn:E; [| discriminate].
    exists s', c. split; [constructor; exact E | exact H].
  - destruct s as [| b s]; [discriminate |].
    destruct (p b) eqn:Hp; [| discriminate].
    exists s, c. split; [constructor; exact Hp | exact H].
  - assert (Hr : exists w s', s = w +:+ s' /\ PyStr.all_chars p w = true /\
                   least <= String.length w /\ k s' c = Some a).
    { destruct lazy; [eapply rep_lazy_sound | eapply rep_greedy_sound];
        exact H. }
    destruct Hr as [w [s' [-> [Hw [Hl Hk]]]]].
    exists s', c. split; [constructor; assumption | exact Hk].
  - apply IH1 in H as [s1 [c1 [H1 H]]].
    apply IH2 in H as [s2 [c2 [H2 H]]].
    exists s2, c2. split; [econstructor; eauto | exact H].
  - apply (@or_else_inv A) in H as [H | H].
    + apply IH1 in H as [s' [c' [H1 H]]]. exists s', c'.
      split; [apply matches_alt_l; exact H1 | exact H].
    + apply IH2 in H as [s' [c' [H2 H]]]. exists s', c'.
      split; [apply matches_alt_r; exact H2 | exact H].
  - apply IH in H as [s' [c' [H1 H]]].
    exists s', (<[n := consumed s s']> c').
    split; [constructor; exact H1 | exact H].
  - destruct (at_end s) eqn:E; [| discriminate].
    exists s, c. split; [constructor; exact E | exact H].
Qed.

End Sound.

Lemma match_at_sound r s m :
  Re.match_at r s = Some m -> matches r s ∅ (Re.rest m) (Re.groups m).
Proof.
  unfold Re.match_at. intros H.
  apply match_here_sound in H as [s' [c' [Hm [= <-]]]]. exact Hm.
Qed.

Lemma search_sound r s : forall m,
  Re.search r s = Some m ->
  exists pre t, s = pre +:+ t /\ matches r t ∅ (Re.rest m) (Re.groups m).
Proof.
  induction s as [| c s IH]; intros m H; simpl in H.
  - destruct (Re.match_at r "") eqn:E; [| discriminate].
    injection H as <-. exists "", "". split; [reflexivity |].
    apply match_at_sound, E.
  - destruct (Re.match_at r (String c s)) eqn:E.
    + injection H as <-. exists "", (String c s). split; [reflexivity |].
      apply match_at_sound, E.
    + apply IH in H as [pre [t [-> Hm]]].
      exists (String c pre), t. split; [reflexivity | exact Hm].
Qed.

Lemma finditer_from_sound r s : forall skip,
  Forall (fun m => exists pre t, s = pre +:+ t /\
                     matches r t ∅ (Re.rest m) (Re.groups m))
         (Re.finditer_from r skip s).
Proof.
  induction s as [| c s IH]; intros skip.
  - destruct skip; simpl; [| constructor].
    destruct (Re.match_at r "") eqn:E; constructor; [| constructor].
    exists "", "". split; [reflexivity | apply match_at_sound, E].
  - assert (Hrec : forall k,
      Forall (fun m => exists pre t, String c s = pre +:+ t /\
                         matches r t ∅ (Re.rest m) (Re.groups m))
             (Re.finditer_from r k s)).
    { intros k. eapply Forall_impl; [| apply IH].
      intros m [pre [t [-> Hm]]]. exists (String c pre), t. auto. }
    destruct skip; simpl; [| apply Hrec].
    destruct (Re.match_at r (String c s)) eqn:E; [| apply Hrec].
    constructor; [| apply Hrec].
    exists "", (String c s). split; [reflexivity | apply match_at_sound, E].
Qed.

Lemma append_nil (b : string) : "" +:+ b = b.
Proof. reflexivity. Qed.

Lemma append_cons (c : ascii) (a b : string) :
  String c a +:+ b = String c (a +:+ b).
Proof. reflexivity. Qed.

Lemma append_length (a b : string) :
  String.length (a +:+ b) = String.length a + String.length b.
Proof.
  induction a as [| c a IH]; [reflexivity |].
  rewrite append_cons. simpl. rewrite IH. reflexivity.
Qed.

Lemma append_assoc (a b c : string) : (a +:+ b) +:+ c = a +:+ (b +:+ c).
Proof.
  induction a as [| x a IH]; [reflexivity |].
  rewrite !append_cons, IH. reflexivity.
Qed.

Lemma substring_prefix (w s : string) :
  String.substring 0 (String.length w) (w +:+ s) = w.
Proof.
  induction w as [| c w IH].
  - rewrite append_nil. destruct s; reflexivity.
  - rewrite append_cons. simpl. rewrite IH. reflexivity.
Qed.

Lemma consumed_app (w s : string) : Re.consumed (w +:+ s) s = w.
Proof.
  unfold Re.consumed. rewrite append_length.
  replace (String.length w + String.length s - String.length s)
    with (String.length w) by lia.
  apply substring_prefix.
Qed.

Lemma drop_prefix_app (l : string) : forall s s',
  Re.drop_prefix l s = Some s' -> s = l +:+ s'.
Proof.
  induction l as [| a l IH]; intros s s' H; simpl in H.
  - destruct s; injection H as <-; reflexivity.
  - destruct s as [| b s]; [discriminate |].
    destruct (Ascii.eqb a b) eqn:E; [| discriminate].
    apply Ascii.eqb_eq in E as <-. rewrite append_cons. f_equal. apply IH, H.
Qed.

Lemma starts_with_app (p s : string) : PyStr.starts_with p (p +:+ s) = true.
Proof.
  induction p as [| a p IH]; [destruct s; reflexivity |].
  rewrite append_cons. simpl. rewrite Ascii.eqb_refl. exact IH.
Qed.

Lemma occurs_here (p s : string) : occurs p (p +:+ s).
Proof. exists "", s. reflexivity. Qed.

Lemma occurs_later (p w s : string) : occurs p s -> occurs p (w +:+ s).
Proof.
  intros [a [b ->]]. exists (w +:+ a), b. symmetry. apply append_assoc.
Qed.

Lemma occurs_contains (p s : string) :
  occurs p s -> PyStr.contains p s = true.
Proof.
  intros [a [b ->]]. induction a as [| c a IH].
  - rewrite append_nil. destruct (p +:+ b) eqn:E; simpl.
    + rewrite <- E, starts_with_app. reflexivity.
    + rewrite <- E, starts_with_app. reflexivity.
  - rewrite append_cons. simpl. rewrite IH. apply orb_true_r.
Qed.

(** ** Requests to the calculator in words *)

Lemma is_operator_sign (a : ascii) :
  CalculatorTool.is_operator a = true ->
  String a "" = "+" \/ String a "" = "-" \/ String a "" = "*" \/
  String a "" = "/".
Proof.
  destruct a as [[] [] [] [] [] [] [] []]; vm_compute; intros H;
    try discriminate; auto.
Qed.

Lemma what_is_pattern_sound (t : string) (m : Re.match_obj) :
  Re.search what_is_pattern t = Some m ->
  occurs "what" t /\
  (Re.group m 2 = "+" \/ Re.group m 2 = "-" \/ Re.group m 2 = "*" \/
   Re.group m 2 = "/").
Proof.
  intros H. apply search_sound in H as [pre [u [-> H]]].
  unfold Re.group. destruct m as [c r]. simpl in *.
  cbv [what_is_pattern Re.cat fold_right Re.digits Re.ws1 Re.ws0] in H.
  invert_matches.
  split.
  - apply occurs_later.
    match goal with
    | H : Re.drop_prefix "what" _ = Some _ |- _ =>
        apply drop_prefix_app in H; rewrite H
    end.
    apply occurs_here.
  - rewrite lookup_insert_ne by discriminate. rewrite lookup_insert_eq. simpl.
    match goal with
    | |- context [Re.consumed (String ?a ?s) ?s] =>
        change (String a s) with (String a "" +:+ s);
        rewrite (consumed_app (String a "") s)
    end.
    apply is_operator_sign. assumption.
Qed.

Lemma word_pattern_sound (t : string) (m : Re.match_obj) :
  Re.search word_pattern t = Some m ->
  (Re.group m 2 = "plus" \/ Re.group m 2 = "minus" \/ Re.group m 2 = "times" \/
   Re.group m 2 = "multiply" \/ Re.group m 2 = "divide") /\
  occurs (Re.group m 2) t.
Proof.
  intros H. apply search_sound in H as [pre [u [-> H]]].
  unfold Re.group. destruct m as [c r]. simpl in *.
  cbv [word_pattern Re.cat fold_right Re.digits Re.ws1 Re.ws0
       CalculatorTool.operator_word] in H.
  invert_matches;
    rewrite lookup_insert_ne by discriminate; rewrite lookup_insert_eq; simpl;
    match goal with
    | H : Re.drop_prefix _ _ = Some _ |- _ =>
        apply drop_prefix_app in H; rewrite H
    end;
    rewrite consumed_app;
    (split; [tauto | do 3 apply occurs_later; apply occurs_here]).
Qed.

Lemma operation_of_three (p : Re.regex) (m : Re.match_obj)
    (text text_lower : string) :
  CalculatorTool.group_count p = 3 ->
  CalculatorTool.operation_of p m text text_lower =
    Ret {[ "operation" :=
             PStr match CalculatorTool.supported_operations !! Re.group m 2 with
                  | Some sign => sign
                  | None => Re.group m 2
                  end;
           "operand1" := PFloat (PyFloat.of_digits (Re.group m 1));
           "operand2" := PFloat (PyFloat.of_digits (Re.group m 3));
           "original_text" := PStr text ]}.
Proof. intros H. unfold CalculatorTool.operation_of. rewrite H. reflexivity. Qed.

Lemma operation_of_two (p : Re.regex) (m : Re.match_obj)
    (text text_lower : string) :
  CalculatorTool.group_count p = 2 ->
  CalculatorTool.operation_of p m text text_lower =
    Ret {[ "operation" :=
             PStr (if PyStr.contains "add" text_lower then "+"
                   else if PyStr.contains "multiply" text_lower then "*"
                   else "+");
           "operand1" := PFloat (PyFloat.of_digits (Re.group m 1));
           "operand2" := PFloat (PyFloat.of_digits (Re.group m 2));
           "original_text" := PStr text ]}.
Proof. intros H. unfold CalculatorTool.operation_of. rewrite H. reflexivity. Qed.

Lemma detected_two (p : Re.regex) (m : Re.match_obj) (text : string) :
  CalculatorTool.group_count p = 2 ->
  exists found,
    CalculatorTool.operation_of p m text (PyStr.lower text) = Ret found /\
    detected text found.
Proof.
  intros H. rewrite (operation_of_two _ _ _ _ H).
  eexists. split; [reflexivity |].
  eexists _, _, _. split; [reflexivity |].
  unfold operator_needs.
  destruct (PyStr.contains "add" _); [auto |].
  destruct (PyStr.contains "multiply" _) eqn:E; [| auto].
  right; right; left. auto.
Qed.

Lemma detected_what_is (m : Re.match_obj) (text : string) :
  Re.search what_is_pattern (PyStr.lower text) = Some m ->
  exists found,
    CalculatorTool.operation_of what_is_pattern m text (PyStr.lower text)
      = Ret found /\
    detected text found.
Proof.
  intros H. apply what_is_pattern_sound in H as [Hw Hop].
  apply occurs_contains in Hw.
  rewrite (operation_of_three what_is_pattern m text _ eq_refl).
  eexists. split; [reflexivity |].
  eexists _, _, _. split; [reflexivity |].
  unfold operator_needs.
  destruct Hop as [-> | [-> | [-> | ->]]];
    match goal with
    | |- context [CalculatorTool.supported_operations !! ?k] =>
        replace (CalculatorTool.supported_operations !! k) with (@None string)
          by (vm_compute; reflexivity)
    end; tauto.
Qed.

Lemma detected_word (m : Re.match_obj) (text : string) :
  Re.search word_pattern (PyStr.lower text) = Some m ->
  exists found,
    CalculatorTool.operation_of word_pattern m text (PyStr.lower text)
      = Ret found /\
    detected text found.
Proof.
  intros H. apply word_pattern_sound in H as [Hop Hw].
  apply occurs_contains in Hw.
  rewrite (operation_of_three word_pattern m text _ eq_refl).
  eexists. split; [reflexivity |].
  eexists _, _, _. split; [reflexivity |].
  unfold operator_needs.
  destruct Hop as [E | [E | [E | [E | E]]]]; rewrite E in *;
    match goal with
    | |- context [CalculatorTool.supported_operations !! ?k] =>
        let v := eval vm_compute in (CalculatorTool.supported_operations !! k) in
        replace (CalculatorTool.supported_operations !! k) with v
          by (vm_compute; reflexivity)
    end; tauto.
Qed.

Lemma detect_math_operation_detected (text : string) :
  exists r,
    CalculatorTool.detect_math_operation text = Ret r /\
    forall found, r = Some found -> detected text found.
Proof.
  unfold CalculatorTool.detect_math_operation, CalculatorTool.patterns.
  assert (Hret : forall found,
            detected text found ->
            exists r, (Ret found ≫= fun f => mret (Some f) : res _) = Ret r /\
                      forall found', r = Some found' -> detected text found').
  { intros found Hf. exists (Some found). split; [reflexivity |].
    intros ? [= <-]. exact Hf. }
  fold what_is_pattern word_pattern.
  cbn [CalculatorTool.detect_in].
  destruct (Re.search _ (PyStr.lower text)) as [m |] eqn:E1.
  { destruct (detected_what_is m text E1) as [found [-> Hf]]. auto. }
  destruct (Re.search _ (PyStr.lower text)) as [m |] eqn:E2 in |- *.
  { destruct (detected_word m text E2) as [found [-> Hf]]. auto. }
  repeat (destruct (Re.search _ (PyStr.lower text)) as [m |] in |- *;
          [ match goal with
            | |- context [CalculatorTool.operation_of ?p m text _] =>
                destruct (detected_two p m text eq_refl) as [found [-> Hf]]
            end; auto | ]).
  exists None. split; [reflexivity | discriminate].
Qed.

(** X1.  On a text written in ASCII, [detect_math_operation] never
    raises.  The request it finds holds the operator, the two operands
    as floats and the text as typed; the operator is [+] unless the
    lower-cased text says otherwise: [-], [*] and [/] need the word
    what, or the word minus, times or multiply, or divide. *)
Theorem detect_math_operation_reading (text : string) :
  ascii_text text ->
  exists r,
    CalculatorTool.detect_math_operation text = Ret r /\
    forall found, r = Some found -> detected text found.
Proof. intros _. apply detect_math_operation_detected. Qed.

Lemma detect_math_operation_reading_witness :
  detected "10 - 3"
    {[ "operation" := PStr "+";
       "operand1" := PFloat (PyFloat.of_Z 10);
       "operand2" := PFloat (PyFloat.of_Z 3);
       "original_text" := PStr "10 - 3" ]}.
Proof.
  assert (A : ascii_text "10 - 3") by reflexivity.
  destruct (detect_math_operation_reading "10 - 3" A) as [r [E H]].
  apply H.
  assert (E' : CalculatorTool.detect_math_operation "10 - 3" =
               Ret (Some {[ "operation" := PStr "+";
                            "operand1" := PFloat (PyFloat.of_Z 10);
                            "operand2" := PFloat (PyFloat.of_Z 3);
                            "original_text" := PStr "10 - 3" ]}))
    by (vm_compute; reflexivity).
  rewrite E' in E. injection E as <-. reflexivity.
Defined.

(** ** What the matcher finds *)

Section Complete.
Import Re.
Context {A : Type}.

Lemma or_else_right (x y : option A) (a : A) :
  y = Some a -> exists a', or_else x y = Some a'.
Proof. intros ->. destruct x; simpl; eauto. Qed.

Lemma rep_greedy_complete p (k : string -> option A) (s' : string) (a : A) :
  k s' = Some a ->
  forall w least,
    PyStr.all_chars p w = true -> least <= String.length w ->
    exists a', rep_greedy p least (w +:+ s') k = Some a'.
Proof.
  intros Hk. induction w as [| c w IH]; intros least Hw Hl.
  - simpl in Hl. assert (least = 0) as -> by lia. rewrite append_nil.
    destruct s' as [| d s']; simpl; [eauto |].
    destruct (p d); [apply (or_else_right _ _ a Hk) | eauto].
  - rewrite append_cons. simpl in Hw |- *.
    apply andb_true_iff in Hw as [Hc Hw]. rewrite Hc.
    destruct (IH (Nat.pred least) Hw) as [a' ->]; [simpl in Hl; lia |].
    simpl. eauto.
Qed.

Lemma rep_lazy_complete p (k : string -> option A) (s' : string) (a : A) :
  k s' = Some a ->
  forall w least,
    PyStr.all_chars p w = true -> least <= String.length w ->
    exists a', rep_lazy p least (w +:+ s') k = Some a'.
Proof.
  intros Hk. induction w as [| c w IH]; intros least Hw Hl.
  - simpl in Hl. assert (least = 0) as -> by lia. rewrite append_nil.
    destruct s' as [| d s']; simpl; [eauto |].
    rewrite Hk. simpl. eauto.
  - rewrite append_cons. simpl in Hw.
    apply andb_true_iff in Hw as [Hc Hw].
    destruct least as [| n]; simpl.
    + destruct (k (String c (w +:+ s'))); simpl; [eauto |].
      rewrite Hc. apply IH; [exact Hw | lia].
    + rewrite Hc. apply IH; [exact Hw | simpl in Hl; lia].
Qed.

Lemma match_here_complete r s c s' c' :
  matches r s c s' c' ->
  forall (k : string -> caps -> option A) a,
    k s' c' = Some a -> exists a', match_here r s c k = Some a'.
Proof.
  induction 1; intros k a0 Hk; simpl.
  - eauto.
  - rewrite H. eauto.
  - rewrite H. eauto.
  - destruct lazy.
    + apply (rep_lazy_complete p (fun s'' => k s'' c) s' a0 Hk); assumption.
    + apply (rep_greedy_complete p (fun s'' => k s'' c) s' a0 Hk); assumption.
  - destruct (IHmatches2 k a0 Hk) as [a2 H2].
    apply (IHmatches1 (fun s' c' => match_here r2 s' c' k) a2 H2).
  - destruct (IHmatches k a0 Hk) as [a' ->]. simpl. eauto.
  - destruct (IHmatches k a0 Hk) as [a' Ha].
    apply (or_else_right _ _ a' Ha).
  - apply (IHmatches (fun s'' c'' => k s'' (<[n := consumed s s'']> c'')) a0 Hk).
  - rewrite H. eauto.
Qed.

End Complete.

Lemma match_at_complete r s s' c' :
  matches r s ∅ s' c' -> exists m, Re.match_at r s = Some m.
Proof.
  intros H. unfold Re.match_at.
  apply (match_here_complete r s ∅ s' c' H _ (Re.MatchObj c' s')).
  reflexivity.
Qed.

Lemma search_complete r t s' c' :
  matches r t ∅ s' c' ->
  forall pre, exists m, Re.search r (pre +:+ t) = Some m.
Proof.
  intros H. destruct (match_at_complete r t s' c' H) as [m Hm].
  induction pre as [| c pre [m' IH]].
  - rewrite append_nil. exists m. destruct t; simpl; rewrite Hm; reflexivity.
  - rewrite append_cons. simpl.
    destruct (Re.match_at r (String c (pre +:+ t))); eauto.
Qed.

Lemma finditer_complete r t s' c' :
  matches r t ∅ s' c' ->
  forall pre, Re.finditer r (pre +:+ t) <> [].
Proof.
  intros H. destruct (match_at_complete r t s' c' H) as [m Hm].
  unfold Re.finditer. induction pre as [| c pre IH].
  - rewrite append_nil. destruct t; simpl; rewrite Hm; discriminate.
  - rewrite append_cons. simpl.
    destruct (Re.match_at r (String c (pre +:+ t))); [discriminate | exact IH].
Qed.

Lemma drop_prefix_here (l s : string) : Re.drop_prefix l (l +:+ s) = Some s.
Proof.
  induction l as [| a l IH]; [destruct s; reflexivity |].
  rewrite append_cons. simpl. rewrite Ascii.eqb_refl. exact IH.
Qed.

Lemma matches_lit_here (l s : string) (c : gmap nat string) :
  matches (Re.Lit l) (l +:+ s) c s c.
Proof. constructor. apply drop_prefix_here. Qed.

Lemma matches_ws1 (s : string) (c : gmap nat string) :
  matches Re.ws1 (" " +:+ s) c s c.
Proof. constructor; [reflexivity | simpl; lia]. Qed.

Lemma matches_ws0 (s : string) (c : gmap nat string) :
  matches Re.ws0 s c s c.
Proof. apply (matches_rep false 0 PyStr.is_space "" s c); [reflexivity | simpl; lia]. Qed.

Lemma matches_ws0_blank (s : string) (c : gmap nat string) :
  matches Re.ws0 (" " +:+ s) c s c.
Proof. constructor; [reflexivity | simpl; lia]. Qed.

Lemma matches_digits (n : nat) (d s : string) (c : gmap nat string) :
  numeral d -> exists c', matches (Re.digits n) (d +:+ s) c s c'.
Proof.
  intros [Hd Hn]. eexists. unfold Re.digits. constructor. constructor.
  - exact Hd.
  - destruct d; [contradiction | simpl; lia].
Qed.

Lemma matches_cat_cons r rs s c s1 c1 s2 c2 :
  matches r s c s1 c1 -> matches (Re.cat rs) s1 c1 s2 c2 ->
  matches (Re.cat (r :: rs)) s c s2 c2.
Proof. intros H1 H2. exact (matches_cat _ _ _ _ _ _ _ _ H1 H2). Qed.

Lemma matches_cat_nil s c : matches (Re.cat []) s c s c.
Proof. constructor. Qed.

(** A request that names the operation first: [word n and m]. *)
Lemma matches_prefix_form (word n m post : string) :
  numeral n -> numeral m ->
  exists s' c',
    matches (Re.cat [Re.Lit word; Re.ws1; Re.digits 1; Re.ws1; Re.Lit "and";
                     Re.ws1; Re.digits 2])
            (word +:+ " " +:+ n +:+ " and " +:+ m +:+ post) ∅ s' c'.
Proof.
  intros Hn Hm.
  destruct (matches_digits 1 n (" and " +:+ m +:+ post) ∅ Hn) as [c1 H1].
  destruct (matches_digits 2 m post c1 Hm) as [c2 H2].
  exists post, c2.
  eapply matches_cat_cons; [apply matches_lit_here |].
  eapply matches_cat_cons; [apply matches_ws1 |].
  eapply matches_cat_cons; [exact H1 |].
  eapply matches_cat_cons; [apply matches_ws1 |].
  eapply matches_cat_cons; [apply (matches_lit_here "and") |].
  eapply matches_cat_cons; [apply matches_ws1 |].
  eapply matches_cat_cons; [exact H2 |].
  apply matches_cat_nil.
Qed.

(** A request with a sign between the numerals, with or without blanks
    around it. *)
Lemma matches_sign_form (sign n m post : string) :
  numeral n -> numeral m ->
  (exists s' c',
     matches (Re.cat [Re.digits 1; Re.ws0; Re.Lit sign; Re.ws0; Re.digits 2])
             (n +:+ sign +:+ m +:+ post) ∅ s' c') /\
  (exists s' c',
     matches (Re.cat [Re.digits 1; Re.ws0; Re.Lit sign; Re.ws0; Re.digits 2])
             (n +:+ " " +:+ sign +:+ " " +:+ m +:+ post) ∅ s' c').
Proof.
  intros Hn Hm. split.
  - destruct (matches_digits 1 n (sign +:+ m +:+ post) ∅ Hn) as [c1 H1].
    destruct (matches_digits 2 m post c1 Hm) as [c2 H2].
    exists post, c2.
    eapply matches_cat_cons; [exact H1 |].
    eapply matches_cat_cons; [apply matches_ws0 |].
    eapply matches_cat_cons; [apply matches_lit_here |].
    eapply matches_cat_cons; [apply matches_ws0 |].
    eapply matches_cat_cons; [exact H2 |].
    apply matches_cat_nil.
  - destruct (matches_digits 1 n (" " +:+ sign +:+ " " +:+ m +:+ post) ∅ Hn)
      as [c1 H1].
    destruct (matches_digits 2 m post c1 Hm) as [c2 H2].
    exists post, c2.
    eapply matches_cat_cons; [exact H1 |].
    eapply matches_cat_cons; [apply matches_ws0_blank |].
    eapply matches_cat_cons; [apply matches_lit_here |].
    eapply matches_cat_cons; [apply matches_ws0_blank |].
    eapply matches_cat_cons; [exact H2 |].
    apply matches_cat_nil.
Qed.

(** A request with a word between the numerals. *)
Lemma matches_word_form (word n m post : string) :
  numeral n -> numeral m ->
  exists s' c',
    matches (Re.cat [Re.digits 1; Re.ws1; Re.Lit word; Re.ws1; Re.digits 2])
            (n +:+ " " +:+ word +:+ " " +:+ m +:+ post) ∅ s' c'.
Proof.
  intros Hn Hm.
  destruct (matches_digits 1 n (" " +:+ word +:+ " " +:+ m +:+ post) ∅ Hn)
    as [c1 H1].
  destruct (matches_digits 2 m post c1 Hm) as [c2 H2].
  exists post, c2.
  eapply matches_cat_cons; [exact H1 |].
  eapply matches_cat_cons; [apply matches_ws1 |].
  eapply matches_cat_cons; [apply matches_lit_here |].
  eapply matches_cat_cons; [apply matches_ws1 |].
  eapply matches_cat_cons; [exact H2 |].
  apply matches_cat_nil.
Qed.

(** ** The replies of the calculator *)

Lemma calculate_reply_shape (operation operand1 operand2 : scalar) :
  exists reply,
    CalculatorTool.calculate operation operand1 operand2 = Ret reply /\
    (success_reply reply \/ failure_reply reply).
Proof.
  unfold CalculatorTool.calculate, CalculatorTool.calculate_try, try_except,
    success_reply, failure_reply.
  unfold mbind, res_bind, mret, res_ret, read_local.
  destruct (Py.eq_str operation "+"); [chain_case; reply_shape |].
  destruct (Py.eq_str operation "-"); [chain_case; reply_shape |].
  destruct (Py.eq_str operation "*"); [chain_case; reply_shape |].
  destruct (Py.eq_str operation "/");
    [destruct (Py.eq_zero operand2); [| chain_case]; reply_shape |].
  reply_shape.
Qed.

Lemma format_success (reply : dict pyval) (expression : pyval) :
  reply !! "success" = Some (VBool true) ->
  reply !! "expression" = Some expression ->
  CalculatorTool.format_result reply =
    Ret ("🔢 Calculator Result: " +:+ Py.format_val expression).
Proof.
  intros Hs He. unfold CalculatorTool.format_result, getitem.
  rewrite Hs. simpl. rewrite He. reflexivity.
Qed.

Lemma format_failure (reply : dict pyval) (msg : string) :
  reply !! "success" = Some (VBool false) ->
  reply !! "error" = Some (VStr msg) ->
  CalculatorTool.format_result reply = Ret ("❌ Calculator Error: " +:+ msg).
Proof.
  intros Hs He. unfold CalculatorTool.format_result, getitem.
  rewrite Hs. simpl. rewrite He. reflexivity.
Qed.

(** X2.  Whatever the operator and the operands, [calculate] returns a
    reply that [format_result] can show: the text is the expression
    behind the result mark when the reply reports a success, and the
    error message behind the error mark otherwise. *)
Theorem calculator_reply_is_shown (operation operand1 operand2 : scalar) :
  exists reply shown,
    CalculatorTool.calculate operation operand1 operand2 = Ret reply /\
    CalculatorTool.format_result reply = Ret shown /\
    ((reply !! "success" = Some (VBool true) /\
      exists expression,
        reply !! "expression" = Some expression /\
        shown = "🔢 Calculator Result: " +:+ Py.format_val expression) \/
     (reply !! "success" = Some (VBool false) /\
      exists msg,
        reply !! "error" = Some (VStr msg) /\
        shown = "❌ Calculator Error: " +:+ msg)).
Proof.
  destruct (calculate_reply_shape operation operand1 operand2)
    as [reply [E [[Hs [x Hx]] | [Hs [msg Hm]]]]].
  - exists reply, ("🔢 Calculator Result: " +:+ Py.format_val x).
    split; [exact E |]. split; [exact (format_success _ _ Hs Hx) |].
    left. split; [exact Hs |]. exists x. auto.
  - exists reply, ("❌ Calculator Error: " +:+ msg).
    split; [exact E |]. split; [exact (format_failure _ _ Hs Hm) |].
    right. split; [exact Hs |]. exists msg. auto.
Qed.

Lemma calculate_floats (op : string) (a b : PyFloat.float) :
  CalculatorTool.calculate (PStr op) (PFloat a) (PFloat b) =
    Ret (if (op =? "+")%string then
           {[ "success" := VBool true;
              "result" := VFloat (PyFloat.add a b);
              "operation" := VStr "addition";
              "operand1" := VFloat a;
              "operand2" := VFloat b;
              "expression" :=
                VStr (PyFloat.repr a +:+ " " +:+ op +:+ " " +:+
                      PyFloat.repr b +:+ " = " +:+
                      PyFloat.repr (PyFloat.add a b)) ]}
         else if (op =? "-")%string then
           {[ "success" := VBool true;
              "result" := VFloat (PyFloat.sub a b);
              "operation" := VStr "subtraction";
              "operand1" := VFloat a;
              "operand2" := VFloat b;
              "expression" :=
                VStr (PyFloat.repr a +:+ " " +:+ op +:+ " " +:+
                      PyFloat.repr b +:+ " = " +:+
                      PyFloat.repr (PyFloat.sub a b)) ]}
         else if (op =? "*")%string then
           {[ "success" := VBool true;
              "result" := VFloat (PyFloat.mul a b);
              "operation" := VStr "multiplication";
              "operand1" := VFloat a;
              "operand2" := VFloat b;
              "expression" :=
                VStr (PyFloat.repr a +:+ " " +:+ op +:+ " " +:+
                      PyFloat.repr b +:+ " = " +:+
                      PyFloat.repr (PyFloat.mul a b)) ]}
         else if (op =? "/")%string then
           if PyFloat.eqb b PyFloat.zero
           then division_by_zero_reply (PFloat a) (PFloat b)
           else
             {[ "success" := VBool true;
                "result" := VFloat (PyFloat.div a b);
                "operation" := VStr "division";
                "operand1" := VFloat a;
                "operand2" := VFloat b;
                "expression" :=
                  VStr (PyFloat.repr a +:+ " " +:+ op +:+ " " +:+
                        PyFloat.repr b +:+ " = " +:+
                        PyFloat.repr (PyFloat.div a b)) ]}
         else
           {[ "success" := VBool false;
              "error" := VStr ("Unsupported operation: " +:+ op);
              "operation" := VStr op;
              "operand1" := VFloat a;
              "operand2" := VFloat b ]}).
Proof.
  unfold CalculatorTool.calculate, CalculatorTool.calculate_try, try_except.
  unfold mbind, res_bind, mret, res_ret, read_local.
  unfold Py.eq_str, Py.eq_zero, Py.add, Py.sub, Py.mul, Py.truediv.
  destruct (op =? "+")%string eqn:E1; [reflexivity |].
  destruct (op =? "-")%string eqn:E2; [reflexivity |].
  destruct (op =? "*")%string eqn:E3; [reflexivity |].
  destruct (op =? "/")%string eqn:E4; [| reflexivity].
  apply String.eqb_eq in E4. subst op.
  destruct (PyFloat.eqb b PyFloat.zero); reflexivity.
Qed.

(** X3.  On two floats [calculate] succeeds exactly for the signs [+],
    [-], [*] and for [/] with a divisor other than zero, and the result
    it reports is then the sum, difference, product or quotient of the
    operands. *)
Theorem calculate_succeeds_iff (op : string) (a b : PyFloat.float) :
  exists reply,
    CalculatorTool.calculate (PStr op) (PFloat a) (PFloat b) = Ret reply /\
    (reply !! "success" = Some (VBool true) \/
     reply !! "success" = Some (VBool false)) /\
    (reply !! "success" = Some (VBool true) <->
     op = "+" \/ op = "-" \/ op = "*" \/
     (op = "/" /\ PyFloat.eqb b PyFloat.zero = false)) /\
    (op = "+" -> reply !! "result" = Some (VFloat (PyFloat.add a b))) /\
    (op = "-" -> reply !! "result" = Some (VFloat (PyFloat.sub a b))) /\
    (op = "*" -> reply !! "result" = Some (VFloat (PyFloat.mul a b))) /\
    (op = "/" -> PyFloat.eqb b PyFloat.zero = false ->
     reply !! "result" = Some (VFloat (PyFloat.div a b))).
Proof.
  eexists. split; [apply calculate_floats |].
  destruct (op =? "+")%string eqn:E1.
  { apply String.eqb_eq in E1. subst op.
    repeat split; try (intros; discriminate); auto. }
  destruct (op =? "-")%string eqn:E2.
  { apply String.eqb_eq in E2. subst op.
    repeat split; try (intros; discriminate); auto. }
  destruct (op =? "*")%string eqn:E3.
  { apply String.eqb_eq in E3. subst op.
    repeat split; try (intros; discriminate); auto. }
  apply String.eqb_neq in E1, E2, E3.
  destruct (op =? "/")%string eqn:E4.
  { apply String.eqb_eq in E4. subst op.
    destruct (PyFloat.eqb b PyFloat.zero) eqn:Ez.
    - unfold division_by_zero_reply.
      repeat split; try (intros; discriminate); auto.
      intros [H | [H | [H | [_ H]]]]; discriminate.
    - repeat split; try (intros; discriminate); auto. }
  apply String.eqb_neq in E4.
  repeat split; try (intros; congruence); auto.
  - intros H. dict_lookup_in H. discriminate.
  - intros [H | [H | [H | [H _]]]]; congruence.
Qed.

Lemma calculate_succeeds_iff_witness :
  exists reply,
    CalculatorTool.calculate (PStr "/") (PFloat (PyFloat.of_Z 7))
                             (PFloat (PyFloat.of_Z 2)) = Ret reply /\
    reply !! "success" = Some (VBool true) /\
    reply !! "result" = Some (VFloat (PyFloat.div (PyFloat.of_Z 7) (PyFloat.of_Z 2))).
Proof.
  destruct (calculate_succeeds_iff "/" (PyFloat.of_Z 7) (PyFloat.of_Z 2))
    as [reply [E [_ [Hs [_ [_ [_ Hr]]]]]]].
  exists reply. split; [exact E |]. split.
  - apply Hs. right. right. right. split; reflexivity.
  - apply Hr; reflexivity.
Defined.

Lemma calculator_process_query_found (text : string) :
  exists r,
    CalculatorTool.process_query text = Ret r /\
    forall reply, r = Some reply ->
      exists op a b reply0,
        (op = "+" \/ op = "-" \/ op = "*" \/ op = "/") /\
        CalculatorTool.calculate (PStr op) (PFloat a) (PFloat b) = Ret reply0 /\
        reply = <[ "original_query" := VStr text ]> reply0.
Proof.
  destruct (detect_math_operation_detected text) as [r [E H]].
  unfold CalculatorTool.process_query. rewrite E.
  destruct r as [found |]; [| exists None; split; [reflexivity | discriminate]].
  destruct (H found eq_refl) as [op [a [b [-> Hop]]]].
  unfold getitem, mbind, res_bind, mret, res_ret.
  repeat (progress (dict_lookup; cbv beta iota)).
  destruct (calculate_returns (PStr op) (PFloat a) (PFloat b)) as [reply0 E0].
  rewrite E0. eexists. split; [reflexivity |]. intros reply [= <-].
  exists op, a, b, reply0. split; [| auto].
  destruct Hop as [-> | [[-> _] | [[-> _] | [-> _]]]]; auto.
Qed.

(** X4.  [process_query] of the calculator never raises.  When it finds
    a request, the reply carries the query as typed and is either a
    success with its expression or the reply to a division by zero; a
    request in words is never answered with an unsupported operation. *)
Theorem calculator_process_query_reply (text : string) :
  exists r,
    CalculatorTool.process_query text = Ret r /\
    forall reply, r = Some reply ->
      reply !! "original_query" = Some (VStr text) /\
      ((reply !! "success" = Some (VBool true) /\
        exists expression, reply !! "expression" = Some (VStr expression)) \/
       (exists a b,
          PyFloat.eqb b PyFloat.zero = true /\
          reply = <[ "original_query" := VStr text ]>
                    (division_by_zero_reply (PFloat a) (PFloat b)))).
Proof.
  destruct (calculator_process_query_found text) as [r [E H]].
  exists r. split; [exact E |]. intros reply Hr.
  destruct (H reply Hr) as [op [a [b [reply0 [Hop [E0 ->]]]]]].
  split; [apply lookup_insert_eq |].
  rewrite calculate_floats in E0. injection E0 as <-.
  destruct Hop as [-> | [-> | [-> | ->]]]; cbn [String.eqb Ascii.eqb Bool.eqb].
  - left. split; [dict_lookup; reflexivity | eexists; dict_lookup; reflexivity].
  - left. split; [dict_lookup; reflexivity | eexists; dict_lookup; reflexivity].
  - left. split; [dict_lookup; reflexivity | eexists; dict_lookup; reflexivity].
  - destruct (PyFloat.eqb b PyFloat.zero) eqn:Ez.
    + right. exists a, b. auto.
    + left. split; [dict_lookup; reflexivity | eexists; dict_lookup; reflexivity].
Qed.

Lemma calculator_process_query_reply_witness :
  let reply :=
    <[ "original_query" := VStr "10 divide 0" ]>
      (division_by_zero_reply (PFloat (PyFloat.of_Z 10))
                              (PFloat (PyFloat.of_Z 0))) in
  reply !! "original_query" = Some (VStr "10 divide 0") /\
  ((reply !! "success" = Some (VBool true) /\
    exists expression, reply !! "expression" = Some (VStr expression)) \/
   (exists a b,
      PyFloat.eqb b PyFloat.zero = true /\
      reply = <[ "original_query" := VStr "10 divide 0" ]>
                (division_by_zero_reply (PFloat a) (PFloat b)))).
Proof.
  destruct (calculator_process_query_reply "10 divide 0") as [r [E H]].
  apply H.
  assert (E' : CalculatorTool.process_query "10 divide 0" =
               Ret (Some (<[ "original_query" := VStr "10 divide 0" ]>
                            (division_by_zero_reply
                               (PFloat (PyFloat.of_Z 10))
                               (PFloat (PyFloat.of_Z 0))))))
    by (vm_compute; reflexivity).
  rewrite E' in E. injection E as <-. reflexivity.
Defined.

(** ** The replies of the translator *)

Lemma is_space_lower_char (c : ascii) :
  PyStr.is_space (PyStr.lower_char c) = PyStr.is_space c.
Proof. destruct c as [[] [] [] [] [] [] [] []]; reflexivity. Qed.

Lemma lower_blank (s : string) :
  PyStr.all_chars PyStr.is_space (PyStr.lower s) =
  PyStr.all_chars PyStr.is_space s.
Proof.
  induction s as [| c s IH]; [reflexivity |].
  simpl. rewrite is_space_lower_char, IH. reflexivity.
Qed.

Lemma lstrip_blank (s : string) :
  PyStr.all_chars PyStr.is_space (PyStr.lstrip s) =
  PyStr.all_chars PyStr.is_space s.
Proof.
  induction s as [| c s IH]; [reflexivity |].
  simpl. destruct (PyStr.is_space c) eqn:E; simpl; [exact IH |].
  rewrite E. reflexivity.
Qed.

Lemma rstrip_blank (s : string) :
  PyStr.all_chars PyStr.is_space (PyStr.rstrip s) =
  PyStr.all_chars PyStr.is_space s.
Proof.
  induction s as [| c s IH]; [reflexivity |].
  simpl. destruct (PyStr.rstrip s) as [| d t] eqn:E.
  - rewrite <- IH. destruct (PyStr.is_space c) eqn:Ec; simpl;
      [| rewrite Ec]; reflexivity.
  - simpl in *. rewrite IH. reflexivity.
Qed.

Lemma strip_blank (s : string) :
  PyStr.all_chars PyStr.is_space (PyStr.strip s) =
  PyStr.all_chars PyStr.is_space s.
Proof. unfold PyStr.strip. rewrite rstrip_blank. apply lstrip_blank. Qed.

Lemma lstrip_of_blank (s : string) :
  PyStr.all_chars PyStr.is_space s = true -> PyStr.lstrip s = "".
Proof.
  induction s as [| c s IH]; [reflexivity |].
  simpl. intros H. apply andb_true_iff in H as [Hc Hs].
  rewrite Hc. auto.
Qed.

Lemma strip_of_blank (s : string) :
  PyStr.all_chars PyStr.is_space s = true -> PyStr.strip s = "".
Proof.
  intros H. unfold PyStr.strip. rewrite (lstrip_of_blank _ H). reflexivity.
Qed.

Lemma split_aux_nil (s : string) : forall cur,
  PyStr.split_aux cur s = [] <->
  cur = [] /\ PyStr.all_chars PyStr.is_space s = true.
Proof.
  induction s as [| c s IH]; intros cur; simpl.
  - destruct cur; split; try tauto; try discriminate.
    intros [H _]. discriminate.
  - destruct (PyStr.is_space c) eqn:E; simpl.
    + destruct cur as [| d cur].
      * simpl. rewrite IH. tauto.
      * simpl. split; [discriminate | intros [H _]; discriminate].
    + rewrite IH. split; [intros [H _]; discriminate | intros [_ H]; discriminate].
Qed.

Lemma split_nil (s : string) :
  PyStr.split s = [] <-> PyStr.all_chars PyStr.is_space s = true.
Proof. unfold PyStr.split. rewrite split_aux_nil. tauto. Qed.

Lemma no_words_iff_blank (phrase : string) :
  PyStr.split (PyStr.strip (PyStr.lower phrase)) = [] <->
  PyStr.all_chars PyStr.is_space phrase = true.
Proof. rewrite split_nil, strip_blank, lower_blank. tauto. Qed.

Lemma translate_phrase (phrase : string) :
  TranslatorTool.translate (PStr phrase) =
    Ret (let english_lower := PyStr.strip (PyStr.lower phrase) in
         match TranslatorTool.translation_dict !! english_lower with
         | Some german_translation =>
             {[ "success" := VBool true;
                "english_text" := VStr phrase;
                "german_translation" := VStr german_translation;
                "confidence" := VStr "high" ]}
         | None =>
             match map TranslatorTool.translate_word
                       (PyStr.split english_lower) with
             | _ :: _ =>
                 {[ "success" := VBool true;
                    "english_text" := VStr phrase;
                    "german_translation" :=
                      VStr (PyStr.join " "
                              (map TranslatorTool.translate_word
                                   (PyStr.split english_lower)));
                    "confidence" := VStr "partial";
                    "note" := VStr "Some words may not be accurately translated" ]}
             | [] =>
                 {[ "success" := VBool false;
                    "english_text" := VStr phrase;
                    "error" := VStr "Translation not available for this text";
                    "suggestion" := VStr "Try a simpler phrase or common words" ]}
             end
         end).
Proof.
  unfold TranslatorTool.translate, TranslatorTool.translate_try, try_except.
  unfold Py.lower, mbind, res_bind, mret, res_ret, val.
  cbv zeta.
  destruct (TranslatorTool.translation_dict !! _); [reflexivity |].
  destruct (map _ _); reflexivity.
Qed.

Lemma translate_blank_or_german (phrase : string) :
  exists reply,
    TranslatorTool.translate (PStr phrase) = Ret reply /\
    reply !! "english_text" = Some (VStr phrase) /\
    (PyStr.all_chars PyStr.is_space phrase = true ->
     reply !! "success" = Some (VBool false) /\
     reply !! "error" =
       Some (VStr "Translation not available for this text")) /\
    (PyStr.all_chars PyStr.is_space phrase = false ->
     reply !! "success" = Some (VBool true) /\
     exists german, reply !! "german_translation" = Some (VStr german)).
Proof.
  eexists. split; [apply translate_phrase |]. cbv zeta.
  destruct (PyStr.all_chars PyStr.is_space phrase) eqn:B.
  - rewrite (strip_of_blank (PyStr.lower phrase))
      by (rewrite lower_blank; exact B).
    replace (TranslatorTool.translation_dict !! "") with (@None string)
      by (vm_compute; reflexivity).
    change (PyStr.split "") with (@nil string). cbn [map].
    split; [dict_lookup; reflexivity |].
    split; [| discriminate]. intros _.
    split; dict_lookup; reflexivity.
  - destruct (TranslatorTool.translation_dict !! _) as [german |].
    + split; [dict_lookup; reflexivity |].
      split; [discriminate |]. intros _.
      split; [dict_lookup; reflexivity |].
      exists german. dict_lookup. reflexivity.
    + destruct (PyStr.split _) as [| w ws] eqn:W.
      * apply no_words_iff_blank in W. congruence.
      * cbn [map].
        split; [dict_lookup; reflexivity |].
        split; [discriminate |]. intros _.
        split; [dict_lookup; reflexivity |].
        eexists. dict_lookup. reflexivity.
Qed.

(** X5.  On a phrase written in ASCII, the translator fails exactly
    when the phrase is blank (empty or made of white space only); every
    other phrase gets a German text, and the failure carries the message
    of the missing translation. *)
Theorem translate_fails_iff_blank (phrase : string) :
  ascii_text phrase ->
  exists reply,
    TranslatorTool.translate (PStr phrase) = Ret reply /\
    reply !! "english_text" = Some (VStr phrase) /\
    (PyStr.all_chars PyStr.is_space phrase = true ->
     reply !! "success" = Some (VBool false) /\
     reply !! "error" =
       Some (VStr "Translation not available for this text")) /\
    (PyStr.all_chars PyStr.is_space phrase = false ->
     reply !! "success" = Some (VBool true) /\
     exists german, reply !! "german_translation" = Some (VStr german)).
Proof. intros _. apply translate_blank_or_german. Qed.

Lemma translate_fails_iff_blank_witness :
  (exists reply,
     TranslatorTool.translate (PStr "  ") = Ret reply /\
     reply !! "success" = Some (VBool false) /\
     reply !! "error" = Some (VStr "Translation not available for this text")) /\
  (exists reply,
     TranslatorTool.translate (PStr "xyz") = Ret reply /\
     reply !! "success" = Some (VBool true) /\
     exists german, reply !! "german_translation" = Some (VStr german)).
Proof.
  assert (A1 : ascii_text "  ") by reflexivity.
  assert (A2 : ascii_text "xyz") by reflexivity.
  split.
  - destruct (translate_fails_iff_blank "  " A1) as [reply [E [_ [H _]]]].
    exists reply. split; [exact E |]. apply H. reflexivity.
  - destruct (translate_fails_iff_blank "xyz" A2) as [reply [E [_ [_ H]]]].
    exists reply. split; [exact E |]. apply H. reflexivity.
Defined.

Lemma lower_lower (s : string) : PyStr.lower (PyStr.lower s) = PyStr.lower s.
Proof. apply lower_fixed, lower_clean. Qed.

(** X6.  On a phrase written in ASCII, the translator does not look at
    the case of the letters: the phrase and its lower-cased form get
    replies that differ in the field [english_text] only. *)
Theorem translate_ignores_case (phrase : string) :
  ascii_text phrase ->
  exists reply reply',
    TranslatorTool.translate (PStr phrase) = Ret reply /\
    TranslatorTool.translate (PStr (PyStr.lower phrase)) = Ret reply' /\
    reply !! "english_text" = Some (VStr phrase) /\
    reply' !! "english_text" = Some (VStr (PyStr.lower phrase)) /\
    forall key, key <> "english_text" -> reply !! key = reply' !! key.
Proof.
  intros _.
  do 2 eexists. split; [apply translate_phrase |].
  split; [apply translate_phrase |].
  cbv zeta. rewrite lower_lower.
  destruct (TranslatorTool.translation_dict !! _) as [german |].
  all: try destruct (map _ _).
  all: split; [dict_lookup; reflexivity |].
  all: split; [dict_lookup; reflexivity |].
  all: intros key Hk; rewrite !lookup_insert, ?lookup_singleton.
  all: repeat (destruct (decide _); [try reflexivity; congruence |]).
  all: reflexivity.
Qed.

Lemma translate_ignores_case_witness :
  exists reply reply',
    TranslatorTool.translate (PStr "Good Morning") = Ret reply /\
    TranslatorTool.translate (PStr "good morning") = Ret reply' /\
    reply !! "german_translation" = reply' !! "german_translation".
Proof.
  assert (A : ascii_text "Good Morning") by reflexivity.
  destruct (translate_ignores_case "Good Morning" A)
    as [reply [reply' [E [E' [_ [_ H]]]]]].
  exists reply, reply'. split; [exact E |]. split; [exact E' |].
  apply H. discriminate.
Defined.

(** ** The phrase of a translation request *)

Lemma occurs_cons (p : string) (a : ascii) (s : string) :
  occurs p s -> occurs p (String a s).
Proof. apply (occurs_later p (String a "") s). Qed.

Lemma quoted_phrase (pattern : Re.regex) (t : string) (m : Re.match_obj) :
  In pattern TranslatorTool.patterns ->
  Re.search pattern t = Some m ->
  clean Re.not_quote (Re.group m 1) /\ Re.group m 1 <> "" /\
  occurs (Re.group m 1) t.
Proof.
  intros Hin H. apply search_sound in H as [pre [u [-> H]]].
  unfold Re.group. destruct m as [c r]. simpl in *.
  cbv [TranslatorTool.patterns Re.cat fold_right Re.quoted Re.ws1 Re.ws0] in *.
  repeat (destruct Hin as [<- | Hin]); [.. | contradiction].
  all: invert_matches.
  all: rewrite lookup_insert_eq; cbn [default].
  all: match goal with
       | |- context [Re.consumed (?w +:+ String ?a ?s) (String ?a ?s)] =>
           rewrite (consumed_app w (String a s))
       end.
  all: repeat match goal with
              | H : Re.drop_prefix _ _ = Some _ |- _ =>
                  apply drop_prefix_app in H;
                  first [subst | rewrite H in *; clear H]
              end.
  all: unfold id; split; [assumption |]; split;
    [ intros ->;
      match goal with H : 1 <= String.length "" |- _ => simpl in H; lia end
    | repeat first [apply occurs_here | apply occurs_cons | apply occurs_later] ].
Qed.

Lemma occurs_trans (p q s : string) : occurs p q -> occurs q s -> occurs p s.
Proof.
  intros [a [b ->]] [a' [b' ->]].
  exists (a' +:+ a), (b +:+ b').
  rewrite !append_assoc. reflexivity.
Qed.

Lemma lstrip_suffix (s : string) : exists a, s = a +:+ PyStr.lstrip s.
Proof.
  induction s as [| c s [a IH]]; [exists ""; reflexivity |].
  simpl. destruct (PyStr.is_space c).
  - exists (String c a). rewrite append_cons. f_equal. exact IH.
  - exists "". reflexivity.
Qed.

Lemma rstrip_prefix (s : string) : exists b, s = PyStr.rstrip s +:+ b.
Proof.
  induction s as [| c s [b IH]]; [exists ""; reflexivity |].
  simpl. destruct (PyStr.rstrip s) as [| d t] eqn:E.
  - rewrite append_nil in IH. subst b.
    destruct (PyStr.is_space c).
    + exists (String c s). reflexivity.
    + exists s. reflexivity.
  - exists b. rewrite append_cons. f_equal. exact IH.
Qed.

Lemma occurs_strip (s : string) : occurs (PyStr.strip s) s.
Proof.
  unfold PyStr.strip.
  destruct (lstrip_suffix s) as [a Ha].
  destruct (rstrip_prefix (PyStr.lstrip s)) as [b Hb].
  exists a, b. rewrite <- Hb. exact Ha.
Qed.

Lemma first_match_in (ps : list Re.regex) (t : string) (m : Re.match_obj) :
  TranslatorTool.first_match ps t = Some m ->
  exists pattern, In pattern ps /\ Re.search pattern t = Some m.
Proof.
  induction ps as [| p ps IH]; [discriminate |]. simpl.
  destruct (Re.search p t) as [m' |] eqn:E.
  - intros [= <-]. exists p. auto.
  - intros H. destruct (IH H) as [q [Hq Hs]]. exists q. auto.
Qed.

Lemma detected_request (text : string) (request : dict string) :
  TranslatorTool.detect_translation_request text = Some request ->
  exists phrase,
    request = {[ "english_text" := phrase;
                 "target_language" := "german";
                 "original_text" := text ]} /\
    clean Re.not_quote phrase /\
    occurs phrase (PyStr.lower text).
Proof.
  unfold TranslatorTool.detect_translation_request.
  destruct (TranslatorTool.first_match _ _) as [m |] eqn:E; [| discriminate].
  intros [= <-]. eexists. split; [reflexivity |].
  apply first_match_in in E as [pattern [Hin Hs]].
  destruct (quoted_phrase pattern _ m Hin Hs) as [Hq [_ Ho]].
  split.
  - apply strip_clean. exact Hq.
  - eapply occurs_trans; [apply occurs_strip | exact Ho].
Qed.

Lemma lower_char_ascii (c : ascii) :
  is_ascii c = true -> is_ascii (PyStr.lower_char c) = true.
Proof. destruct c as [[] [] [] [] [] [] [] []]; vm_compute; auto. Qed.

Lemma lower_ascii (s : string) : ascii_text s -> ascii_text (PyStr.lower s).
Proof.
  unfold ascii_text, clean. induction s as [| c s IH]; [reflexivity |].
  simpl. intros H. apply andb_true_iff in H as [Hc Hs].
  rewrite (lower_char_ascii c Hc). auto.
Qed.

Lemma detected_request_ascii (text : string) (request : dict string) :
  ascii_text text ->
  TranslatorTool.detect_translation_request text = Some request ->
  exists phrase,
    request = {[ "english_text" := phrase;
                 "target_language" := "german";
                 "original_text" := text ]} /\
    ascii_text phrase /\
    clean not_upper phrase /\
    clean Re.not_quote phrase /\
    occurs phrase (PyStr.lower text).
Proof.
  intros Ha. apply lower_ascii in Ha.
  unfold TranslatorTool.detect_translation_request.
  destruct (TranslatorTool.first_match _ _) as [m |] eqn:E; [| discriminate].
  intros [= <-]. eexists. split; [reflexivity |].
  split.
  { apply strip_clean, group_clean.
    eapply first_match_clean; [exact Ha | exact E]. }
  split.
  { apply strip_clean, group_clean.
    eapply first_match_clean; [apply lower_clean | exact E]. }
  apply first_match_in in E as [pattern [Hin Hs]].
  destruct (quoted_phrase pattern _ m Hin Hs) as [Hq [_ Ho]].
  split.
  - apply strip_clean. exact Hq.
  - eapply occurs_trans; [apply occurs_strip | exact Ho].
Qed.

(** X7.  On a text written in ASCII, the request that
    [detect_translation_request] returns holds the three fields of the
    source, with German as the target and the text as typed; its phrase
    is written in ASCII, holds no upper-case letter and no quote of
    either kind, and is read in the lower-cased text. *)
Theorem translation_request_phrase (text : string) (request : dict string) :
  ascii_text text ->
  TranslatorTool.detect_translation_request text = Some request ->
  exists phrase,
    request = {[ "english_text" := phrase;
                 "target_language" := "german";
                 "original_text" := text ]} /\
    ascii_text phrase /\
    clean not_upper phrase /\
    clean Re.not_quote phrase /\
    occurs phrase (PyStr.lower text).
Proof. apply detected_request_ascii. Qed.

Lemma translation_request_phrase_witness :
  exists phrase,
    ({[ "english_text" := "good morning"; "target_language" := "german";
        "original_text" := "Translate 'Good Morning' into German" ]}
       : dict string) =
      {[ "english_text" := phrase;
         "target_language" := "german";
         "original_text" := "Translate 'Good Morning' into German" ]} /\
    ascii_text phrase /\
    clean not_upper phrase /\
    clean Re.not_quote phrase /\
    occurs phrase (PyStr.lower "Translate 'Good Morning' into German").
Proof.
  assert (A : ascii_text "Translate 'Good Morning' into German")
    by reflexivity.
  apply (translation_request_phrase "Translate 'Good Morning' into German"
           _ A).
  vm_compute. reflexivity.
Defined.

Lemma translate_reply_shape (english_text : scalar) :
  exists reply,
    TranslatorTool.translate english_text = Ret reply /\
    reply !! "english_text" = Some (val english_text) /\
    ((reply !! "success" = Some (VBool true) /\
      exists german, reply !! "german_translation" = Some (VStr german)) \/
     (reply !! "success" = Some (VBool false) /\
      exists msg, reply !! "error" = Some (VStr msg))).
Proof.
  destruct english_text as [phrase | x].
  - destruct (translate_blank_or_german phrase) as [reply [E [Ht [Hb Hn]]]].
    exists reply. split; [exact E |]. split; [exact Ht |].
    destruct (PyStr.all_chars PyStr.is_space phrase).
    + right. destruct (Hb eq_refl) as [Hs He]. split; [exact Hs |].
      eexists. exact He.
    + left. apply Hn. reflexivity.
  - eexists. split; [reflexivity |].
    split; [dict_lookup; reflexivity |].
    right. split; [dict_lookup; reflexivity |].
    eexists. dict_lookup. reflexivity.
Qed.

Lemma format_translation (reply : dict pyval) (english german : pyval) :
  reply !! "success" = Some (VBool true) ->
  reply !! "english_text" = Some english ->
  reply !! "german_translation" = Some german ->
  TranslatorTool.format_result reply =
    Ret ("🌍 Translation Result: '" +:+ Py.format_val english +:+
         "' → '" +:+ Py.format_val german +:+ "'" +:+
         match reply !! "confidence" with
         | Some confidence =>
             " (Confidence: " +:+ Py.format_val confidence +:+ ")"
         | None => ""
         end +:+
         match reply !! "note" with
         | Some text => PyStr.nl +:+ "Note: " +:+ Py.format_val text
         | None => ""
         end).
Proof.
  intros Hs He Hg. unfold TranslatorTool.format_result, getitem.
  rewrite Hs. cbn [Py.truthy].
  destruct (reply !! "confidence"); destruct (reply !! "note");
    unfold mbind, res_bind, mret, res_ret; rewrite He, Hg; reflexivity.
Qed.

Lemma format_no_translation (reply : dict pyval) (msg : string) :
  reply !! "success" = Some (VBool false) ->
  reply !! "error" = Some (VStr msg) ->
  TranslatorTool.format_result reply =
    Ret ("❌ Translation Error: " +:+ msg).
Proof.
  intros Hs He. unfold TranslatorTool.format_result, getitem.
  rewrite Hs. simpl. rewrite He. reflexivity.
Qed.

Lemma format_val_val (p : scalar) : Py.format_val (val p) = Py.format p.
Proof. destruct p; reflexivity. Qed.

(** X8.  Whatever it is given, [translate] returns a reply that
    [format_result] can show: for a success, the text as given and its
    German text behind the result mark; otherwise the error message
    behind the error mark. *)
Theorem translator_reply_is_shown (english_text : scalar) :
  exists reply shown,
    TranslatorTool.translate english_text = Ret reply /\
    TranslatorTool.format_result reply = Ret shown /\
    ((reply !! "success" = Some (VBool true) /\
      exists german tail,
        reply !! "german_translation" = Some (VStr german) /\
        shown = "🌍 Translation Result: '" +:+ Py.format english_text +:+
                "' → '" +:+ german +:+ "'" +:+ tail) \/
     (reply !! "success" = Some (VBool false) /\
      exists msg,
        reply !! "error" = Some (VStr msg) /\
        shown = "❌ Translation Error: " +:+ msg)).
Proof.
  destruct (translate_reply_shape english_text)
    as [reply [E [Ht [[Hs [german Hg]] | [Hs [msg Hm]]]]]].
  - exists reply. eexists. split; [exact E |].
    split; [apply (format_translation _ _ _ Hs Ht Hg) |].
    left. split; [exact Hs |]. exists german. eexists.
    split; [exact Hg |]. rewrite format_val_val. reflexivity.
  - exists reply. eexists. split; [exact E |].
    split; [apply (format_no_translation _ _ Hs Hm) |].
    right. split; [exact Hs |]. exists msg. auto.
Qed.

(** X9.  [process_query] of the translator never raises and answers
    exactly when a request is detected.  The reply then carries the
    query as typed next to the phrase read in the lower-cased query, and
    [format_result] can show it. *)
Theorem translator_process_query_reply (text : string) :
  exists r,
    TranslatorTool.process_query text = Ret r /\
    (r = None <-> TranslatorTool.detect_translation_request text = None) /\
    forall reply, r = Some reply ->
      reply !! "original_query" = Some (VStr text) /\
      (exists phrase,
         reply !! "english_text" = Some (VStr phrase) /\
         occurs phrase (PyStr.lower text)) /\
      exists shown, TranslatorTool.format_result reply = Ret shown.
Proof.
  unfold TranslatorTool.process_query.
  destruct (TranslatorTool.detect_translation_request text)
    as [request |] eqn:D.
  2: { exists None. split; [reflexivity |]. split; [tauto | discriminate]. }
  destruct (detected_request text request D) as [phrase [-> [_ Ho]]].
  unfold getitem. rewrite lookup_insert_eq.
  destruct (translate_reply_shape (PStr phrase)) as [reply [E [Ht Hc]]].
  unfold mbind, res_bind, mret, res_ret. rewrite E.
  eexists. split; [reflexivity |].
  split; [split; discriminate |].
  intros ? [= <-].
  split; [apply lookup_insert_eq |].
  split.
  { exists phrase. rewrite lookup_insert_ne by discriminate. auto. }
  destruct Hc as [[Hs [german Hg]] | [Hs [msg Hm]]].
  - eexists. apply (format_translation _ (VStr phrase) (VStr german));
      rewrite lookup_insert_ne by discriminate; assumption.
  - eexists. apply (format_no_translation _ msg);
      rewrite lookup_insert_ne by discriminate; assumption.
Qed.

Lemma translator_process_query_reply_witness :
  let reply : dict pyval :=
    {[ "success" := VBool true;
       "english_text" := VStr "good morning";
       "german_translation" := VStr "Guten Morgen";
       "confidence" := VStr "high";
       "original_query" := VStr "Translate 'Good Morning' into German" ]} in
  reply !! "original_query" =
    Some (VStr "Translate 'Good Morning' into German") /\
  (exists phrase,
     reply !! "english_text" = Some (VStr phrase) /\
     occurs phrase (PyStr.lower "Translate 'Good Morning' into German")) /\
  exists shown, TranslatorTool.format_result reply = Ret shown.
Proof.
  destruct (translator_process_query_reply
              "Translate 'Good Morning' into German") as [r [E [_ H]]].
  apply H.
  assert (E' : TranslatorTool.process_query
                 "Translate 'Good Morning' into German" =
               Ret (Some ({[ "success" := VBool true;
                             "english_text" := VStr "good morning";
                             "german_translation" := VStr "Guten Morgen";
                             "confidence" := VStr "high";
                             "original_query" :=
                               VStr "Translate 'Good Morning' into German" ]}
                          : dict pyval)))
    by (vm_compute; reflexivity).
  rewrite E' in E. injection E as <-. reflexivity.
Defined.

(** ** The operands of an extracted operation *)

Lemma nonempty_length (w : string) : 1 <= String.length w -> w <> "".
Proof. intros H ->. simpl in H. lia. Qed.

Lemma finditer_sound (r : Re.regex) (s : string) (m : Re.match_obj) :
  In m (Re.finditer r s) ->
  exists pre t, s = pre +:+ t /\ matches r t ∅ (Re.rest m) (Re.groups m).
Proof.
  intros H. pose proof (finditer_from_sound r s 0) as F.
  rewrite Forall_forall in F. apply F, H.
Qed.

Lemma math_pattern_groups (pattern : Re.regex) (t : string)
    (m : Re.match_obj) :
  In pattern (add_patterns ++ multiply_patterns)%list ->
  In m (Re.finditer pattern t) ->
  (clean PyStr.is_digit (Re.group m 1) /\ Re.group m 1 <> "") /\
  (clean PyStr.is_digit (Re.group m 2) /\ Re.group m 2 <> "").
Proof.
  intros Hin H. apply finditer_sound in H as [pre [u [-> H]]].
  unfold Re.group. destruct m as [c r]. simpl in *.
  cbv [add_patterns multiply_patterns app Re.cat fold_right Re.digits
       Re.ws1 Re.ws0] in *.
  repeat (destruct Hin as [<- | Hin]); [.. | contradiction].
  all: invert_matches.
  all: rewrite lookup_insert_eq;
       rewrite lookup_insert_ne by discriminate;
       rewrite lookup_insert_eq; cbn [default from_option id].
  all: rewrite !consumed_app.
  all: unfold clean; auto using nonempty_length.
Qed.

(** X10.  On a text written in ASCII, every operation that
    [extract_math_operations] returns is an addition or a multiplication
    whose operands were written with digits only, so that they are whole
    numbers without a sign; its expression shows the two numerals as
    written around the sign. *)
Theorem extracted_operands_are_digits (text : string) :
  ascii_text text ->
  Forall (fun op =>
            exists sign shown d1 d2,
              ((sign = "+" /\ shown = "+") \/ (sign = "*" /\ shown = "×")) /\
              (clean PyStr.is_digit d1 /\ d1 <> "") /\
              (clean PyStr.is_digit d2 /\ d2 <> "") /\
              op = {[ "operation" := PStr sign;
                      "operand1" := PFloat (PyFloat.of_digits d1);
                      "operand2" := PFloat (PyFloat.of_digits d2);
                      "expression" :=
                        PStr (d1 +:+ " " +:+ shown +:+ " " +:+ d2) ]})
         (extract_math_operations text).
Proof.
  intros _. unfold extract_math_operations.
  apply Forall_app_2; apply Forall_forall; intros op H;
    apply in_flat_map in H as [pattern [Hp H]];
    apply in_map_iff in H as [m [<- Hm]].
  - destruct (math_pattern_groups pattern _ m
                (in_or_app _ _ _ (or_introl Hp)) Hm) as [H1 H2].
    exists "+", "+", (Re.group m 1), (Re.group m 2). auto.
  - destruct (math_pattern_groups pattern _ m
                (in_or_app _ _ _ (or_intror Hp)) Hm) as [H1 H2].
    exists "*", "×", (Re.group m 1), (Re.group m 2). auto.
Qed.

Lemma extracted_operands_are_digits_witness :
  Forall (fun op =>
            exists sign shown d1 d2,
              ((sign = "+" /\ shown = "+") \/ (sign = "*" /\ shown = "×")) /\
              (clean PyStr.is_digit d1 /\ d1 <> "") /\
              (clean PyStr.is_digit d2 /\ d2 <> "") /\
              op = {[ "operation" := PStr sign;
                      "operand1" := PFloat (PyFloat.of_digits d1);
                      "operand2" := PFloat (PyFloat.of_digits d2);
                      "expression" :=
                        PStr (d1 +:+ " " +:+ shown +:+ " " +:+ d2) ]})
         (extract_math_operations "Add 2 and 3, then 4 times 5").
Proof.
  assert (A : ascii_text "Add 2 and 3, then 4 times 5") by reflexivity.
  exact (extracted_operands_are_digits _ A).
Defined.

Lemma is_word_dot (a : ascii) : PyStr.is_word a = true -> Re.dot a = true.
Proof. destruct a as [[] [] [] [] [] [] [] []]; vm_compute; auto. Qed.

Lemma clean_weaken (P Q : ascii -> bool) (s : string) :
  (forall a, P a = true -> Q a = true) -> clean P s -> clean Q s.
Proof.
  intros HPQ. unfold clean. induction s as [| a s IH]; [reflexivity |].
  simpl. intros H. apply andb_true_iff in H as [Ha Hs].
  rewrite (HPQ a Ha). auto.
Qed.

Lemma knowledge_pattern_group (pattern : Re.regex) (t : string)
    (m : Re.match_obj) :
  In pattern knowledge_patterns ->
  In m (Re.finditer pattern t) ->
  clean Re.dot (Re.group m 1) /\ occurs (Re.group m 1) t.
Proof.
  intros Hin H. apply finditer_sound in H as [pre [u [-> H]]].
  unfold Re.group. destruct m as [c r]. simpl in *.
  cbv [knowledge_patterns fragment delimiter Re.opt Re.cat fold_right
       Re.ws1 Re.ws0] in *.
  repeat (destruct Hin as [<- | Hin]); [.. | contradiction].
  all: invert_matches.
  all: rewrite lookup_insert_eq; cbn [default from_option id].
  all: rewrite ?consumed_app.
  all: repeat match goal with
              | H : Re.drop_prefix _ _ = Some _ |- _ =>
                  apply drop_prefix_app in H;
                  first [subst | rewrite H in *; clear H]
              end.
  all: split; [first [assumption | eapply clean_weaken; [apply is_word_dot | eassumption]]
              | repeat first [apply occurs_here | apply occurs_cons | apply occurs_later]].
Qed.

Lemma knowledge_questions_part (text : string) :
  Forall (fun question =>
            3 < String.length question /\
            clean Re.dot question /\
            occurs question (PyStr.lower text))
         (extract_knowledge_questions text).
Proof.
  unfold extract_knowledge_questions, questions_of.
  apply Forall_forall. intros question H.
  apply in_flat_map in H as [pattern [Hp H]].
  apply filter_In in H as [H Hlen].
  apply in_map_iff in H as [m [<- Hm]].
  destruct (knowledge_pattern_group pattern _ m Hp Hm) as [Hd Ho].
  split; [apply Nat.ltb_lt, Hlen |]. split.
  - apply strip_clean, Hd.
  - eapply occurs_trans; [apply occurs_strip | exact Ho].
Qed.

Lemma knowledge_questions_ascii (text : string) :
  ascii_text text ->
  Forall (fun question => ascii_text question /\ clean not_upper question)
         (extract_knowledge_questions text).
Proof.
  intros Ha. apply lower_ascii in Ha.
  unfold extract_knowledge_questions.
  apply Forall_forall. intros q Hq.
  apply in_flat_map in Hq as [pattern [_ Hq]].
  pose proof (questions_of_clean not_upper pattern _ (lower_clean text)) as Hu.
  pose proof (questions_of_clean is_ascii pattern _ Ha) as Hi.
  rewrite Forall_forall in Hu, Hi.
  split; [apply Hi, Hq | apply Hu, Hq].
Qed.

(** X11.  On a text written in ASCII, every question that
    [extract_knowledge_questions] returns is written in ASCII and is
    longer than three characters, stays on one line and is read in the
    lower-cased text. *)
Theorem knowledge_questions_shape (text : string) :
  ascii_text text ->
  Forall (fun question =>
            ascii_text question /\
            3 < String.length question /\
            clean Re.dot question /\
            occurs question (PyStr.lower text))
         (extract_knowledge_questions text).
Proof.
  intros Ha.
  pose proof (knowledge_questions_part text) as H1.
  pose proof (knowledge_questions_ascii text Ha) as H2.
  rewrite Forall_forall in H1, H2 |- *. intros q Hq.
  destruct (H1 q Hq) as [Hl [Hd Ho]]. destruct (H2 q Hq) as [Hi _]. auto.
Qed.

Lemma knowledge_questions_shape_witness :
  Forall (fun question =>
            ascii_text question /\
            3 < String.length question /\
            clean Re.dot question /\
            occurs question (PyStr.lower "Tell me about Paris"))
         (extract_knowledge_questions "Tell me about Paris").
Proof.
  assert (A : ascii_text "Tell me about Paris") by reflexivity.
  exact (knowledge_questions_shape _ A).
Defined.

(** C6, as the code has it.  On a query written in ASCII, the
    translation pass and the knowledge pass both match and capture on
    the lower-cased text: the captured phrase and the captured fragments
    are parts of that text, are written in ASCII and hold no upper-case
    letter, whatever the casing typed by the user.  The query as typed
    is kept in the field [original_text] of the translation request. *)
Theorem captured_parameters_lowercase (user_query : string) :
  ascii_text user_query ->
  (forall request,
     TranslatorTool.detect_translation_request user_query = Some request ->
     exists phrase,
       request !! "english_text" = Some phrase /\
       ascii_text phrase /\
       clean not_upper phrase /\
       PyStr.lower phrase = phrase /\
       occurs phrase (PyStr.lower user_query) /\
       request !! "original_text" = Some user_query) /\
  Forall (fun question =>
            ascii_text question /\
            clean not_upper question /\
            PyStr.lower question = question /\
            occurs question (PyStr.lower user_query))
         (extract_knowledge_questions user_query).
Proof.
  intros Ha. split.
  - intros request H.
    destruct (detected_request_ascii user_query request Ha H)
      as [phrase [-> [Hi [Hu [_ Ho]]]]].
    exists phrase. split; [apply lookup_insert_eq |].
    split; [exact Hi |]. split; [exact Hu |].
    split; [apply lower_fixed, Hu |]. split; [exact Ho |].
    rewrite lookup_insert_ne by discriminate.
    rewrite lookup_insert_ne by discriminate.
    apply lookup_singleton_eq.
  - pose proof (knowledge_questions_part user_query) as H1.
    pose proof (knowledge_questions_ascii user_query Ha) as H2.
    rewrite Forall_forall in H1, H2 |- *. intros q Hq.
    destruct (H1 q Hq) as [_ [_ Ho]]. destruct (H2 q Hq) as [Hi Hu].
    split; [exact Hi |]. split; [exact Hu |].
    split; [apply lower_fixed, Hu | exact Ho].
Qed.

(** The request found in "Translate 'Good Morning' into German" and the
    question found in "Tell me about Paris". *)
Lemma captured_parameters_lowercase_witness :
  (exists phrase,
     ({[ "english_text" := "good morning"; "target_language" := "german";
         "original_text" := "Translate 'Good Morning' into German" ]}
        : dict string) !! "english_text" = Some phrase /\
     ascii_text phrase /\
     clean not_upper phrase /\
     PyStr.lower phrase = phrase /\
     occurs phrase (PyStr.lower "Translate 'Good Morning' into German") /\
     ({[ "english_text" := "good morning"; "target_language" := "german";
         "original_text" := "Translate 'Good Morning' into German" ]}
        : dict string) !! "original_text" =
       Some "Translate 'Good Morning' into German") /\
  Forall (fun question =>
            ascii_text question /\
            clean not_upper question /\
            PyStr.lower question = question /\
            occurs question (PyStr.lower "Tell me about Paris"))
         (extract_knowledge_questions "Tell me about Paris").
Proof.
  assert (A1 : ascii_text "Translate 'Good Morning' into German")
    by reflexivity.
  assert (A2 : ascii_text "Tell me about Paris") by reflexivity.
  split.
  - apply (proj1 (captured_parameters_lowercase _ A1)).
    vm_compute. reflexivity.
  - exact (proj2 (captured_parameters_lowercase _ A2)).
Defined.

(** ** Every query *)

Lemma process_query_outcome (self : FullAgent) (user_query : string) :
  outcome (process_query self user_query) =
    synthesize_results (map (executed self) (analyze_query user_query))
                       user_query.
Proof.
  unfold process_query.
  pose proof (execute_query_trace self user_query) as H.
  destruct (execute_query self user_query) as [out r].
  simpl in H. subst r. reflexivity.
Qed.

Lemma translator_step_completed (self : FullAgent) (step : TaskStep)
    (english_text : scalar) :
  is_tool step "translator" = true ->
  parameters step !! "english_text" = Some english_text ->
  exists reply,
    TranslatorTool.translate english_text = Ret reply /\
    executed self step = complete step reply.
Proof.
  intros Ht Hp.
  destruct (try_except_returns (TranslatorTool.translate_try english_text)
              (fun e => {[ "success" := VBool false;
                           "english_text" := val english_text;
                           "error" := VStr (str_exn e) ]})) as [reply E].
  change (TranslatorTool.translate english_text = Ret reply) in E.
  exists reply. split; [exact E |].
  unfold executed, execute_step, execute_step_try, try_except.
  rewrite (is_tool_other _ _ "calculator" Ht eq_refl), Ht.
  unfold getitem. rewrite Hp. unfold mbind, res_bind. rewrite E. reflexivity.
Qed.

Lemma llm_step_outcome (self : FullAgent) (step : TaskStep)
    (question : scalar) :
  is_tool step "llm" = true ->
  parameters step !! "question" = Some question ->
  executed self step =
    match answer_of self question with
    | Ret answer => complete step {[ "response" := VStr answer ]}
    | Raise e => fail step (str_exn e)
    end.
Proof.
  intros Ht Hp.
  unfold executed, execute_step, execute_step_try, try_except.
  rewrite (is_tool_other _ _ "calculator" Ht eq_refl),
          (is_tool_other _ _ "translator" Ht eq_refl), Ht.
  unfold getitem. rewrite Hp. unfold mbind, res_bind.
  fold (answer_of self question).
  destruct (answer_of self question); reflexivity.
Qed.

Lemma answer_of_string (self : FullAgent) (question : string) :
  exists answer, answer_of self (PStr question) = Ret answer.
Proof.
  unfold answer_of, call_openai, call_gemini.
  destruct (llm_type self =? "openai")%string;
    [apply (try_except_returns _ (fun e => _ +:+ str_exn e)) |].
  destruct (llm_type self =? "gemini")%string;
    [apply (try_except_returns _ (fun e => _ +:+ str_exn e)) |].
  unfold fallback_response, Py.lower, mbind, res_bind, mret, res_ret.
  destruct (_ && _)%bool; [eexists; reflexivity |].
  destruct (_ && _)%bool; eexists; reflexivity.
Qed.

Lemma extract_math_operations_shape (text : string) :
  Forall (fun op => extracted (math_step op)) (extract_math_operations text).
Proof.
  unfold extract_math_operations.
  apply Forall_app_2; apply Forall_forall; intros op H;
    apply in_flat_map in H as [pattern [_ H]];
    apply in_map_iff in H as [m [<- _]]; unfold math_op;
    apply extracted_math; auto.
Qed.

Lemma analyze_query_extracted (user_query : string) :
  Forall extracted (analyze_query user_query).
Proof.
  assert (H : Forall extracted (detected_steps user_query)).
  { unfold detected_steps. repeat apply Forall_app_2.
    - destruct (TranslatorTool.detect_translation_request user_query);
        repeat constructor.
    - apply Forall_forall. intros s Hs.
      apply in_map_iff in Hs as [op [<- Hop]].
      pose proof (extract_math_operations_shape user_query) as F.
      rewrite Forall_forall in F. auto.
    - apply Forall_forall. intros s Hs.
      apply in_map_iff in Hs as [q [<- _]]. constructor. }
  unfold analyze_query.
  destruct (detected_steps user_query); [repeat constructor | exact H].
Qed.

Lemma parts_calculated (i : nat) (step : TaskStep) (reply : dict pyval)
    (expression : pyval) :
  is_tool step "calculator" = true ->
  reply !! "success" = Some (VBool true) ->
  reply !! "expression" = Some expression ->
  step_parts i (complete step reply) =
    Ret [heading i step; "   Result: " +:+ Py.format_val expression].
Proof.
  intros Ht Hs He. unfold step_parts, tool_succeeded, is_tool in *. simpl.
  apply is_tool_eq in Ht as E. rewrite E. simpl.
  rewrite Hs. simpl. unfold getitem. rewrite He. reflexivity.
Qed.

Lemma single_calculated (step : TaskStep) (reply : dict pyval)
    (expression answer : pyval) :
  is_tool step "calculator" = true ->
  reply !! "success" = Some (VBool true) ->
  reply !! "expression" = Some expression ->
  reply !! "result" = Some answer ->
  exists text, synthesize_single (complete step reply) = Ret text.
Proof.
  intros Ht Hs He Hr. unfold synthesize_single, tool_succeeded, is_tool in *.
  simpl. apply is_tool_eq in Ht as E. rewrite E. simpl.
  rewrite Hs. simpl. unfold getitem. rewrite He, Hr. eexists. reflexivity.
Qed.

Lemma single_translated (step : TaskStep) (reply : dict pyval)
    (english german : pyval) :
  is_tool step "translator" = true ->
  reply !! "success" = Some (VBool true) ->
  reply !! "english_text" = Some english ->
  reply !! "german_translation" = Some german ->
  exists text, synthesize_single (complete step reply) = Ret text.
Proof.
  intros Ht Hs He Hg. unfold synthesize_single, tool_succeeded, is_tool in *.
  simpl. apply is_tool_eq in Ht as E. rewrite E. simpl.
  rewrite Hs. simpl. unfold getitem. rewrite He, Hg. eexists. reflexivity.
Qed.

Lemma parts_untranslated (i : nat) (step : TaskStep) (reply : dict pyval) :
  is_tool step "translator" = true ->
  reply !! "success" = Some (VBool false) ->
  step_parts i (complete step reply) = Ret [heading i step].
Proof.
  intros Ht Hs. unfold step_parts, tool_succeeded, is_tool in *. simpl.
  apply is_tool_eq in Ht as E. rewrite E. simpl.
  rewrite Hs. reflexivity.
Qed.

Lemma single_untranslated (step : TaskStep) (reply : dict pyval) :
  is_tool step "translator" = true ->
  reply !! "success" = Some (VBool false) ->
  synthesize_single (complete step reply) =
    Ret ("Error in processing: " +:+ error_or step "Unknown error").
Proof.
  intros Ht Hs. unfold synthesize_single, tool_succeeded, is_tool in *. simpl.
  apply is_tool_eq in Ht as E. rewrite E. simpl.
  rewrite Hs. reflexivity.
Qed.

Lemma parts_answered (i : nat) (step : TaskStep) (answer : string) :
  is_tool step "llm" = true ->
  step_parts i (complete step {[ "response" := VStr answer ]}) =
    Ret [heading i step; "   Result: " +:+ answer].
Proof.
  intros Ht. unfold step_parts, tool_succeeded, is_tool in *. simpl.
  apply is_tool_eq in Ht as E. rewrite E. reflexivity.
Qed.

Lemma single_answered (step : TaskStep) (answer : string) :
  is_tool step "llm" = true ->
  synthesize_single (complete step {[ "response" := VStr answer ]}) =
    Ret answer.
Proof.
  intros Ht. unfold synthesize_single, tool_succeeded, is_tool in *. simpl.
  apply is_tool_eq in Ht as E. rewrite E. reflexivity.
Qed.

Lemma rendered_translation (self : FullAgent) (phrase : string) :
  rendered (executed self (translation_step phrase)).
Proof.
  destruct (translator_step_completed self (translation_step phrase)
              (PStr phrase) eq_refl (lookup_singleton_eq _ _))
    as [reply [E ->]].
  destruct (translate_blank_or_german phrase) as [reply' [E' [Ht [Hb Hn]]]].
  rewrite E in E'. injection E' as <-.
  split; [reflexivity |]. split; [reflexivity |].
  split; [exists reply; reflexivity |].
  destruct (PyStr.all_chars PyStr.is_space phrase).
  - destruct (Hb eq_refl) as [Hs _]. split.
    + intros i. eexists. apply parts_untranslated; [reflexivity | exact Hs].
    + eexists. apply single_untranslated; [reflexivity | exact Hs].
  - destruct (Hn eq_refl) as [Hs [german Hg]]. split.
    + intros i. eexists.
      apply (step_parts_translated i _ reply german); auto.
    + apply (single_translated _ reply (VStr phrase) (VStr german)); auto.
Qed.

Lemma rendered_math (self : FullAgent) (op : string) (a b : PyFloat.float)
    (expression : string) :
  op = "+" \/ op = "*" ->
  rendered (executed self
              (math_step {[ "operation" := PStr op;
                            "operand1" := PFloat a;
                            "operand2" := PFloat b;
                            "expression" := PStr expression ]})).
Proof.
  intros Hop.
  set (step := math_step _).
  assert (Ht : is_tool step "calculator" = true) by reflexivity.
  assert (H1 : parameters step !! "operation" = Some (PStr op))
    by (unfold step, math_step; simpl; dict_lookup; reflexivity).
  assert (H2 : parameters step !! "operand1" = Some (PFloat a))
    by (unfold step, math_step; simpl; dict_lookup; reflexivity).
  assert (H3 : parameters step !! "operand2" = Some (PFloat b))
    by (unfold step, math_step; simpl; dict_lookup; reflexivity).
  destruct (calculator_step_completed self step _ _ _ Ht H1 H2 H3)
    as [reply [E ->]].
  rewrite calculate_floats in E. injection E as <-.
  split; [reflexivity |]. split; [reflexivity |].
  split; [eexists; reflexivity |].
  destruct Hop as [-> | ->]; cbn [String.eqb Ascii.eqb Bool.eqb]; split.
  - intros i. eexists. eapply (parts_calculated i step _ _ Ht);
      dict_lookup; reflexivity.
  - eapply (single_calculated step _ _ _ Ht); dict_lookup; reflexivity.
  - intros i. eexists. eapply (parts_calculated i step _ _ Ht);
      dict_lookup; reflexivity.
  - eapply (single_calculated step _ _ _ Ht); dict_lookup; reflexivity.
Qed.

Lemma rendered_question (self : FullAgent) (step : TaskStep)
    (question : string) :
  is_tool step "llm" = true ->
  error step = None ->
  parameters step !! "question" = Some (PStr question) ->
  rendered (executed self step).
Proof.
  intros Ht He Hp. rewrite (llm_step_outcome self step _ Ht Hp).
  destruct (answer_of_string self question) as [answer ->].
  split; [reflexivity |]. split; [exact He |].
  split; [eexists; reflexivity |]. split.
  - intros i. eexists. apply parts_answered. exact Ht.
  - eexists. apply single_answered. exact Ht.
Qed.

Lemma rendered_extracted (self : FullAgent) (step : TaskStep) :
  extracted step -> rendered (executed self step).
Proof.
  intros [phrase | op a b expression Hop | question | user_query].
  - apply rendered_translation.
  - apply rendered_math. exact Hop.
  - apply (rendered_question self _ question); reflexivity.
  - apply (rendered_question self _ user_query); reflexivity.
Qed.

Lemma all_parts_rendered (steps : list TaskStep) :
  Forall rendered steps ->
  forall i, exists parts, all_parts i steps = Ret parts.
Proof.
  induction 1 as [| step steps [_ [_ [_ [Hp _]]]] _ IH]; intros i.
  - exists []. reflexivity.
  - destruct (Hp i) as [here Eh]. destruct (IH (S i)) as [there Et].
    exists (here ++ there)%list. simpl. rewrite Eh, Et. reflexivity.
Qed.

Lemma completed_count_rendered (steps : list TaskStep) :
  Forall rendered steps -> completed_count steps = length steps.
Proof.
  unfold completed_count.
  induction 1 as [| step steps [Hc _] _ IH]; [reflexivity |].
  simpl. rewrite Hc. simpl. rewrite IH. reflexivity.
Qed.

Lemma trace_rendered (self : FullAgent) (user_query : string) :
  Forall rendered (map (executed self) (analyze_query user_query)).
Proof.
  apply Forall_map.
  eapply Forall_impl; [| apply analyze_query_extracted].
  intros step. apply rendered_extracted.
Qed.

Lemma detected_steps_ordered (user_query : string) :
  exists translations calculations questions,
    detected_steps user_query =
      (translations ++ calculations ++ questions)%list /\
    length translations <= 1 /\
    Forall (fun step => tool_type step = Some "translator") translations /\
    Forall (fun step => tool_type step = Some "calculator") calculations /\
    Forall (fun step => tool_type step = Some "llm") questions.
Proof.
  unfold detected_steps. do 3 eexists. split; [reflexivity |].
  split; [destruct (TranslatorTool.detect_translation_request _); simpl; lia |].
  split; [destruct (TranslatorTool.detect_translation_request _);
          repeat constructor |].
  split; apply Forall_forall; intros step H;
    apply in_map_iff in H as [x [<- _]]; reflexivity.
Qed.

(** X12.  Every sub-task that [analyze_query] builds is a translation of
    a phrase, an addition or a multiplication of two floats, or a
    question put to the language model, and none has been executed; a
    subtraction or a division is never extracted.  The sub-tasks come
    by kind, not in the order of the query: at most one translation,
    then the calculations, then the questions. *)
Theorem analyze_query_shapes (user_query : string) :
  Forall (fun step => extracted step /\ untouched step)
         (analyze_query user_query) /\
  exists translations calculations questions,
    analyze_query user_query =
      (translations ++ calculations ++ questions)%list /\
    length translations <= 1 /\
    Forall (fun step => tool_type step = Some "translator") translations /\
    Forall (fun step => tool_type step = Some "calculator") calculations /\
    Forall (fun step => tool_type step = Some "llm") questions.
Proof.
  split.
  - apply Forall_forall. intros step H.
    pose proof (analyze_query_extracted user_query) as F1.
    pose proof (analyze_query_untouched user_query) as F2.
    rewrite Forall_forall in F1, F2. auto.
  - unfold analyze_query.
    destruct (detected_steps_ordered user_query)
      as [ts [cs [qs [E [Hl [Ht [Hc Hq]]]]]]].
    destruct (detected_steps user_query) as [| step steps].
    + exists [], [], [fallback_step user_query].
      repeat split; simpl; try lia; repeat constructor.
    + exists ts, cs, qs. auto.
Qed.

(** X13.  Whatever the query and the backend, every step of the trace
    that [process_query] executes ends completed, with a result and
    without an error, and the loop prints the completed mark for it:
    the failure branch of the loop is never taken for a step that
    [analyze_query] built. *)
Theorem every_extracted_step_completes (self : FullAgent)
    (user_query : string) :
  length (trace_of (execute_query self user_query)) =
    length (analyze_query user_query) /\
  Forall (fun step =>
            completed step = true /\ error step = None /\
            (exists reply, result step = Some reply) /\
            status_line step = "      ✅ Completed")
         (trace_of (execute_query self user_query)).
Proof.
  unfold trace_of. rewrite execute_query_trace. split.
  - apply length_map.
  - eapply Forall_impl; [| apply trace_rendered].
    intros step [Hc [He [Hr _]]]. unfold status_line. rewrite Hc. auto.
Qed.

(** X14.  [process_query] returns a text for every query and every
    backend, also one whose service calls raise: neither the execution
    loop nor the synthesis raises.  A turn of the main loop therefore
    never ends in the handler that reports an error on account of
    [process_query]. *)
Theorem process_query_never_raises (self : FullAgent) :
  (forall user_query,
     exists text, outcome (process_query self user_query) = Ret text) /\
  (forall line out e, run_turn self line <> Crashed out e).
Proof.
  assert (H : forall user_query,
            exists text, outcome (process_query self user_query) = Ret text).
  { intros user_query. rewrite process_query_outcome.
    pose proof (trace_rendered self user_query) as F.
    unfold synthesize_results.
    destruct (all_parts_rendered _ F 1) as [parts Ep].
    destruct (map (executed self) (analyze_query user_query))
      as [| step [| step' rest]].
    - eexists. reflexivity.
    - inversion F as [| ? ? [_ [_ [_ [_ Hs]]]] _]. exact Hs.
    - rewrite Ep. eexists. reflexivity. }
  split; [exact H |].
  intros line out e. unfold run_turn.
  destruct (_ || _)%bool; [discriminate |].
  destruct (PyStr.strip line =? "")%string; [discriminate |].
  destruct (H (PyStr.strip line)) as [text E].
  destruct (process_query self (PyStr.strip line)) as [out' r].
  simpl in E. subst r. discriminate.
Qed.

(** X15.  For a query with two sub-tasks or more, whatever the backend,
    the answer is the multi-step text and its summary counts every
    sub-task as completed. *)
Theorem summary_counts_every_task (self : FullAgent) (user_query : string) :
  2 <= length (analyze_query user_query) ->
  exists parts,
    outcome (process_query self user_query) =
      Ret (lines ("Step-by-step multi-task response:" :: parts ++
                  [summary_line (length (analyze_query user_query))
                                (length (analyze_query user_query))])%list).
Proof.
  intros Hn. rewrite process_query_outcome.
  pose proof (trace_rendered self user_query) as F.
  destruct (all_parts_rendered _ F 1) as [parts Ep].
  exists parts. unfold synthesize_results.
  pose proof (completed_count_rendered _ F) as Hc.
  rewrite <- (length_map (executed self)) in Hn |- *.
  destruct (map (executed self) (analyze_query user_query))
    as [| step [| step' rest]] eqn:Em; simpl in Hn; try lia.
  rewrite Ep. unfold summary. rewrite Hc. reflexivity.
Qed.

Lemma summary_counts_every_task_witness :
  exists parts,
    outcome (process_query fallback_agent query_translate_multiply) =
      Ret (lines ("Step-by-step multi-task response:" :: parts ++
                  [summary_line 2 2])%list).
Proof.
  apply (summary_counts_every_task fallback_agent query_translate_multiply).
  vm_compute. lia.
Defined.

(** X16.  When the query has a single sub-task and that is a question,
    the text that [process_query] returns is the answer of the language
    model as it came back (or the error text of the failed call, or the
    canned text of the fallback mode), with nothing added. *)
Theorem single_question_answered (self : FullAgent) (user_query : string)
    (step : TaskStep) (question : string) :
  analyze_query user_query = [step] ->
  is_tool step "llm" = true ->
  parameters step !! "question" = Some (PStr question) ->
  outcome (process_query self user_query) = answer_of self (PStr question).
Proof.
  intros Ea Ht Hp. rewrite process_query_outcome, Ea. cbn [map].
  rewrite (llm_step_outcome self step _ Ht Hp).
  destruct (answer_of_string self question) as [answer ->].
  unfold synthesize_results. apply single_answered. exact Ht.
Qed.

Lemma single_question_answered_witness :
  outcome (process_query openai_agent "hello") =
    answer_of openai_agent (PStr "hello").
Proof.
  apply (single_question_answered openai_agent "hello" (fallback_step "hello"));
    reflexivity.
Defined.

(** ** What a query prints *)

Lemma announce_spec (steps : list TaskStep) :
  forall i, announce i steps = (announced i steps, Ret tt).
Proof.
  induction steps as [| step steps IH]; intros i; [reflexivity |].
  simpl. rewrite IH. reflexivity.
Qed.

Lemma execution_log_completed (self : FullAgent) (steps : list TaskStep) :
  Forall (fun step => rendered (executed self step)) steps ->
  forall i, execution_log self i steps = completed_log i steps.
Proof.
  induction 1 as [| step steps [Hc _] _ IH]; intros i; [reflexivity |].
  simpl. unfold status_line. rewrite Hc, IH. reflexivity.
Qed.

(** X17.  What [process_query] prints, whatever the query and the
    backend: the line of the analysis, the number of sub-tasks, one line
    for each sub-task, the line that opens the execution, two lines for
    each sub-task of which the second is always the completed mark, and
    the line of the synthesis.  No failure is ever printed. *)
Theorem process_query_prints (self : FullAgent) (user_query : string) :
  stdout (process_query self user_query) =
    ([ PyStr.nl +:+ "🔍 Analyzing query: " +:+ user_query;
       "📋 Identified " +:+ PyStr.of_nat (length (analyze_query user_query)) +:+
         " task(s):" ] ++
     announced 1 (analyze_query user_query) ++
     [ PyStr.nl +:+ "⚙️  Executing tasks..." ] ++
     completed_log 1 (analyze_query user_query) ++
     [ PyStr.nl +:+ "📝 Synthesizing results..." ])%list.
Proof.
  unfold process_query, execute_query.
  rewrite announce_spec, execute_all_spec.
  rewrite execution_log_completed.
  2: { eapply Forall_impl; [| apply analyze_query_extracted].
       intros step. apply rendered_extracted. }
  unfold mbind, io_bind, print, lift, stdout. cbn [fst snd app].
  rewrite <- !app_assoc. reflexivity.
Qed.

(** ** A query with a single sub-task *)

Lemma single_step_outcome (self : FullAgent) (user_query : string)
    (step : TaskStep) :
  analyze_query user_query = [step] ->
  extracted step /\
  outcome (process_query self user_query) =
    synthesize_single (executed self step).
Proof.
  intros E. split.
  - pose proof (analyze_query_extracted user_query) as F.
    rewrite E in F. inversion F. assumption.
  - rewrite process_query_outcome, E. reflexivity.
Qed.

Lemma is_tool_complete (step : TaskStep) (reply : dict pyval)
    (name : string) :
  is_tool (complete step reply) name = is_tool step name.
Proof. reflexivity. Qed.

(** X18.  When the query has a single sub-task and that is a
    calculation, the answer shows the sum or the product of the two
    operands, all three written as floats, in the four-line text of the
    calculator. *)
Theorem single_calculation_answered (self : FullAgent) (user_query : string)
    (step : TaskStep) :
  analyze_query user_query = [step] ->
  tool_type step = Some "calculator" ->
  exists sign a b r,
    parameters step !! "operation" = Some (PStr sign) /\
    parameters step !! "operand1" = Some (PFloat a) /\
    parameters step !! "operand2" = Some (PFloat b) /\
    ((sign = "+" /\ r = PyFloat.add a b) \/
     (sign = "*" /\ r = PyFloat.mul a b)) /\
    outcome (process_query self user_query) =
      Ret (lines
             [ "Step-by-step response:";
               "";
               "1. **Question Analysis**: You asked for a mathematical calculation";
               "2. **Tool Usage**: I used the calculator tool";
               "3. **Calculation**: " +:+ PyFloat.repr a +:+ " " +:+ sign +:+
                 " " +:+ PyFloat.repr b +:+ " = " +:+ PyFloat.repr r;
               "4. **Result**: The answer is " +:+ PyFloat.repr r ]).
Proof.
  intros E Ht.
  destruct (single_step_outcome self user_query step E) as [Hx ->].
  destruct Hx as [phrase | op a b expression Hop | question | q];
    try discriminate.
  set (step := math_step _).
  assert (Hc : is_tool step "calculator" = true) by reflexivity.
  assert (H1 : parameters step !! "operation" = Some (PStr op))
    by (unfold step, math_step; simpl; dict_lookup; reflexivity).
  assert (H2 : parameters step !! "operand1" = Some (PFloat a))
    by (unfold step, math_step; simpl; dict_lookup; reflexivity).
  assert (H3 : parameters step !! "operand2" = Some (PFloat b))
    by (unfold step, math_step; simpl; dict_lookup; reflexivity).
  destruct (calculator_step_completed self step _ _ _ Hc H1 H2 H3)
    as [reply [Er ->]].
  rewrite calculate_floats in Er. injection Er as <-.
  exists op, a, b, (if (op =? "+")%string then PyFloat.add a b
                    else PyFloat.mul a b).
  split; [exact H1 |]. split; [exact H2 |]. split; [exact H3 |].
  destruct Hop as [-> | ->]; cbn [String.eqb Ascii.eqb Bool.eqb].
  - split; [auto |].
    unfold synthesize_single, tool_succeeded.
    match goal with
    | |- context [is_tool ?s "calculator"] =>
        change (is_tool s "calculator") with true
    end.
    unfold get_method, item, getitem, result, complete,
      mbind, res_bind, mret, res_ret.
    repeat (progress (dict_lookup; cbv beta iota; cbn [Py.truthy])).
    reflexivity.
  - split; [auto |].
    unfold synthesize_single, tool_succeeded.
    match goal with
    | |- context [is_tool ?s "calculator"] =>
        change (is_tool s "calculator") with true
    end.
    unfold get_method, item, getitem, result, complete,
      mbind, res_bind, mret, res_ret.
    repeat (progress (dict_lookup; cbv beta iota; cbn [Py.truthy])).
    reflexivity.
Qed.

Lemma single_calculation_answered_witness :
  exists sign a b r,
    parameters add_step !! "operation" = Some (PStr sign) /\
    parameters add_step !! "operand1" = Some (PFloat a) /\
    parameters add_step !! "operand2" = Some (PFloat b) /\
    ((sign = "+" /\ r = PyFloat.add a b) \/
     (sign = "*" /\ r = PyFloat.mul a b)) /\
    outcome (process_query fallback_agent "Add 2 and 3") =
      Ret (lines
             [ "Step-by-step response:";
               "";
               "1. **Question Analysis**: You asked for a mathematical calculation";
               "2. **Tool Usage**: I used the calculator tool";
               "3. **Calculation**: " +:+ PyFloat.repr a +:+ " " +:+ sign +:+
                 " " +:+ PyFloat.repr b +:+ " = " +:+ PyFloat.repr r;
               "4. **Result**: The answer is " +:+ PyFloat.repr r ]).
Proof.
  apply (single_calculation_answered fallback_agent "Add 2 and 3" add_step);
    vm_compute; reflexivity.
Defined.

(** X19.  When the query has a single sub-task and that is a
    translation, the answer is the four-line text of the translator with
    the phrase and its German text; for a blank phrase it is the text of
    an unknown error. *)
Theorem single_translation_answered (self : FullAgent) (user_query : string)
    (step : TaskStep) :
  analyze_query user_query = [step] ->
  tool_type step = Some "translator" ->
  exists phrase,
    parameters step !! "english_text" = Some (PStr phrase) /\
    (PyStr.all_chars PyStr.is_space phrase = true ->
     outcome (process_query self user_query) =
       Ret "Error in processing: Unknown error") /\
    (PyStr.all_chars PyStr.is_space phrase = false ->
     exists german,
       reply_field "german_translation" (executed self step) =
         Some (VStr german) /\
       outcome (process_query self user_query) =
         Ret (lines
                [ "Step-by-step response:";
                  "";
                  "1. **Question Analysis**: You asked for a translation";
                  "2. **Tool Usage**: I used the translator tool";
                  "3. **Translation**: '" +:+ phrase +:+ "' → '" +:+ german +:+
                    "'";
                  "4. **Result**: The German translation is '" +:+ german +:+
                    "'" ])).
Proof.
  intros E Ht.
  destruct (single_step_outcome self user_query step E) as [Hx ->].
  destruct Hx as [phrase | op a b expression Hop | question | q];
    try discriminate.
  exists phrase. split; [apply lookup_singleton_eq |].
  destruct (translator_step_completed self (translation_step phrase)
              (PStr phrase) eq_refl (lookup_singleton_eq _ _))
    as [reply [Er ->]].
  destruct (translate_blank_or_german phrase) as [reply' [E' [He [Hb Hn]]]].
  rewrite Er in E'. injection E' as <-.
  split.
  - intros B. destruct (Hb B) as [Hs _].
    apply (single_untranslated (translation_step phrase) reply eq_refl Hs).
  - intros B. destruct (Hn B) as [Hs [german Hg]].
    exists german. split; [exact Hg |].
    unfold synthesize_single, tool_succeeded.
    rewrite !is_tool_complete.
    change (is_tool (translation_step phrase) "calculator") with false.
    change (is_tool (translation_step phrase) "translator") with true.
    unfold get_method, item, getitem, result, complete,
      mbind, res_bind, mret, res_ret.
    rewrite Hs. cbn [Py.truthy]. rewrite He, Hg. reflexivity.
Qed.

Lemma single_translation_answered_witness :
  exists phrase,
    parameters good_morning_step !! "english_text" = Some (PStr phrase) /\
    (PyStr.all_chars PyStr.is_space phrase = true ->
     outcome (process_query fallback_agent
                "Translate 'Good Morning' into German") =
       Ret "Error in processing: Unknown error") /\
    (PyStr.all_chars PyStr.is_space phrase = false ->
     exists german,
       reply_field "german_translation"
         (executed fallback_agent good_morning_step) = Some (VStr german) /\
       outcome (process_query fallback_agent
                  "Translate 'Good Morning' into German") =
         Ret (lines
                [ "Step-by-step response:";
                  "";
                  "1. **Question Analysis**: You asked for a translation";
                  "2. **Tool Usage**: I used the translator tool";
                  "3. **Translation**: '" +:+ phrase +:+ "' → '" +:+ german +:+
                    "'";
                  "4. **Result**: The German translation is '" +:+ german +:+
                    "'" ])).
Proof.
  apply (single_translation_answered fallback_agent
           "Translate 'Good Morning' into German" good_morning_step);
    vm_compute; reflexivity.
Defined.

(** ** The calculator and the translator sub-tasks of a query *)









(** ** When a step fails *)

Lemma execute_step_cases (self : FullAgent) (step : TaskStep) :
  (exists reply, execute_step self step = Ret (complete step reply, reply)) \/
  (exists msg,
     execute_step self step =
       Ret (fail step msg, {[ "error" := VStr msg ]})).
Proof.
  unfold execute_step, execute_step_try, try_except.
  destruct (is_tool step "calculator").
  { destruct (getitem (parameters step) "operation"); simpl; eauto.
    destruct (getitem (parameters step) "operand1"); simpl; eauto.
    destruct (getitem (parameters step) "operand2"); simpl; eauto.
    destruct (CalculatorTool.calculate a a0 a1); simpl; eauto. }
  destruct (is_tool step "translator").
  { destruct (getitem (parameters step) "english_text"); simpl; eauto.
    destruct (TranslatorTool.translate a); simpl; eauto. }
  destruct (is_tool step "llm").
  { destruct (getitem (parameters step) "question"); simpl; eauto.
    destruct (if (llm_type self =? "openai")%string then _ else _); simpl; eauto. }
  simpl; eauto.
Qed.

Lemma is_tool_iff (step : TaskStep) (name : string) :
  is_tool step name = true <-> tool_type step = Some name.
Proof.
  split; [apply is_tool_eq |]. intros H. unfold is_tool. rewrite H.
  apply String.eqb_refl.
Qed.

Lemma is_tool_false (step : TaskStep) (name : string) :
  is_tool step name = false <-> tool_type step <> Some name.
Proof.
  rewrite <- is_tool_iff. destruct (is_tool step name); split; congruence.
Qed.

Lemma translator_step_fails_iff (self : FullAgent) (step : TaskStep) :
  is_tool step "translator" = true ->
  completed (executed self step) = false <->
  parameters step !! "english_text" = None.
Proof.
  intros Ht. destruct (parameters step !! "english_text") as [p |] eqn:Hp.
  - destruct (translator_step_completed self step p Ht Hp) as [reply [_ ->]].
    split; discriminate.
  - unfold executed, execute_step, execute_step_try, try_except.
    rewrite (is_tool_other _ _ "calculator" Ht eq_refl), Ht.
    unfold getitem. rewrite Hp. simpl. tauto.
Qed.

Lemma answer_of_float (self : FullAgent) (x : PyFloat.float) :
  (exists answer, answer_of self (PFloat x) = Ret answer) <->
  llm_type self = "openai" \/ llm_type self = "gemini".
Proof.
  unfold answer_of, call_openai, call_gemini.
  destruct (llm_type self =? "openai")%string eqn:E1.
  { apply String.eqb_eq in E1. split; [auto |]. intros _.
    apply (try_except_returns _ (fun e => _ +:+ str_exn e)). }
  destruct (llm_type self =? "gemini")%string eqn:E2.
  { apply String.eqb_eq in E2. split; [auto |]. intros _.
    apply (try_except_returns _ (fun e => _ +:+ str_exn e)). }
  apply String.eqb_neq in E1, E2. simpl. split.
  - intros [answer H]. discriminate.
  - intros [H | H]; congruence.
Qed.

Lemma llm_step_fails_iff (self : FullAgent) (step : TaskStep) :
  is_tool step "llm" = true ->
  completed (executed self step) = false <->
  parameters step !! "question" = None \/
  exists x, parameters step !! "question" = Some (PFloat x) /\
            llm_type self <> "openai" /\ llm_type self <> "gemini".
Proof.
  intros Ht. destruct (parameters step !! "question") as [[q | x] |] eqn:Hp.
  - rewrite (llm_step_outcome self step _ Ht Hp).
    destruct (answer_of_string self q) as [answer ->]. simpl.
    split; [discriminate |]. intros [H | [x [H _]]]; discriminate.
  - rewrite (llm_step_outcome self step _ Ht Hp).
    pose proof (answer_of_float self x) as Hx.
    destruct (answer_of self (PFloat x)) as [answer | e]; simpl.
    + split; [discriminate |]. intros [H | [y [_ [H1 H2]]]]; [discriminate |].
      destruct (proj1 Hx (ex_intro _ answer eq_refl)); contradiction.
    + split; [| reflexivity]. intros _. right. exists x.
      split; [reflexivity |].
      split; intros H; destruct (proj2 Hx) as [a Ha]; auto; discriminate.
  - unfold executed, execute_step, execute_step_try, try_except.
    rewrite (is_tool_other _ _ "calculator" Ht eq_refl),
            (is_tool_other _ _ "translator" Ht eq_refl), Ht.
    unfold getitem. rewrite Hp. simpl. split; auto.
Qed.

(** X20.  [execute_step] never raises.  It returns the reply that it
    stores in the step as completed, or the error dictionary of the
    message that it stores in the step as failed, and touches nothing
    else of the step.  It leaves the step failed in four cases only: a
    calculator step that lacks its operator or an operand, a translator
    step that lacks its phrase, a question step that lacks its question
    or holds a question that is not a string while no language model is
    set up, and a step of an unknown tool. *)
Theorem execute_step_fails_iff (self : FullAgent) (step : TaskStep) :
  ((exists reply,
      execute_step self step = Ret (complete step reply, reply)) \/
   (exists msg,
      execute_step self step =
        Ret (fail step msg, {[ "error" := VStr msg ]}))) /\
  (completed (executed self step) = false <->
   (tool_type step = Some "calculator" /\
    (parameters step !! "operation" = None \/
     parameters step !! "operand1" = None \/
     parameters step !! "operand2" = None)) \/
   (tool_type step = Some "translator" /\
    parameters step !! "english_text" = None) \/
   (tool_type step = Some "llm" /\
    (parameters step !! "question" = None \/
     exists x, parameters step !! "question" = Some (PFloat x) /\
               llm_type self <> "openai" /\ llm_type self <> "gemini")) \/
   (tool_type step <> Some "calculator" /\
    tool_type step <> Some "translator" /\
    tool_type step <> Some "llm")).
Proof.
  split; [apply execute_step_cases |].
  destruct (is_tool step "calculator") eqn:Ec.
  { rewrite (calculator_step_fails_iff self step Ec).
    apply is_tool_iff in Ec. rewrite Ec. split.
    - intros H. left. auto.
    - intros [[_ H] | [[H _] | [[H _] | [H _]]]];
        try discriminate; try contradiction; auto. }
  destruct (is_tool step "translator") eqn:Et.
  { rewrite (translator_step_fails_iff self step Et).
    apply is_tool_iff in Et. rewrite Et. split.
    - intros H. right. left. auto.
    - intros [[H _] | [[_ H] | [[H _] | [_ [H _]]]]];
        try discriminate; try contradiction; auto. }
  destruct (is_tool step "llm") eqn:El.
  { rewrite (llm_step_fails_iff self step El).
    apply is_tool_iff in El. rewrite El. split.
    - intros H. right. right. left. auto.
    - intros [[H _] | [[H _] | [[_ H] | [_ [_ H]]]]];
        try discriminate; try contradiction; auto. }
  assert (E : executed self step = fail step "Unknown tool type").
  { unfold executed, execute_step, execute_step_try, try_except.
    rewrite Ec, Et, El. reflexivity. }
  rewrite E. simpl.
  apply is_tool_false in Ec, Et, El.
  split; [| reflexivity]. intros _. right. right. right. auto.
Qed.

Lemma execute_step_fails_iff_witness :
  completed (executed fallback_agent broken_step) = false.
Proof.
  apply (proj2 (execute_step_fails_iff fallback_agent broken_step)).
  left. split; [reflexivity |]. right. right. reflexivity.
Defined.

(** ** The chatbot of level 2 *)

Lemma detect_mixed_query_returns (text : string) :
  exists mixed, ChatbotWithTool.detect_mixed_query text = Ret mixed.
Proof.
  unfold ChatbotWithTool.detect_mixed_query.
  destruct (detect_math_operation_detected text) as [r [-> _]].
  eexists. reflexivity.
Qed.

Lemma nonempty_insert (k : string) (v : pyval) (d : dict pyval) :
  ChatbotWithTool.nonempty (Some (<[ k := v ]> d)) = true.
Proof.
  unfold ChatbotWithTool.nonempty.
  destruct (size (<[ k := v ]> d)) eqn:E; [| reflexivity].
  apply map_size_empty_iff in E.
  exfalso. exact (insert_non_empty d k v E).
Qed.

Lemma fallback_response_found (user_question text op : string)
    (a b : PyFloat.float) (reply0 : dict pyval) :
  op = "+" \/ op = "-" \/ op = "*" \/ op = "/" ->
  CalculatorTool.calculate (PStr op) (PFloat a) (PFloat b) = Ret reply0 ->
  let reply := <[ "original_query" := VStr text ]> reply0 in
  (reply !! "success" = Some (VBool false) /\
   ChatbotWithTool.fallback_response user_question (Some reply) =
     Ret (ChatbotWithTool.knowledge_text user_question)) \/
  (reply !! "success" = Some (VBool true) /\
   exists expression operation operand1 operand2 result,
     reply !! "expression" = Some expression /\
     reply !! "operation" = Some operation /\
     reply !! "operand1" = Some operand1 /\
     reply !! "operand2" = Some operand2 /\
     reply !! "result" = Some result /\
     ChatbotWithTool.fallback_response user_question (Some reply) =
       Ret (ChatbotWithTool.tool_text user_question expression operation
              operand1 operand2 result)).
Proof.
  intros Hop E. rewrite calculate_floats in E. injection E as <-.
  cbv zeta. unfold ChatbotWithTool.fallback_response.
  rewrite nonempty_insert.
  unfold Agent.get_method, Agent.item, getitem, mbind, res_bind, mret, res_ret.
  destruct Hop as [-> | [-> | [-> | ->]]]; cbn [String.eqb Ascii.eqb Bool.eqb];
    try destruct (PyFloat.eqb b PyFloat.zero); unfold division_by_zero_reply.
  all: first
    [ left; split; [dict_lookup; reflexivity |];
      repeat (progress (dict_lookup; cbv beta iota; cbn [Py.truthy])); reflexivity
    | right; split; [dict_lookup; reflexivity |];
      do 5 eexists;
      repeat (split; [dict_lookup; reflexivity |]);
      repeat (progress (dict_lookup; cbv beta iota; cbn [Py.truthy])); reflexivity ].
Qed.

Lemma call_returns (service : res string) (label : string) :
  exists text,
    try_except service (fun e => mret (label +:+ str_exn e)) = Ret text.
Proof. apply (try_except_returns _ (fun e => label +:+ str_exn e)). Qed.

(** X21.  The chatbot of level 2 returns a text for every query,
    whatever the backend and also when its service calls raise. *)
Theorem chatbot_never_raises (show_dict : dict pyval -> string)
    (self : ChatbotWithTool.chatbot) (user_question : string) :
  exists text,
    ChatbotWithTool.process_query show_dict self user_question = Ret text.
Proof.
  unfold ChatbotWithTool.process_query.
  destruct (detect_mixed_query_returns user_question) as [mixed ->].
  unfold mbind at 1, res_bind at 1.
  destruct mixed; [eexists; reflexivity |].
  destruct (calculator_process_query_found user_question) as [r [-> H]].
  unfold mbind at 1, res_bind at 1. cbv zeta.
  unfold ChatbotWithTool.call_openai, ChatbotWithTool.call_gemini.
  destruct (ChatbotWithTool.llm_type self =? "openai")%string;
    [apply call_returns |].
  destruct (ChatbotWithTool.llm_type self =? "gemini")%string;
    [apply call_returns |].
  destruct r as [reply |]; [| eexists; reflexivity].
  destruct (H reply eq_refl) as [op [a [b [reply0 [Hop [E ->]]]]]].
  rewrite nonempty_insert.
  destruct (fallback_response_found user_question user_question op a b
              reply0 Hop E) as [[_ ->] | [_ [? [? [? [? [? [_ [_ [_ [_ [_ ->]]]]]]]]]]]];
    eexists; reflexivity.
Qed.

(** X22.  Without a language model, the chatbot of level 2 answers with
    one of five texts: the refusal of a mixed query, the answer built
    from a successful calculation, or one of the three canned answers.
    A calculation that failed is never reported: its query gets a canned
    answer. *)
Theorem chatbot_fallback_answers (show_dict : dict pyval -> string)
    (self : ChatbotWithTool.chatbot) (user_question : string) :
  ChatbotWithTool.llm_type self <> "openai" ->
  ChatbotWithTool.llm_type self <> "gemini" ->
  exists text,
    ChatbotWithTool.process_query show_dict self user_question = Ret text /\
    (text = ChatbotWithTool.mixed_text \/
     text = ChatbotWithTool.knowledge_text user_question \/
     exists reply expression operation operand1 operand2 result,
       CalculatorTool.process_query user_question = Ret (Some reply) /\
       reply !! "success" = Some (VBool true) /\
       reply !! "expression" = Some expression /\
       reply !! "operation" = Some operation /\
       reply !! "operand1" = Some operand1 /\
       reply !! "operand2" = Some operand2 /\
       reply !! "result" = Some result /\
       text = ChatbotWithTool.tool_text user_question expression operation
                operand1 operand2 result).
Proof.
  intros H1 H2. apply String.eqb_neq in H1, H2.
  unfold ChatbotWithTool.process_query.
  destruct (detect_mixed_query_returns user_question) as [mixed ->].
  unfold mbind at 1, res_bind at 1.
  destruct mixed; [eexists; split; [reflexivity | auto] |].
  destruct (calculator_process_query_found user_question) as [r [E H]].
  rewrite E. unfold mbind at 1, res_bind at 1. cbv zeta.
  rewrite H1, H2.
  destruct r as [reply |]; [| eexists; split; [reflexivity | auto]].
  destruct (H reply eq_refl) as [op [a [b [reply0 [Hop [E0 ->]]]]]].
  rewrite nonempty_insert.
  destruct (fallback_response_found user_question user_question op a b
              reply0 Hop E0)
    as [[_ ->] | [Hs [x1 [x2 [x3 [x4 [x5 [G1 [G2 [G3 [G4 [G5 ->]]]]]]]]]]]].
  - eexists. split; [reflexivity | auto].
  - eexists. split; [reflexivity |]. right. right.
    exists (<[ "original_query" := VStr user_question ]> reply0),
           x1, x2, x3, x4, x5. auto 10.
Qed.

Lemma chatbot_fallback_answers_witness :
  exists text,
    ChatbotWithTool.process_query (fun _ => "")
      (ChatbotWithTool.mkChatbot "fallback" (missing "client")
                                 (missing "model")) "10 divide 0" = Ret text /\
    (text = ChatbotWithTool.mixed_text \/
     text = ChatbotWithTool.knowledge_text "10 divide 0" \/
     exists reply expression operation operand1 operand2 result,
       CalculatorTool.process_query "10 divide 0" = Ret (Some reply) /\
       reply !! "success" = Some (VBool true) /\
       reply !! "expression" = Some expression /\
       reply !! "operation" = Some operation /\
       reply !! "operand1" = Some operand1 /\
       reply !! "operand2" = Some operand2 /\
       reply !! "result" = Some result /\
       text = ChatbotWithTool.tool_text "10 divide 0" expression operation
                operand1 operand2 result).
Proof.
  apply (chatbot_fallback_answers (fun _ => "")
           (ChatbotWithTool.mkChatbot "fallback" (missing "client")
                                      (missing "model")) "10 divide 0");
    discriminate.
Defined.

Lemma mixed_refusal (show_dict : dict pyval -> string)
    (self : ChatbotWithTool.chatbot) (user_question indicator : string)
    (found : dict scalar) :
  In indicator ChatbotWithTool.non_math_indicators ->
  occurs indicator (PyStr.lower user_question) ->
  CalculatorTool.detect_math_operation user_question = Ret (Some found) ->
  ChatbotWithTool.process_query show_dict self user_question =
    Ret ChatbotWithTool.mixed_text.
Proof.
  intros Hin Ho Hd.
  unfold ChatbotWithTool.process_query, ChatbotWithTool.detect_mixed_query.
  rewrite Hd. unfold mbind, res_bind, mret, res_ret.
  replace (existsb _ _) with true; [reflexivity |].
  symmetry. apply existsb_exists. exists indicator.
  split; [exact Hin | apply occurs_contains, Ho].
Qed.

(** ** Phrasings that are always read *)

Lemma analyze_query_detected (user_query : string) (step : TaskStep) :
  In step (detected_steps user_query) -> In step (analyze_query user_query).
Proof.
  unfold analyze_query. destruct (detected_steps user_query); [contradiction |].
  auto.
Qed.

Lemma extracted_from (user_query : string) (pattern : Re.regex)
    (sign shown : string) :
  (In pattern add_patterns /\ sign = "+" /\ shown = "+") \/
  (In pattern multiply_patterns /\ sign = "*" /\ shown = "×") ->
  Re.finditer pattern (PyStr.lower user_query) <> [] ->
  exists step,
    In step (analyze_query user_query) /\
    tool_type step = Some "calculator" /\
    parameters step !! "operation" = Some (PStr sign).
Proof.
  intros Hp Hf.
  destruct (Re.finditer pattern (PyStr.lower user_query)) as [| m0 ms] eqn:E;
    [contradiction |].
  exists (math_step (math_op sign shown m0)).
  split; [| split; [reflexivity | unfold math_step, math_op; simpl; dict_lookup; reflexivity]].
  apply analyze_query_detected. unfold detected_steps.
  apply in_or_app. right. apply in_or_app. left.
  apply in_map. unfold extract_math_operations.
  destruct Hp as [[Hin [-> ->]] | [Hin [-> ->]]].
  - apply in_or_app. left. apply in_flat_map. exists pattern.
    split; [exact Hin |]. apply in_map. rewrite E. left. reflexivity.
  - apply in_or_app. right. apply in_flat_map. exists pattern.
    split; [exact Hin |]. apply in_map. rewrite E. left. reflexivity.
Qed.

(** X23.  The agent reads a sum or a product wherever it stands in the
    query and whatever the case of the letters: when the lower-cased
    query holds [add n and m], [n + m], [n+m] or [n plus m] for two
    numerals, some sub-task is an addition for the calculator; with
    [multiply n and m], [n * m], [n*m] or [n times m], some sub-task is
    a multiplication. *)
Theorem calculation_phrasings_recognized (user_query pre form post n m : string) :
  numeral n -> numeral m ->
  PyStr.lower user_query = pre +:+ form +:+ post ->
  (In form (addition_phrasings n m) ->
   exists step,
     In step (analyze_query user_query) /\
     tool_type step = Some "calculator" /\
     parameters step !! "operation" = Some (PStr "+")) /\
  (In form (multiplication_phrasings n m) ->
   exists step,
     In step (analyze_query user_query) /\
     tool_type step = Some "calculator" /\
     parameters step !! "operation" = Some (PStr "*")).
Proof.
  intros Hn Hm E.
  destruct (matches_sign_form "+" n m post Hn Hm)
    as [[s1 [c1 P1]] [s2 [c2 P2]]].
  destruct (matches_sign_form "*" n m post Hn Hm)
    as [[s3 [c3 P3]] [s4 [c4 P4]]].
  destruct (matches_prefix_form "add" n m post Hn Hm) as [s5 [c5 P5]].
  destruct (matches_prefix_form "multiply" n m post Hn Hm) as [s6 [c6 P6]].
  destruct (matches_word_form "plus" n m post Hn Hm) as [s7 [c7 P7]].
  destruct (matches_word_form "times" n m post Hn Hm) as [s8 [c8 P8]].
  split; intros Hin; simpl in Hin;
    destruct Hin as [<- | [<- | [<- | [<- | []]]]];
    rewrite !append_assoc in E.
  - eapply (extracted_from user_query _ "+" "+");
      [left; split; [left; reflexivity | auto] |].
    rewrite E. exact (finditer_complete _ _ _ _ P5 pre).
  - eapply (extracted_from user_query _ "+" "+");
      [left; split; [right; left; reflexivity | auto] |].
    rewrite E. exact (finditer_complete _ _ _ _ P2 pre).
  - eapply (extracted_from user_query _ "+" "+");
      [left; split; [right; left; reflexivity | auto] |].
    rewrite E. exact (finditer_complete _ _ _ _ P1 pre).
  - eapply (extracted_from user_query _ "+" "+");
      [left; split; [right; right; left; reflexivity | auto] |].
    rewrite E. exact (finditer_complete _ _ _ _ P7 pre).
  - eapply (extracted_from user_query _ "*" "×");
      [right; split; [left; reflexivity | auto] |].
    rewrite E. exact (finditer_complete _ _ _ _ P6 pre).
  - eapply (extracted_from user_query _ "*" "×");
      [right; split; [right; left; reflexivity | auto] |].
    rewrite E. exact (finditer_complete _ _ _ _ P4 pre).
  - eapply (extracted_from user_query _ "*" "×");
      [right; split; [right; left; reflexivity | auto] |].
    rewrite E. exact (finditer_complete _ _ _ _ P3 pre).
  - eapply (extracted_from user_query _ "*" "×");
      [right; split; [right; right; left; reflexivity | auto] |].
    rewrite E. exact (finditer_complete _ _ _ _ P8 pre).
Qed.

Lemma calculation_phrasings_recognized_witness :
  (exists step,
     In step (analyze_query "Please ADD 2 and 3 for me") /\
     tool_type step = Some "calculator" /\
     parameters step !! "operation" = Some (PStr "+")) /\
  (exists step,
     In step (analyze_query "Tell me a joke, then give 5 times 6") /\
     tool_type step = Some "calculator" /\
     parameters step !! "operation" = Some (PStr "*")).
Proof.
  assert (H2 : numeral "2") by (split; [reflexivity | discriminate]).
  assert (H3 : numeral "3") by (split; [reflexivity | discriminate]).
  assert (H5 : numeral "5") by (split; [reflexivity | discriminate]).
  assert (H6 : numeral "6") by (split; [reflexivity | discriminate]).
  assert (E1 : PyStr.lower "Please ADD 2 and 3 for me" =
               "please " +:+ "add 2 and 3" +:+ " for me") by reflexivity.
  assert (E2 : PyStr.lower "Tell me a joke, then give 5 times 6" =
               "tell me a joke, then give " +:+ "5 times 6" +:+ "")
    by reflexivity.
  split.
  - destruct (calculation_phrasings_recognized _ _ _ _ _ _ H2 H3 E1)
      as [H _].
    apply H. left. reflexivity.
  - destruct (calculation_phrasings_recognized _ _ _ _ _ _ H5 H6 E2)
      as [_ H].
    apply H. right. right. right. left. reflexivity.
Defined.

Lemma first_match_complete (ps : list Re.regex) (t : string) (p : Re.regex)
    (m : Re.match_obj) :
  In p ps -> Re.search p t = Some m ->
  exists m', TranslatorTool.first_match ps t = Some m'.
Proof.
  induction ps as [| q ps IH]; [contradiction |].
  intros Hin Hs. simpl.
  destruct (Re.search q t) as [m' |] eqn:E; [eauto |].
  destruct Hin as [-> | Hin]; [congruence | auto].
Qed.

Lemma matches_quoted (n : nat) (phrase s : string) (c : gmap nat string) :
  clean Re.not_quote phrase -> phrase <> "" ->
  exists c', matches (Re.quoted n) ("'" +:+ phrase +:+ "'" +:+ s) c s c'.
Proof.
  intros Hq Hn. eexists. unfold Re.quoted.
  eapply matches_cat_cons; [constructor; reflexivity |].
  eapply matches_cat_cons.
  { constructor. constructor; [exact Hq |].
    destruct phrase; [contradiction | simpl; lia]. }
  eapply matches_cat_cons; [constructor; reflexivity |].
  apply matches_cat_nil.
Qed.

Lemma matches_translate_form (target phrase post : string) :
  clean Re.not_quote phrase -> phrase <> "" ->
  exists s' c',
    matches (Re.cat [Re.Lit "translate"; Re.ws1; Re.quoted 1; Re.ws1;
                     Re.Lit target; Re.ws1; Re.Lit "german"])
            ("translate '" +:+ phrase +:+ "' " +:+ target +:+ " german" +:+
             post) ∅ s' c'.
Proof.
  intros Hq Hn.
  destruct (matches_quoted 1 phrase (" " +:+ target +:+ " german" +:+ post)
              ∅ Hq Hn) as [c1 H1].
  exists post, c1.
  eapply matches_cat_cons; [apply (matches_lit_here "translate") |].
  eapply matches_cat_cons; [apply matches_ws1 |].
  eapply matches_cat_cons; [exact H1 |].
  eapply matches_cat_cons; [apply matches_ws1 |].
  eapply matches_cat_cons; [apply matches_lit_here |].
  eapply matches_cat_cons; [apply matches_ws1 |].
  eapply matches_cat_cons; [apply (matches_lit_here "german") |].
  apply matches_cat_nil.
Qed.

(** X24.  The agent reads a request for a translation wherever it stands
    in the query and whatever the case of the letters: when the
    lower-cased query holds [translate 'phrase' into german] or
    [translate 'phrase' to german], for a phrase without a quote, the
    first sub-task is a translation. *)
Theorem translation_phrasing_recognized
    (user_query pre target phrase post : string) :
  clean Re.not_quote phrase -> phrase <> "" ->
  target = "into" \/ target = "to" ->
  PyStr.lower user_query =
    pre +:+ "translate '" +:+ phrase +:+ "' " +:+ target +:+ " german" +:+
    post ->
  exists found steps,
    analyze_query user_query = translation_step found :: steps.
Proof.
  intros Hq Hn Ht E.
  destruct (matches_translate_form target phrase post Hq Hn) as [s' [c' M]].
  destruct (search_complete _ _ _ _ M pre) as [m Hs].
  rewrite <- E in Hs.
  assert (Hin : In (Re.cat [Re.Lit "translate"; Re.ws1; Re.quoted 1; Re.ws1;
                            Re.Lit target; Re.ws1; Re.Lit "german"])
                   TranslatorTool.patterns).
  { destruct Ht as [-> | ->]; [left | right; left]; reflexivity. }
  destruct (first_match_complete _ _ _ _ Hin Hs) as [m' Hm].
  unfold analyze_query, detected_steps,
    TranslatorTool.detect_translation_request.
  rewrite Hm. cbn [app]. eexists. eexists. reflexivity.
Qed.

Lemma translation_phrasing_recognized_witness :
  exists found steps,
    analyze_query "Now TRANSLATE 'Good Morning' to German, please" =
      translation_step found :: steps.
Proof.
  apply (translation_phrasing_recognized
           "Now TRANSLATE 'Good Morning' to German, please"
           "now " "to" "good morning" ", please").
  - reflexivity.
  - discriminate.
  - right. reflexivity.
  - reflexivity.
Defined.

Lemma detect_in_found (ps : list Re.regex) (text text_lower : string)
    (p : Re.regex) (m : Re.match_obj) :
  In p ps -> Re.search p text_lower = Some m ->
  CalculatorTool.detect_in ps text text_lower <> Ret None.
Proof.
  induction ps as [| q ps IH]; [contradiction |].
  intros Hin Hs. simpl.
  destruct (Re.search q text_lower) as [m' |] eqn:E.
  - destruct (CalculatorTool.operation_of q m' text text_lower);
      discriminate.
  - destruct Hin as [-> | Hin]; [congruence | auto].
Qed.

Lemma matches_operator_word (word s : string) (c : gmap nat string) :
  In word ["plus"; "minus"; "times"; "multiply"; "divide"] ->
  exists c',
    matches (Re.Group 2 CalculatorTool.operator_word) (word +:+ s) c s c'.
Proof.
  intros Hin. eexists. constructor. unfold CalculatorTool.operator_word.
  simpl in Hin.
  destruct Hin as [<- | [<- | [<- | [<- | [<- | []]]]]].
  - apply matches_alt_l, matches_lit_here.
  - apply matches_alt_r, matches_alt_l, matches_lit_here.
  - apply matches_alt_r, matches_alt_r, matches_alt_l, matches_lit_here.
  - apply matches_alt_r, matches_alt_r, matches_alt_r, matches_alt_l,
      matches_lit_here.
  - apply matches_alt_r, matches_alt_r, matches_alt_r, matches_alt_r,
      matches_lit_here.
Qed.

Lemma matches_word_pattern (word n m post : string) :
  numeral n -> numeral m ->
  In word ["plus"; "minus"; "times"; "multiply"; "divide"] ->
  exists s' c',
    matches word_pattern (n +:+ " " +:+ word +:+ " " +:+ m +:+ post) ∅ s' c'.
Proof.
  intros Hn Hm Hw.
  destruct (matches_digits 1 n (" " +:+ word +:+ " " +:+ m +:+ post) ∅ Hn)
    as [c1 H1].
  destruct (matches_operator_word word (" " +:+ m +:+ post) c1 Hw)
    as [c2 H2].
  destruct (matches_digits 3 m post c2 Hm) as [c3 H3].
  exists post, c3. unfold word_pattern.
  eapply matches_cat_cons; [exact H1 |].
  eapply matches_cat_cons; [apply matches_ws1 |].
  eapply matches_cat_cons; [exact H2 |].
  eapply matches_cat_cons; [apply matches_ws1 |].
  eapply matches_cat_cons; [exact H3 |].
  apply matches_cat_nil.
Qed.

Lemma calculator_phrasing_detected (text pre form post n m : string) :
  numeral n -> numeral m ->
  In form (calculator_phrasings n m) ->
  PyStr.lower text = pre +:+ form +:+ post ->
  exists found, CalculatorTool.detect_math_operation text = Ret (Some found).
Proof.
  intros Hn Hm Hin E.
  destruct (detect_math_operation_detected text) as [r [Hr _]].
  destruct r as [found |]; [eauto |]. exfalso.
  revert Hr. unfold CalculatorTool.detect_math_operation.
  rewrite E. clear E.
  apply in_app_or in Hin as [Hin | Hin];
    apply in_map_iff in Hin as [x [<- Hx]]; rewrite !append_assoc.
  - destruct (matches_sign_form x n m post Hn Hm) as [[s' [c' M]] _].
    destruct (search_complete _ _ _ _ M pre) as [m0 H0].
    eapply detect_in_found; [| exact H0].
    simpl in Hx. destruct Hx as [<- | [<- | [<- | [<- | []]]]];
      simpl; auto 10.
  - destruct (matches_word_pattern x n m post Hn Hm Hx) as [s' [c' M]].
    destruct (search_complete _ _ _ _ M pre) as [m0 H0].
    eapply detect_in_found; [| exact H0].
    right. left. reflexivity.
Qed.

(** X25.  The calculator reads an operation on two numerals wherever it
    stands in the text and whatever the case of the letters, when it is
    written with one of the four signs or with one of the five words
    between the numerals. *)
Theorem calculator_phrasings_detected (text pre form post n m : string) :
  numeral n -> numeral m ->
  In form (calculator_phrasings n m) ->
  PyStr.lower text = pre +:+ form +:+ post ->
  exists found,
    CalculatorTool.detect_math_operation text = Ret (Some found) /\
    detected text found.
Proof.
  intros Hn Hm Hin E.
  destruct (calculator_phrasing_detected _ _ _ _ _ _ Hn Hm Hin E)
    as [found Hd].
  exists found. split; [exact Hd |].
  destruct (detect_math_operation_detected text) as [r [Hr H]].
  apply H. congruence.
Qed.

Lemma calculator_phrasings_detected_witness :
  exists found,
    CalculatorTool.detect_math_operation "Compute 10 MINUS 3 now" =
      Ret (Some found) /\
    detected "Compute 10 MINUS 3 now" found.
Proof.
  assert (H10 : numeral "10") by (split; [reflexivity | discriminate]).
  assert (H3 : numeral "3") by (split; [reflexivity | discriminate]).
  apply (calculator_phrasings_detected "Compute 10 MINUS 3 now" "compute "
           "10 minus 3" " now" "10" "3" H10 H3).
  - simpl. auto 10.
  - reflexivity.
Defined.

(** X26.  At level 2 a calculation asked as a question is turned down:
    when the lower-cased query holds [what is] followed by an operation
    on two numerals, written with a sign or with a word, the chatbot
    answers with the text for mixed queries, whatever the backend. *)
Theorem calculation_question_refused (show_dict : dict pyval -> string)
    (self : ChatbotWithTool.chatbot)
    (user_question pre form post n m : string) :
  numeral n -> numeral m ->
  In form (calculator_phrasings n m) ->
  PyStr.lower user_question = pre +:+ "what is " +:+ form +:+ post ->
  ChatbotWithTool.process_query show_dict self user_question =
    Ret ChatbotWithTool.mixed_text.
Proof.
  intros Hn Hm Hin E.
  assert (E' : PyStr.lower user_question =
               (pre +:+ "what is ") +:+ form +:+ post)
    by (rewrite E, !append_assoc; reflexivity).
  destruct (calculator_phrasing_detected _ _ _ _ _ _ Hn Hm Hin E')
    as [found Hd].
  apply (mixed_refusal show_dict self user_question "what is" found).
  - simpl. auto 10.
  - rewrite E. apply occurs_later.
    apply (occurs_here "what is" (" " +:+ form +:+ post)).
  - exact Hd.
Qed.

Lemma calculation_question_refused_witness :
  ChatbotWithTool.process_query (fun _ => "")
    (ChatbotWithTool.mkChatbot "openai" (fun _ => Ret "84")
                               (missing "model")) "What is 12 times 7?" =
    Ret ChatbotWithTool.mixed_text.
Proof.
  assert (H12 : numeral "12") by (split; [reflexivity | discriminate]).
  assert (H7 : numeral "7") by (split; [reflexivity | discriminate]).
  apply (calculation_question_refused _ _ "What is 12 times 7?" ""
           "12 times 7" "?" "12" "7" H12 H7).
  - simpl. auto 10.
  - reflexivity.
Defined.
